(** * Timonel v0.7: the I2C bootloader for the ATtiny85

    A shallow embedding of [tml-bootloader-v0.7-2018-09-09.c]: the status
    register, the page buffer, the command dispatcher ([RequestEvent]), the
    flash writer ([FlashPage], [FlashRaw], [DeleteFlash]), the trampoline
    calculator and one pass of the supervisor loop of [main].

    Conventions.  [byte] and [word] variables of the C program are integers
    of [Z]; every place where C truncates to 8 or 16 bits is written with
    [u8] or [u16], and [int] arithmetic that may leave the 16-bit range of
    avr-gcc's [int] goes through [i16].  Arrays are lists updated by index. *)

From Stdlib Require Import ZArith Lia List Bool.
From stdpp Require Import base list.
Import ListNotations.

Local Open Scope Z_scope.

(** ** Fixed-width arithmetic *)

Definition u8 (x : Z) : Z := x mod 256.
Definition u16 (x : Z) : Z := x mod 65536.
(** avr-gcc's [int]: 16 bits, two's complement. *)
Definition i16 (x : Z) : Z := (x + 32768) mod 65536 - 32768.

Definition is_byte (x : Z) : Prop := 0 <= x < 256.
Definition is_word (x : Z) : Prop := 0 <= x < 65536.

(** ** Build-time constants of the source file *)

Definition PAGE_SIZE : Z := 64.
Definition RESET_PAGE : Z := 0.
Definition TOGGLETIME : Z := 0xFFFF.
Definition I2CDLYTIME : Z := 0x7FFF.
Definition RXDATASIZE : Z := 8.
Definition CYCLESTOEXIT : Z := 80.
Definition TIMONEL_VER_MJR : Z := 0.
Definition TIMONEL_VER_MNR : Z := 7.

Definition SR_INIT_1 : Z := 0.
Definition SR_INIT_2 : Z := 1.
Definition SR_DEL_FLASH : Z := 2.
Definition SR_APP_READY : Z := 3.
Definition SR_EXIT_TML : Z := 4.

(** The constants that the makefile ([TIMONEL_START]) and the header
    [nb-libs/nb-i2c-cmd.h] (the opcodes) supply.  Neither file is part of
    the sources, so they are the fields of a build configuration.  The two
    proof fields are what the compiler enforces on any build: the [#error]
    on [TIMONEL_START % PAGE_SIZE], and the distinctness of the [case]
    labels of the [switch] in [RequestEvent]. *)
Class Build : Type := {
  TIMONEL_START : Z;
  GETTMNLV : Z;
  EXITTMNL : Z;
  DELFLASH : Z;
  STPGADDR : Z;
  WRITPAGE : Z;
  INITTINY : Z;
  UNKNOWNC : Z;
  start_aligned : TIMONEL_START mod PAGE_SIZE = 0;
  labels_distinct :
    NoDup [GETTMNLV; EXITTMNL; DELFLASH; STPGADDR; WRITPAGE; INITTINY]
}.

(** ** The relative jump of the AVR instruction set

    [RJMP k] is the word [0xC000 + k] with [k] a 12-bit two's complement
    displacement counted in words; executed at word address [pc] it
    continues at [pc + k + 1].  The ATtiny85 has 4096 program words and a
    program counter of as many bits as that takes, so the sum wraps. *)

Definition FLASH_WORDS : Z := 4096.

Definition word_of_bytes (lo hi : Z) : Z := hi * 256 + lo.

Definition sext12 (k : Z) : Z := if k <? 2048 then k else k - 4096.

Definition is_rjmp (w : Z) : bool := Z.shiftr w 12 =? 0xC.

Definition rjmp_target (pc w : Z) : Z :=
  (pc + sext12 (Z.land w 0xFFF) + 1) mod FLASH_WORDS.

(** ** The self-programming hardware ([avr/boot.h])

    The flash is byte addressed.  [boot_page_fill] stages a word in the
    temporary page buffer of the memory controller, [boot_page_write]
    programs the staged page and [boot_page_erase] sets a page to [0xFF].
    Programming can only clear bits: a cell that was not erased ends up
    with the conjunction of its old contents and the staged byte.  The
    controller ignores the address bits below the page (for erase and
    write) and the page bits (for fill); it empties the temporary buffer
    after a page write.  [boot_spm_busy_wait] only waits, so it has no
    counterpart here.  Every operation is recorded in [spm_log]. *)

Inductive spm_op : Type :=
| PageErase (a : Z)
| PageFill (a w : Z)
| PageWrite (a : Z).

Record nvm : Type := {
  flash : Z -> Z;
  spm_temp : list Z;
  spm_log : list spm_op
}.

Definition same_page (a x : Z) : bool := x / PAGE_SIZE =? a / PAGE_SIZE.

Definition temp_byte (t : list Z) (i : Z) : Z :=
  let w := t !!! Z.to_nat (i / 2) in
  if i mod 2 =? 0 then Z.land w 0xFF else Z.land (Z.shiftr w 8) 0xFF.

Definition empty_temp : list Z := replicate 32 0xFFFF.

Definition boot_page_erase (a : Z) (m : nvm) : nvm :=
  {| flash := fun x => if same_page a x then 0xFF else flash m x;
     spm_temp := spm_temp m;
     spm_log := spm_log m ++ [PageErase a] |}.

Definition boot_page_fill (a w : Z) (m : nvm) : nvm :=
  {| flash := flash m;
     spm_temp := <[Z.to_nat (a mod PAGE_SIZE / 2) := w]> (spm_temp m);
     spm_log := spm_log m ++ [PageFill a w] |}.

Definition boot_page_write (a : Z) (m : nvm) : nvm :=
  {| flash := fun x =>
       if same_page a x
       then Z.land (flash m x) (temp_byte (spm_temp m) (x mod PAGE_SIZE))
       else flash m x;
     spm_temp := empty_temp;
     spm_log := spm_log m ++ [PageWrite a] |}.

(** ** The global variables *)

(** A store through an index that lies outside its array has no meaning in
    C: what it overwrites depends on where the compiler has put the
    variables.  The model leaves every variable as it was and records the
    store in [stray].  The record only grows, so a state whose [stray] is
    empty is one that the program has reached without such a store; what
    is said of runs below is said of those states. *)
Inductive array_id : Type := ArrCommand | ArrPageBuffer.

Record state : Type := {
  command : list Z;          (* byte command[(RXDATASIZE * 2) + 2] *)
  commandLength : Z;
  ledToggleTimer : Z;
  statusRegister : Z;
  i2cDly : Z;
  exitDly : Z;
  pageBuffer : list Z;       (* byte pageBuffer[PAGE_SIZE] *)
  flashPageAddr : Z;
  pageIX : Z;
  tplJumpLowByte : Z;
  tplJumpHighByte : Z;
  led : bool;                (* bit LED_UI_PIN of LED_UI_PORT *)
  mem : nvm;
  stray : list (array_id * Z * Z)
}.

Definition set_command (c : list Z) (n : Z) (s : state) : state :=
  {| command := c; commandLength := n; ledToggleTimer := ledToggleTimer s;
     statusRegister := statusRegister s; i2cDly := i2cDly s;
     exitDly := exitDly s; pageBuffer := pageBuffer s;
     flashPageAddr := flashPageAddr s; pageIX := pageIX s;
     tplJumpLowByte := tplJumpLowByte s;
     tplJumpHighByte := tplJumpHighByte s; led := led s; mem := mem s;
     stray := stray s |}.

Definition set_ledToggleTimer (v : Z) (s : state) : state :=
  {| command := command s; commandLength := commandLength s;
     ledToggleTimer := v;
     statusRegister := statusRegister s; i2cDly := i2cDly s;
     exitDly := exitDly s; pageBuffer := pageBuffer s;
     flashPageAddr := flashPageAddr s; pageIX := pageIX s;
     tplJumpLowByte := tplJumpLowByte s;
     tplJumpHighByte := tplJumpHighByte s; led := led s; mem := mem s;
     stray := stray s |}.

Definition set_statusRegister (v : Z) (s : state) : state :=
  {| command := command s; commandLength := commandLength s;
     ledToggleTimer := ledToggleTimer s;
     statusRegister := v; i2cDly := i2cDly s;
     exitDly := exitDly s; pageBuffer := pageBuffer s;
     flashPageAddr := flashPageAddr s; pageIX := pageIX s;
     tplJumpLowByte := tplJumpLowByte s;
     tplJumpHighByte := tplJumpHighByte s; led := led s; mem := mem s;
     stray := stray s |}.

Definition set_i2cDly (v : Z) (s : state) : state :=
  {| command := command s; commandLength := commandLength s;
     ledToggleTimer := ledToggleTimer s;
     statusRegister := statusRegister s; i2cDly := v;
     exitDly := exitDly s; pageBuffer := pageBuffer s;
     flashPageAddr := flashPageAddr s; pageIX := pageIX s;
     tplJumpLowByte := tplJumpLowByte s;
     tplJumpHighByte := tplJumpHighByte s; led := led s; mem := mem s;
     stray := stray s |}.

Definition set_exitDly (v : Z) (s : state) : state :=
  {| command := command s; commandLength := commandLength s;
     ledToggleTimer := ledToggleTimer s;
     statusRegister := statusRegister s; i2cDly := i2cDly s;
     exitDly := v; pageBuffer := pageBuffer s;
     flashPageAddr := flashPageAddr s; pageIX := pageIX s;
     tplJumpLowByte := tplJumpLowByte s;
     tplJumpHighByte := tplJumpHighByte s; led := led s; mem := mem s;
     stray := stray s |}.

Definition set_pageBuffer (b : list Z) (s : state) : state :=
  {| command := command s; commandLength := commandLength s;
     ledToggleTimer := ledToggleTimer s;
     statusRegister := statusRegister s; i2cDly := i2cDly s;
     exitDly := exitDly s; pageBuffer := b;
     flashPageAddr := flashPageAddr s; pageIX := pageIX s;
     tplJumpLowByte := tplJumpLowByte s;
     tplJumpHighByte := tplJumpHighByte s; led := led s; mem := mem s;
     stray := stray s |}.

Definition set_flashPageAddr (v : Z) (s : state) : state :=
  {| command := command s; commandLength := commandLength s;
     ledToggleTimer := ledToggleTimer s;
     statusRegister := statusRegister s; i2cDly := i2cDly s;
     exitDly := exitDly s; pageBuffer := pageBuffer s;
     flashPageAddr := v; pageIX := pageIX s;
     tplJumpLowByte := tplJumpLowByte s;
     tplJumpHighByte := tplJumpHighByte s; led := led s; mem := mem s;
     stray := stray s |}.

Definition set_pageIX (v : Z) (s : state) : state :=
  {| command := command s; commandLength := commandLength s;
     ledToggleTimer := ledToggleTimer s;
     statusRegister := statusRegister s; i2cDly := i2cDly s;
     exitDly := exitDly s; pageBuffer := pageBuffer s;
     flashPageAddr := flashPageAddr s; pageIX := v;
     tplJumpLowByte := tplJumpLowByte s;
     tplJumpHighByte := tplJumpHighByte s; led := led s; mem := mem s;
     stray := stray s |}.

Definition set_tplJump (lo hi : Z) (s : state) : state :=
  {| command := command s; commandLength := commandLength s;
     ledToggleTimer := ledToggleTimer s;
     statusRegister := statusRegister s; i2cDly := i2cDly s;
     exitDly := exitDly s; pageBuffer := pageBuffer s;
     flashPageAddr := flashPageAddr s; pageIX := pageIX s;
     tplJumpLowByte := lo;
     tplJumpHighByte := hi; led := led s; mem := mem s;
     stray := stray s |}.

Definition set_led (b : bool) (s : state) : state :=
  {| command := command s; commandLength := commandLength s;
     ledToggleTimer := ledToggleTimer s;
     statusRegister := statusRegister s; i2cDly := i2cDly s;
     exitDly := exitDly s; pageBuffer := pageBuffer s;
     flashPageAddr := flashPageAddr s; pageIX := pageIX s;
     tplJumpLowByte := tplJumpLowByte s;
     tplJumpHighByte := tplJumpHighByte s; led := b; mem := mem s;
     stray := stray s |}.

Definition set_mem (m : nvm) (s : state) : state :=
  {| command := command s; commandLength := commandLength s;
     ledToggleTimer := ledToggleTimer s;
     statusRegister := statusRegister s; i2cDly := i2cDly s;
     exitDly := exitDly s; pageBuffer := pageBuffer s;
     flashPageAddr := flashPageAddr s; pageIX := pageIX s;
     tplJumpLowByte := tplJumpLowByte s;
     tplJumpHighByte := tplJumpHighByte s; led := led s; mem := m;
     stray := stray s |}.

Definition set_stray (l : list (array_id * Z * Z)) (s : state) : state :=
  {| command := command s; commandLength := commandLength s;
     ledToggleTimer := ledToggleTimer s;
     statusRegister := statusRegister s; i2cDly := i2cDly s;
     exitDly := exitDly s; pageBuffer := pageBuffer s;
     flashPageAddr := flashPageAddr s; pageIX := pageIX s;
     tplJumpLowByte := tplJumpLowByte s;
     tplJumpHighByte := tplJumpHighByte s; led := led s; mem := mem s;
     stray := l |}.

(** [pageBuffer[i] = v] and [command[i] = v] for an index computed at run
    time. *)
Definition store_pageBuffer (i v : Z) (s : state) : state :=
  if (0 <=? i) && (i <? Z.of_nat (length (pageBuffer s)))
  then set_pageBuffer (<[Z.to_nat i := v]> (pageBuffer s)) s
  else set_stray (stray s ++ [(ArrPageBuffer, i, v)]) s.

Definition store_command (i v : Z) (s : state) : state :=
  if (0 <=? i) && (i <? Z.of_nat (length (command s)))
  then set_command (<[Z.to_nat i := v]> (command s)) (commandLength s) s
  else set_stray (stray s ++ [(ArrCommand, i, v)]) s.

(** Array reads; every index the program reads at is a constant below the
    size of the array, or a loop counter bounded by it. *)
Definition rd (l : list Z) (i : Z) : Z := l !!! Z.to_nat i.

(** Status register bits. *)
Definition bit (k : Z) : Z := Z.shiftl 1 k.
Definition flag (k : Z) (s : state) : bool := Z.testbit (statusRegister s) k.

(** ** The program *)

Section Program.
Context {cfg : Build}.

(** *** Trampoline calculator *)

(** [applJumpHighByte << 8], the sum and the increment are [int]
    operations; the mask keeps twelve bits of whatever they give.  The
    difference, its complement and the shift stay far inside the [int]
    range for a [TIMONEL_START] that fits the flash, and the result is
    stored in a [word]. *)
Definition CalculateTrampoline (applJumpLowByte applJumpHighByte : Z)
    (s : state) : state :=
  let jumpOffset :=
    u16 (Z.shiftr
           (Z.lnot
              (TIMONEL_START -
               Z.shiftl
                 (Z.land
                    (i16 (i16 (i16 (Z.shiftl applJumpHighByte 8)
                               + applJumpLowByte) + 1))
                    0x0FFF)
                 1))
           1) in
  let jumpOffset := u16 (jumpOffset + 1) in
  set_tplJump (u8 (Z.land jumpOffset 0xFF))
              (u8 (Z.shiftr (Z.land jumpOffset 0xF00) 8 + 0xC0)) s.

(** *** Flash writer *)

(** [pageBuffer[i] = 0xff], the body of the two clearing loops. *)
Definition clear_cell (s : state) (i : Z) : state :=
  set_pageBuffer (<[Z.to_nat i := 0xff]> (pageBuffer s)) s.

Definition ClearPageBuffer (s : state) : state :=
  fold_left clear_cell (seqZ 0 PAGE_SIZE) s.

(** [0xC000] does not fit an [int], so the sum is unsigned. *)
Definition reset_vector : Z := u16 (0xC000 + TIMONEL_START / 2 - 1).

Definition FixResetVector (s : state) : state :=
  let s := set_pageBuffer (<[0%nat := u8 (Z.land reset_vector 0xff)]> (pageBuffer s)) s in
  set_pageBuffer (<[1%nat := u8 (Z.shiftr reset_vector 8)]> (pageBuffer s)) s.

(** The body of the loop of [FlashRaw], whose counter runs over the even
    numbers below [PAGE_SIZE]. *)
Definition fill_word (pageAddress : Z) (buf : list Z) (m : nvm) (i : Z) : nvm :=
  let tempWord := u16 (Z.lor (Z.shiftl (rd buf (i + 1)) 8) (rd buf i)) in
  boot_page_fill (u16 (pageAddress + i)) tempWord m.

Definition FlashRaw (pageAddress : Z) (s : state) : state :=
  let m :=
    fold_left (fill_word pageAddress (pageBuffer s))
              (map (Z.mul 2) (seqZ 0 (PAGE_SIZE / 2))) (mem s) in
  set_mem (boot_page_write pageAddress m) s.

Definition CreateTrampoline (s : state) : state :=
  if flashPageAddr s <? u16 (TIMONEL_START - PAGE_SIZE) then
    let s := set_flashPageAddr (u16 (TIMONEL_START - PAGE_SIZE)) s in
    let s := fold_left clear_cell (seqZ 0 (PAGE_SIZE - 2)) s in
    let s := set_pageBuffer (<[62%nat := tplJumpLowByte s]> (pageBuffer s)) s in
    let s := set_pageBuffer (<[63%nat := tplJumpHighByte s]> (pageBuffer s)) s in
    FlashRaw (flashPageAddr s) s
  else s.

(** [pageAddress &= ~(PAGE_SIZE - 1)] *)
Definition page_base (pageAddress : Z) : Z :=
  u16 (Z.land pageAddress (Z.lnot (PAGE_SIZE - 1))).

Definition FlashPage (pageAddress : Z) (s : state) : state :=
  let pageAddress := page_base pageAddress in
  let s :=
    if pageAddress =? RESET_PAGE
    then FixResetVector
           (CalculateTrampoline (rd (pageBuffer s) 0) (rd (pageBuffer s) 1) s)
    else s in
  let s :=
    if pageAddress =? u16 (TIMONEL_START - PAGE_SIZE)
    then
      let s := set_pageBuffer (<[62%nat := tplJumpLowByte s]> (pageBuffer s)) s in
      set_pageBuffer (<[63%nat := tplJumpHighByte s]> (pageBuffer s)) s
    else s in
  if pageAddress >=? u16 TIMONEL_START then s
  else
    let s := FlashRaw pageAddress s in
    if pageAddress =? RESET_PAGE
    then set_flashPageAddr RESET_PAGE (CreateTrampoline s)
    else s.

(** The steps of [FlashPage] before its guard on the bootloader section,
    on their own; [FlashPage_unfold] below puts [FlashPage] back together
    from them. *)
Definition prepared (pb : Z) (s : state) : state :=
  let s :=
    if pb =? RESET_PAGE
    then FixResetVector
           (CalculateTrampoline (rd (pageBuffer s) 0) (rd (pageBuffer s) 1) s)
    else s in
  if pb =? u16 (TIMONEL_START - PAGE_SIZE)
  then
    let s := set_pageBuffer (<[62%nat := tplJumpLowByte s]> (pageBuffer s)) s in
    set_pageBuffer (<[63%nat := tplJumpHighByte s]> (pageBuffer s)) s
  else s.

(** The [while] loop of [DeleteFlash].  [address] is a [word], so there are
    at most [2^16 / PAGE_SIZE] values it can take before it repeats; the
    loop is unrolled that many times at most.  [erase_loop_spec] below
    shows that it is the guard that ends it. *)
Fixpoint erase_loop (n : nat) (address : Z) (m : nvm) : Z * nvm :=
  match n with
  | O => (address, m)
  | S n =>
      if address <? u16 TIMONEL_START
      then erase_loop n (u16 (address + PAGE_SIZE)) (boot_page_erase address m)
      else (address, m)
  end.

Definition DeleteFlash (s : state) : state :=
  let s := ClearPageBuffer s in
  let s := FixResetVector s in
  let s := set_mem (boot_page_erase 0 (mem s)) s in
  let s := FlashRaw 0 s in
  let address := PAGE_SIZE in
  let s := FlashPage address s in
  set_mem (snd (erase_loop 1024 address (mem s))) s.

(** Two observations for the statements below.  The page addresses that
    a call of [FlashPage] programs: the page of its argument, and after
    page 0 the trampoline page when [flashPageAddr] lies below it.  And the
    page buffer that [DeleteFlash] programs into page 0. *)
Definition FlashPage_targets (a : Z) (s : state) : list Z :=
  let pb := page_base a in
  if pb >=? TIMONEL_START then []
  else if pb =? RESET_PAGE
       then if flashPageAddr s <? TIMONEL_START - PAGE_SIZE
            then [RESET_PAGE; TIMONEL_START - PAGE_SIZE] else [RESET_PAGE]
       else [pb].

Definition vector_page : list Z :=
  <[1%nat := u8 (Z.shiftr reset_vector 8)]>
    (<[0%nat := u8 (Z.land reset_vector 0xff)]> (replicate 64 0xff)).

(** *** Command dispatcher *)

(** [ReceiveEvent]: [rx] are the bytes that the successive calls of
    [UsiTwiReceiveByte] return, [commandBytes] of them. *)
Definition ReceiveEvent (rx : list Z) (s : state) : state :=
  let s := set_command (command s) (u8 (Z.of_nat (length rx))) s in
  fold_left (fun s iv => store_command (fst iv) (snd iv) s)
            (zip (seqZ 0 (commandLength s)) rx) s.

(** The body of the loop of the [WRITPAGE] case; [acc] is the state with
    [reply[1]]. *)
Definition write_byte (c : list Z) (acc : state * Z) (i : Z) : state * Z :=
  let s := store_pageBuffer (pageIX (fst acc)) (rd c i) (fst acc) in
  (set_pageIX (u8 (pageIX s + 1)) s, u8 (snd acc + rd c i)).

(** [RequestEvent] gives the new state and the bytes handed to
    [UsiTwiTransmitByte], in order. *)
Definition RequestEvent (s : state) : state * list Z :=
  let c := command s in
  let opCodeAck := u8 (Z.lnot (rd c 0)) in
  if rd c 0 =? GETTMNLV then
    let reply :=
      [opCodeAck; 78; 66; 84; TIMONEL_VER_MJR; TIMONEL_VER_MNR;
       u8 (Z.shiftr (Z.land TIMONEL_START 0xFF00) 8);
       u8 (Z.land TIMONEL_START 0xFF)] in
    (set_statusRegister (Z.lor (statusRegister s) (bit SR_INIT_2)) s, reply)
  else if rd c 0 =? EXITTMNL then
    (set_statusRegister (Z.lor (statusRegister s) (bit SR_EXIT_TML)) s,
     [opCodeAck])
  else if rd c 0 =? DELFLASH then
    (set_statusRegister (Z.lor (statusRegister s) (bit SR_DEL_FLASH)) s,
     [opCodeAck])
  else if rd c 0 =? STPGADDR then
    (set_flashPageAddr (u16 (Z.shiftl (rd c 1) 8 + rd c 2)) s,
     [opCodeAck; u8 (rd c 1 + rd c 2)])
  else if rd c 0 =? WRITPAGE then
    let acc := fold_left (write_byte c) (seqZ 1 RXDATASIZE) (s, 0) in
    let sum := snd acc in
    let s := fst acc in
    let s :=
      if negb (sum =? rd c (RXDATASIZE + 1)) then
        let s := set_statusRegister
                   (Z.land (statusRegister s) (Z.lnot (bit SR_APP_READY))) s in
        set_statusRegister (Z.lor (statusRegister s) (bit SR_DEL_FLASH)) s
      else s in
    (s, [opCodeAck; sum])
  else if rd c 0 =? INITTINY then
    (set_statusRegister (Z.lor (statusRegister s) (bit SR_INIT_1)) s,
     [opCodeAck])
  else
    (s, replicate (Z.to_nat (commandLength s)) UNKNOWNC).

(** *** Supervisor loop *)

(** What one pass of the [for (;;)] of [main] ends in: the loop goes on, or
    [RunApplication()] has been called and control has left for the
    trampoline. *)
Inductive outcome : Type :=
| Running (s : state)
| HandOff (s : state).

Definition sr_mask (s : state) (m : Z) : Z := Z.land (statusRegister s) m.

(** The body of [if (pageIX == PAGE_SIZE)]. *)
Definition commit (s : state) : state :=
  let s := set_led (negb (led s)) s in
  let s := FlashPage (flashPageAddr s) s in
  let s := set_flashPageAddr (u16 (flashPageAddr s + PAGE_SIZE)) s in
  set_pageIX 0 s.

(** The body of [if (i2cDly-- <= 0)]. *)
Definition tick (s : state) : outcome :=
  if sr_mask s (bit SR_EXIT_TML + bit SR_APP_READY)
     =? bit SR_EXIT_TML + bit SR_APP_READY
  then HandOff s
  else
    let s :=
      if sr_mask s (bit SR_EXIT_TML + bit SR_APP_READY) =? bit SR_EXIT_TML
      then DeleteFlash s else s in
    if sr_mask s (bit SR_DEL_FLASH) =? bit SR_DEL_FLASH
    then HandOff (DeleteFlash (set_led true s))
    else
      let s := if pageIX s =? PAGE_SIZE then commit s else s in
      Running (set_i2cDly I2CDLYTIME s).

Definition initialized (s : state) : bool :=
  sr_mask s (bit SR_INIT_1 + bit SR_INIT_2) =? bit SR_INIT_1 + bit SR_INIT_2.

(** The first half of the loop body, up to the emulated interrupts. *)
Definition supervise (s : state) : outcome :=
  if negb (initialized s) then
    let t := ledToggleTimer s in
    let s := set_ledToggleTimer (u16 (t + 1)) s in
    if t >=? TOGGLETIME then
      let s := set_led (negb (led s)) s in
      let s := set_ledToggleTimer 0 s in
      let e := exitDly s in
      let s := set_exitDly (u8 (e - 1)) s in
      if e =? 0 then HandOff s else Running s
    else Running s
  else
    let d := i2cDly s in
    let s := set_i2cDly (u16 (d - 1)) s in
    if d <=? 0 then tick s else Running s.

(** The emulated interrupts.  [UsiStartHandler] and [UsiOverflowHandler]
    belong to the bus layer; what the bootloader sees of them are the calls
    of its two callbacks that they make, any number of them in a pass. *)
Inductive callback : Type :=
| Receive (rx : list Z)
| Request.

Definition call (c : callback) (s : state) : state :=
  match c with
  | Receive rx => ReceiveEvent rx s
  | Request => fst (RequestEvent s)
  end.

Definition usi_poll (cs : list callback) (s : state) : state :=
  fold_left (fun s c => call c s) cs s.

(** One pass of the main loop. *)
Definition main_pass (cs : list callback) (s : state) : outcome :=
  match supervise s with
  | Running s => Running (usi_poll cs s)
  | HandOff s => HandOff s
  end.

(** The state in which [main] enters its loop, over the flash [f] the chip
    holds at reset. *)
Definition boot_state (f : Z -> Z) : state :=
  {| command := replicate 18 0; commandLength := 0; ledToggleTimer := 0;
     statusRegister := bit SR_APP_READY; i2cDly := I2CDLYTIME;
     exitDly := CYCLESTOEXIT; pageBuffer := replicate 64 0;
     flashPageAddr := 0; pageIX := 0; tplJumpLowByte := 0;
     tplJumpHighByte := 0; led := false;
     mem := {| flash := f; spm_temp := empty_temp; spm_log := [] |};
     stray := [] |}.

(** The states of a run, at the top of the loop ([AtLoop]) and between the
    supervisor and the end of the pass ([InPoll]), when the bus layer only
    makes the calls that [ok] allows; [ok] sees the state in which the
    callback would run. *)
Inductive phase : Type := AtLoop | InPoll.

Inductive reach (ok : callback -> state -> Prop) (f : Z -> Z)
  : phase -> state -> Prop :=
| reach_boot : reach ok f AtLoop (boot_state f)
| reach_supervise s s1 :
    reach ok f AtLoop s -> supervise s = Running s1 -> reach ok f InPoll s1
| reach_call c s :
    reach ok f InPoll s -> ok c s -> reach ok f InPoll (call c s)
| reach_loop s :
    reach ok f InPoll s -> reach ok f AtLoop s.

Definition reachable (f : Z -> Z) (s : state) : Prop :=
  reach (fun _ _ => True) f AtLoop s.

(** A master that sends [WritePageChunk] only while the page buffer has
    room for the chunk. *)
Definition chunk_fits (c : callback) (s : state) : Prop :=
  c = Request -> rd (command s) 0 = WRITPAGE ->
  pageIX s + RXDATASIZE <= PAGE_SIZE.

(** A master whose [SetPageAddress] commands carry page addresses. *)
Definition page_addressed (c : callback) (s : state) : Prop :=
  c = Request -> rd (command s) 0 = STPGADDR ->
  u16 (Z.shiftl (rd (command s) 1) 8 + rd (command s) 2) mod PAGE_SIZE = 0.

(** Several passes in a row, each with the callbacks made in it. *)
Fixpoint run (ps : list (list callback)) (s : state) : outcome :=
  match ps with
  | [] => Running s
  | cs :: ps =>
      match main_pass cs s with
      | Running s => run ps s
      | HandOff s => HandOff s
      end
  end.

Definition state_of (o : outcome) : state :=
  match o with Running s => s | HandOff s => s end.

Definition is_running (o : outcome) : bool :=
  match o with Running _ => true | HandOff _ => false end.

(** Whether some call of the pass, or some pass of the run, hands a
    command with opcode [op] to [RequestEvent]. *)
Fixpoint polls (op : Z) (cs : list callback) (s : state) : bool :=
  match cs with
  | [] => false
  | c :: cs =>
      match c with
      | Request => rd (command s) 0 =? op
      | Receive _ => false
      end
      || polls op cs (call c s)
  end.

Fixpoint dispatches (op : Z) (ps : list (list callback)) (s : state) : bool :=
  match ps with
  | [] => false
  | cs :: ps =>
      match supervise s with
      | HandOff _ => false
      | Running s1 => polls op cs s1 || dispatches op ps (usi_poll cs s1)
      end
  end.

(** The master writes the one-byte command [op] and reads the reply. *)
Definition request (op : Z) (s : state) : state :=
  fst (RequestEvent (ReceiveEvent [op] s)).

End Program.

(** ** Observations on states *)

(** The arrays have the sizes of their declarations. *)
Definition wf (s : state) : Prop :=
  length (command s) = 18%nat /\
  length (pageBuffer s) = 64%nat /\
  length (spm_temp (mem s)) = 32%nat.

(** The status register never shows an application that is neither ready
    nor marked for deletion. *)
Definition sr_inv (s : state) : Prop :=
  flag SR_APP_READY s = false -> flag SR_DEL_FLASH s = true.

(** The variables that the flash writer does not touch. *)
Definition control (s : state)
  : list Z * Z * Z * Z * Z * Z * Z * bool * list (array_id * Z * Z) :=
  (command s, commandLength s, ledToggleTimer s, statusRegister s,
   i2cDly s, exitDly s, pageIX s, led s, stray s).

(** The variables that buffering a chunk does not touch. *)
Definition outside_buffer (s : state)
  : list Z * Z * Z * Z * Z * Z * Z * Z * Z * bool * nvm :=
  (command s, commandLength s, ledToggleTimer s, statusRegister s,
   i2cDly s, exitDly s, flashPageAddr s, tplJumpLowByte s,
   tplJumpHighByte s, led s, mem s).

(** The word that [FlashRaw] stages for the [j]-th word of the page. *)
Definition staged (buf : list Z) (j : Z) : Z :=
  u16 (Z.lor (Z.shiftl (rd buf (2 * j + 1)) 8) (rd buf (2 * j))).

(** The byte of the staged page that lands in the [i]-th cell of the page. *)
Definition staged_byte (buf : list Z) (i : Z) : Z :=
  if i mod 2 =? 0 then Z.land (staged buf (i / 2)) 0xFF
  else Z.land (Z.shiftr (staged buf (i / 2)) 8) 0xFF.

Definition flash_word (m : nvm) (a : Z) : Z :=
  word_of_bytes (flash m a) (flash m (a + 1)).

Definition page_writes (l : list spm_op) : list Z :=
  omap (fun o => match o with PageWrite a => Some a | _ => None end) l.

Definition page_erases (l : list spm_op) : list Z :=
  omap (fun o => match o with PageErase a => Some a | _ => None end) l.

(** The data bytes of the frame in [command] and their checksum as the
    protocol defines it. *)
Definition chunk_data (s : state) : list Z :=
  map (rd (command s)) (seqZ 1 RXDATASIZE).

Definition checksum (l : list Z) : Z := fold_right Z.add 0 l mod 256.

(** The last instruction slot of the trampoline page holds a relative
    jump. *)
Definition trampoline_valid {cfg : Build} (m : nvm) : bool :=
  is_rjmp (flash_word m (TIMONEL_START - 2)).

(** ** A build

    A bootloader at [0x1A00] of the 8 KiB of an ATtiny85, with one choice of
    opcodes. *)
Definition attiny85 : Build :=
  {| TIMONEL_START := 0x1A00;
     GETTMNLV := 0x82; EXITTMNL := 0x86; DELFLASH := 0x83;
     STPGADDR := 0x84; WRITPAGE := 0x85; INITTINY := 0x81;
     UNKNOWNC := 0xFF;
     start_aligned := eq_refl;
     labels_distinct := ltac:(apply (bool_decide_unpack _); exact I) |}.

Definition erased : Z -> Z := fun _ => 0xFF.

(** Runs of that build.  A chunk with a correct checksum. *)
Definition chunk_frame : list Z := [0x85; 1; 2; 3; 4; 5; 6; 7; 8; 36].

(** The master sends [INITTINY], reads the reply and falls silent, up to
    the last pass of the countdown that precedes the handshake. *)
Definition lone_init_run : list (list callback) :=
  [[Receive [0x81]]; [Request]] ++ replicate (Z.to_nat 5308414) [].

(** The master sets the page address to 1. *)
Definition odd_address_run : list (list callback) :=
  [[Receive [0x84; 0; 1]]; [Request]].

(** The handshake, then the page address 5, then a page of eight chunks,
    then idle passes up to the one in which the supervisor's timer
    expires. *)
Definition handshake : list (list callback) :=
  [[Receive [0x81]]; [Request]; [Receive [0x82]]; [Request]].

Definition page_at_5_run : list (list callback) :=
  handshake
  ++ [[Receive [0x84; 0; 5]]; [Request]; [Receive chunk_frame]]
  ++ replicate 8 [Request]
  ++ replicate (Z.to_nat 32756) [].

(** The handshake, a chunk with a wrong checksum, [RequestExit], then idle
    passes up to the one in which the timer expires. *)
Definition bad_frame : list Z := [0x85; 1; 2; 3; 4; 5; 6; 7; 8; 0].

Definition exit_after_bad_chunk_run : list (list callback) :=
  handshake
  ++ [[Receive bad_frame]; [Request]; [Receive [0x86]]; [Request]]
  ++ replicate (Z.to_nat 32763) [].

(** The first pass of a run, up to the supervisor's part of it, and two
    callbacks in it: a chunk, and the page address [0x0040]. *)
Definition first_poll : state :=
  state_of (supervise (cfg := attiny85) (boot_state erased)).

Definition one_chunk : state :=
  call (cfg := attiny85) Request
    (call (cfg := attiny85) (Receive chunk_frame) first_poll).

Definition page_1_addressed : state :=
  call (cfg := attiny85) Request
    (call (cfg := attiny85) (Receive [0x84; 0x00; 0x40]) first_poll).

(** A chip with an application installed: an erased flash but for the
    trampoline, the jump [RJMP .+0] in the last word below the bootloader. *)
Definition installed : Z -> Z :=
  fun a => if a =? 0x19FE then 0x00 else if a =? 0x19FF then 0xC0 else 0xFF.

(** ** Observations for the properties of the dispatcher and the loop *)

(** The record of the stores outside the arrays only grows. *)
Definition grows (s s' : state) : Prop := exists l, stray s' = stray s ++ l.

(** A chunk, its eight data bytes and the byte sent after them, passes the
    test of the [WRITPAGE] case. *)
Definition chunk_ok (d : list Z * Z) : bool := checksum (fst d) =? snd d.

(** What a failed checksum makes of the status register. *)
Definition failed (sr : Z) : Z :=
  Z.lor (Z.land sr (Z.lnot (bit SR_APP_READY))) (bit SR_DEL_FLASH).

(** The page that [CreateTrampoline] programs. *)
Definition trampoline_page (lo hi : Z) : list Z :=
  replicate 62 0xff ++ [lo; hi].

(** The number of loop passes that an uninitialized bootloader has left,
    the one that calls [RunApplication] included. *)
Definition passes_left (s : state) : Z :=
  exitDly s * (TOGGLETIME + 1) + (TOGGLETIME + 1 - ledToggleTimer s).

(** What no command undoes: a cleared [SR_APP_READY], a set [SR_DEL_FLASH],
    a set [SR_EXIT_TML]; and the three unused bits. *)
Definition sticky (s s' : state) : Prop :=
  (flag SR_APP_READY s = false -> flag SR_APP_READY s' = false) /\
  (flag SR_DEL_FLASH s = true -> flag SR_DEL_FLASH s' = true) /\
  (flag SR_EXIT_TML s = true -> flag SR_EXIT_TML s' = true) /\
  (forall k, SR_EXIT_TML < k -> flag k s' = flag k s).

Section Traffic.
Context {cfg : Build}.

(** The master sends the chunks [ds], each its eight data bytes and the
    checksum byte it puts after them, and reads each reply. *)
Definition chunk_calls (ds : list (list Z * Z)) : list callback :=
  flat_map (fun d => [Receive (WRITPAGE :: fst d ++ [snd d]); Request]) ds.

(** The page buffer that [FlashPage] programs into a page other than
    page 0: on the trampoline page the last two bytes give way to the
    trampoline. *)
Definition programmed (pb : Z) (s : state) : list Z :=
  if pb =? TIMONEL_START - PAGE_SIZE
  then <[63%nat := tplJumpHighByte s]>
         (<[62%nat := tplJumpLowByte s]> (pageBuffer s))
  else pageBuffer s.

(** A master whose frames fit [command] and whose chunks fit the page
    buffer. *)
Definition in_bounds (c : callback) (s : state) : Prop :=
  chunk_fits c s /\
  forall rx, c = Receive rx -> (length rx <= length (command s))%nat.

(** The callback is a reply to [WRITPAGE]: the one callback that moves
    [pageIX]. *)
Definition is_chunk (c : callback) (s : state) : bool :=
  match c with
  | Request => rd (command s) 0 =? WRITPAGE
  | Receive _ => false
  end.

End Traffic.

(** More runs of the build [attiny85]: a page of eight chunks with their
    checksums; the handshake; the handshake and the page address [0x0040];
    the handshake, [DeleteApplication] and idle passes up to the one of the
    next tick. *)
Definition good_chunks : list (list Z * Z) :=
  replicate 8 ([1; 2; 3; 4; 5; 6; 7; 8], 36).

Definition handshaken : state :=
  state_of (run (cfg := attiny85) handshake (boot_state erased)).

Definition addressed_64 : state :=
  state_of (run (cfg := attiny85)
              (handshake ++ [[Receive [0x84; 0x00; 0x40]]; [Request]])
              (boot_state erased)).

Definition delete_run : list (list callback) :=
  handshake ++ [[Receive [0x83]]; [Request]]
  ++ replicate (Z.to_nat 32765) [].

Definition delete_requested : state :=
  state_of (run (cfg := attiny85) delete_run (boot_state installed)).

(** * Properties *)

(** ** Bit operations as arithmetic *)

Lemma lnot_eq (a : Z) : Z.lnot a = - a - 1.
Proof. unfold Z.lnot. lia. Qed.

Lemma land_FFF (a : Z) : Z.land a 0xFFF = a mod 4096.
Proof. change 0xFFF with (Z.ones 12). now rewrite Z.land_ones. Qed.

Lemma land_FF (a : Z) : Z.land a 0xFF = a mod 256.
Proof. change 0xFF with (Z.ones 8). now rewrite Z.land_ones. Qed.

Lemma land_F00 (a : Z) : Z.shiftr (Z.land a 0xF00) 8 = (a / 256) mod 16.
Proof.
  rewrite Z.shiftr_land. change (Z.shiftr 0xF00 8) with (Z.ones 4).
  rewrite Z.land_ones by lia. now rewrite Z.shiftr_div_pow2.
Qed.

Lemma shiftr_8 (a : Z) : Z.shiftr a 8 = a / 256.
Proof. now rewrite Z.shiftr_div_pow2. Qed.

Lemma shiftr_12 (a : Z) : Z.shiftr a 12 = a / 4096.
Proof. now rewrite Z.shiftr_div_pow2. Qed.

Lemma shiftl_8 (a : Z) : Z.shiftl a 8 = a * 256.
Proof. now rewrite Z.shiftl_mul_pow2. Qed.

Lemma u8_byte (x : Z) : is_byte (u8 x).
Proof. unfold is_byte, u8. apply Z.mod_pos_bound. lia. Qed.

Lemma u16_word (x : Z) : is_word (u16 x).
Proof. unfold is_word, u16. apply Z.mod_pos_bound. lia. Qed.

Lemma u8_id (x : Z) : is_byte x -> u8 x = x.
Proof. unfold is_byte, u8. intros. now apply Z.mod_small. Qed.

Lemma u16_id (x : Z) : is_word x -> u16 x = x.
Proof. unfold is_word, u16. intros. now apply Z.mod_small. Qed.

(** The mask of [FlashPage] drops the offset inside the page. *)
Lemma page_base_eq (a : Z) : is_word a -> page_base a = a - a mod PAGE_SIZE.
Proof.
  unfold is_word, page_base, PAGE_SIZE. intros Ha.
  rewrite <- Z.ldiff_land. change (64 - 1) with (Z.ones 6).
  rewrite Z.ldiff_ones_r by lia.
  rewrite Z.shiftl_mul_pow2, Z.shiftr_div_pow2 by lia.
  change (2 ^ 6) with 64. unfold u16.
  Z.div_mod_to_equations. lia.
Qed.

Lemma page_base_aligned (a : Z) : is_word a -> page_base a mod PAGE_SIZE = 0.
Proof.
  intros Ha. rewrite page_base_eq by assumption.
  unfold is_word, PAGE_SIZE in *. Z.div_mod_to_equations. lia.
Qed.

Lemma page_base_word (a : Z) : is_word (page_base a).
Proof. apply u16_word. Qed.

Section Trampoline.
Context {cfg : Build}.

Lemma start_even : TIMONEL_START mod 2 = 0.
Proof.
  pose proof start_aligned as H. unfold PAGE_SIZE in H.
  Z.div_mod_to_equations. lia.
Qed.

(** The two bytes in closed form: the displacement is the word address the
    application's reset vector jumps to, less the word address of the
    bootloader, on twelve bits. *)
Lemma CalculateTrampoline_bytes (lo hi : Z) (s : state) :
  0 < TIMONEL_START <= 8192 ->
  let d := (hi * 256 + lo + 1) mod 4096 - TIMONEL_START / 2 in
  tplJumpLowByte (CalculateTrampoline lo hi s) = d mod 256 /\
  tplJumpHighByte (CalculateTrampoline lo hi s) = 0xC0 + (d / 256) mod 16.
Proof.
  intros HT. pose proof start_even as He.
  unfold CalculateTrampoline. cbn [tplJumpLowByte tplJumpHighByte set_tplJump].
  rewrite land_F00, !land_FF, land_FFF, lnot_eq.
  rewrite Z.shiftl_mul_pow2, Z.shiftr_div_pow2, Z.shiftl_mul_pow2 by lia.
  unfold u8, u16, i16. change (2 ^ 8) with 256. change (2 ^ 1) with 2.
  split; Z.div_mod_to_equations; lia.
Qed.

(** C4.  For every pair of bytes [(lo, hi)] (so for every valid reset
    vector), the two bytes that [CalculateTrampoline] leaves in
    [tplJumpLowByte] and [tplJumpHighByte] are bytes, form a relative jump,
    and that jump, decoded at the last word of the trampoline page (word
    address [TIMONEL_START / 2 - 1]), goes where the jump [(lo, hi)] goes
    from the reset vector at word address 0. *)
Theorem trampoline_round_trip (lo hi : Z) (s : state) :
  is_byte lo -> is_byte hi ->
  0 < TIMONEL_START <= 8192 ->
  let s' := CalculateTrampoline lo hi s in
  let w' := word_of_bytes (tplJumpLowByte s') (tplJumpHighByte s') in
  is_byte (tplJumpLowByte s') /\
  is_byte (tplJumpHighByte s') /\
  is_rjmp w' = true /\
  rjmp_target (TIMONEL_START / 2 - 1) w' = rjmp_target 0 (word_of_bytes lo hi).
Proof.
  intros Hlo Hhi HT s' w'.
  destruct (CalculateTrampoline_bytes lo hi s HT) as [El Eh].
  fold s' in El, Eh. cbv zeta in El, Eh.
  pose proof start_even as He.
  unfold is_byte in *.
  assert (Hw : w' = 0xC000 + ((hi * 256 + lo + 1) mod 4096 - TIMONEL_START / 2) mod 4096).
  { unfold w', word_of_bytes. rewrite El, Eh. Z.div_mod_to_equations. lia. }
  repeat split.
  - rewrite El. Z.div_mod_to_equations. lia.
  - rewrite El. Z.div_mod_to_equations. lia.
  - rewrite Eh. Z.div_mod_to_equations. lia.
  - rewrite Eh. Z.div_mod_to_equations. lia.
  - unfold is_rjmp. rewrite shiftr_12, Hw. apply Z.eqb_eq.
    Z.div_mod_to_equations. lia.
  - unfold rjmp_target, FLASH_WORDS, sext12. rewrite !land_FFF, Hw.
    unfold word_of_bytes.
    repeat match goal with |- context [?a <? ?b] => destruct (Z.ltb_spec a b) end;
      Z.div_mod_to_equations; lia.
Qed.

End Trampoline.

(** ** The loops of the flash writer *)

Lemma fold_left_inv {A B : Type} (f : A -> B -> A) (P : A -> Prop)
    (l : list B) (a : A) :
  P a -> (forall x b, P x -> P (f x b)) -> P (fold_left f l a).
Proof.
  intros Ha Hf. revert a Ha.
  induction l as [|b l IH]; intros a Ha; cbn [fold_left]; auto.
Qed.

Lemma set_pageBuffer_same (s : state) : set_pageBuffer (pageBuffer s) s = s.
Proof. now destruct s. Qed.

Lemma clear_cells (n : nat) (s : state) :
  (n <= length (pageBuffer s))%nat ->
  fold_left clear_cell (seqZ 0 (Z.of_nat n)) s
  = set_pageBuffer (replicate n 0xff ++ drop n (pageBuffer s)) s.
Proof.
  induction n as [|n IH]; intros Hn.
  - cbn. now rewrite drop_0, set_pageBuffer_same.
  - rewrite seqZ_S, fold_left_app, IH by lia. cbn [fold_left].
    unfold clear_cell. cbn [pageBuffer set_pageBuffer].
    rewrite Z.add_0_l, Nat2Z.id.
    destruct (lookup_lt_is_Some_2 (pageBuffer s) n ltac:(lia)) as [x Hx].
    rewrite (drop_S _ _ _ Hx).
    rewrite insert_app_r_alt by (rewrite length_replicate; lia).
    rewrite length_replicate, Nat.sub_diag. cbn [insert list_insert].
    rewrite replicate_S_end, <- app_assoc. reflexivity.
Qed.

Lemma ClearPageBuffer_eq (s : state) :
  length (pageBuffer s) = 64%nat ->
  ClearPageBuffer s = set_pageBuffer (replicate 64 0xff) s.
Proof.
  intros Hl. unfold ClearPageBuffer.
  change PAGE_SIZE with (Z.of_nat 64). rewrite clear_cells by lia.
  rewrite drop_ge by lia. now rewrite app_nil_r.
Qed.

(** The temporary buffer after the [n] first rounds of the loop of
    [FlashRaw] at a page address. *)
Lemma fill_words (a : Z) (buf : list Z) (n : nat) (m : nvm) :
  a mod PAGE_SIZE = 0 -> 0 <= a ->
  (n <= 32)%nat -> length (spm_temp m) = 32%nat ->
  let m' := fold_left (fill_word a buf)
                      (map (Z.mul 2) (seqZ 0 (Z.of_nat n))) m in
  flash m' = flash m /\
  length (spm_temp m') = 32%nat /\
  (forall j, (j < n)%nat -> spm_temp m' !! j = Some (staged buf (Z.of_nat j))) /\
  page_writes (spm_log m') = page_writes (spm_log m) /\
  page_erases (spm_log m') = page_erases (spm_log m).
Proof.
  intros Ha Ha0. induction n as [|n IH]; intros Hn Hl m'.
  - subst m'. cbn. repeat split; auto. intros j Hj. lia.
  - destruct IH as (IHf & IHl & IHj & IHw & IHe); [lia | assumption |].
    subst m'. rewrite seqZ_S, map_app, fold_left_app. cbn [map fold_left].
    set (m1 := fold_left _ _ m) in *.
    unfold fill_word, boot_page_fill. cbn [flash spm_temp spm_log].
    rewrite Z.add_0_l.
    assert (Hi : Z.to_nat (u16 (a + 2 * Z.of_nat n) mod PAGE_SIZE / 2) = n).
    { unfold u16, PAGE_SIZE in *. apply Nat2Z.inj. rewrite Z2Nat.id.
      - Z.div_mod_to_equations. lia.
      - Z.div_mod_to_equations. lia. }
    rewrite Hi. unfold page_writes, page_erases in *.
    rewrite !omap_app. cbn [omap]. rewrite !app_nil_r.
    rewrite length_insert. repeat split; auto.
    intros j Hj. destruct (decide (j = n)) as [->|Hne].
    + rewrite list_lookup_insert_eq by lia. unfold staged.
      now replace (2 * Z.of_nat n + 1) with (2 * Z.of_nat n + 1) by lia.
    + rewrite list_lookup_insert_ne by lia. apply IHj. lia.
Qed.

Lemma FlashRaw_mem (a : Z) (s : state) :
  a mod PAGE_SIZE = 0 -> 0 <= a ->
  length (spm_temp (mem s)) = 32%nat ->
  let m' := mem (FlashRaw a s) in
  (forall x, 0 <= x ->
     flash m' x = if same_page a x
                  then Z.land (flash (mem s) x)
                              (staged_byte (pageBuffer s) (x mod PAGE_SIZE))
                  else flash (mem s) x) /\
  spm_temp m' = empty_temp /\
  page_writes (spm_log m') = page_writes (spm_log (mem s)) ++ [a] /\
  page_erases (spm_log m') = page_erases (spm_log (mem s)).
Proof.
  intros Ha Ha0 Hl m'.
  destruct (fill_words a (pageBuffer s) 32 (mem s) Ha Ha0 ltac:(lia) Hl)
    as (Hf & Hl' & Hj & Hw & He).
  subst m'. unfold FlashRaw. cbn [mem set_mem].
  change (PAGE_SIZE / 2) with (Z.of_nat 32).
  set (m1 := fold_left _ _ (mem s)) in *.
  unfold boot_page_write. cbn [flash spm_temp spm_log].
  unfold page_writes, page_erases in *. rewrite !omap_app, Hw, He.
  cbn [omap]. rewrite app_nil_r. repeat split; auto.
  intros x Hx. destruct (same_page a x); [|now rewrite Hf].
  rewrite Hf. f_equal. unfold temp_byte, staged_byte.
  assert (Hr : 0 <= x mod PAGE_SIZE / 2 < 32).
  { unfold PAGE_SIZE. Z.div_mod_to_equations. lia. }
  erewrite list_lookup_total_correct by (apply Hj; lia).
  rewrite Z2Nat.id by lia. reflexivity.
Qed.

Lemma staged_bytes (lo hi : Z) :
  is_byte lo -> is_byte hi ->
  u16 (Z.lor (Z.shiftl hi 8) lo) = hi * 256 + lo.
Proof.
  unfold is_byte. intros Hlo Hhi.
  rewrite <- Z.add_nocarry_lor, shiftl_8.
  - apply u16_id. unfold is_word. lia.
  - rewrite <- (Z.mod_small lo 256) by lia. rewrite <- land_FF.
    rewrite (Z.land_comm lo), Z.land_assoc, land_FF, shiftl_8, Z.mod_mul by lia.
    apply Z.land_0_l.
Qed.

Lemma staged_byte_rd (buf : list Z) (i : Z) :
  0 <= i ->
  is_byte (rd buf (2 * (i / 2))) -> is_byte (rd buf (2 * (i / 2) + 1)) ->
  staged_byte buf i = rd buf i.
Proof.
  intros Hi Hlo Hhi. unfold staged_byte, staged.
  rewrite staged_bytes by assumption. unfold is_byte in *.
  rewrite shiftr_8, !land_FF.
  destruct (Z.eqb_spec (i mod 2) 0) as [E|E].
  - replace i with (2 * (i / 2)) at 3 by (Z.div_mod_to_equations; lia).
    Z.div_mod_to_equations. lia.
  - replace i with (2 * (i / 2) + 1) at 3 by (Z.div_mod_to_equations; lia).
    Z.div_mod_to_equations. lia.
Qed.

Lemma same_page_range (a x : Z) :
  a mod PAGE_SIZE = 0 ->
  same_page a x = (a <=? x) && (x <? a + PAGE_SIZE).
Proof.
  unfold same_page, PAGE_SIZE. intros Ha.
  destruct (Z.eqb_spec (x / 64) (a / 64)), (Z.leb_spec a x), (Z.ltb_spec x (a + 64));
    cbn; try reflexivity; exfalso; Z.div_mod_to_equations; lia.
Qed.

Section FlashWriter.
Context {cfg : Build}.

(** The loop of [DeleteFlash] leaves through its guard, having erased the
    pages from [address] up to the bootloader, and nothing else. *)
Lemma erase_loop_spec (n : nat) (address : Z) (m : nvm) :
  address mod PAGE_SIZE = 0 -> 0 <= address ->
  0 <= TIMONEL_START <= 65536 - PAGE_SIZE ->
  TIMONEL_START - address <= PAGE_SIZE * Z.of_nat n ->
  let r := erase_loop n address m in
  TIMONEL_START <= fst r /\
  fst r = Z.max address TIMONEL_START /\
  (forall x, flash (snd r) x
             = if (address <=? x) && (x <? TIMONEL_START) then 0xFF
               else flash m x) /\
  spm_temp (snd r) = spm_temp m /\
  page_writes (spm_log (snd r)) = page_writes (spm_log m) /\
  exists l, page_erases (spm_log (snd r)) = page_erases (spm_log m) ++ l /\
            Forall (fun a => a mod PAGE_SIZE = 0) l.
Proof.
  pose proof start_aligned as HT.
  revert address m. induction n as [|n IH]; intros address m Ha Ha0 HS Hn r.
  - subst r. cbn [erase_loop fst snd].
    assert (TIMONEL_START <= address) by lia.
    repeat split; try lia; auto.
    + intros x. destruct (Z.leb_spec address x), (Z.ltb_spec x TIMONEL_START);
        cbn; try reflexivity; lia.
    + exists []. now rewrite app_nil_r.
  - subst r. cbn [erase_loop]. rewrite (u16_id TIMONEL_START) by (unfold is_word, PAGE_SIZE in *; lia).
    destruct (Z.ltb_spec address TIMONEL_START) as [Hlt|Hge].
    + assert (Hstep : address + PAGE_SIZE <= TIMONEL_START).
      { unfold PAGE_SIZE in *. Z.div_mod_to_equations. lia. }
      rewrite (u16_id (address + PAGE_SIZE)) by (unfold is_word, PAGE_SIZE in *; lia).
      specialize (IH (address + PAGE_SIZE) (boot_page_erase address m)).
      destruct IH as (I1 & I2 & I3 & I4 & I5 & l & I6 & I7).
      * unfold PAGE_SIZE in *. Z.div_mod_to_equations. lia.
      * unfold PAGE_SIZE in *. lia.
      * assumption.
      * unfold PAGE_SIZE in *. lia.
      * repeat split; auto; try lia.
        -- intros x. rewrite I3. cbn [boot_page_erase flash].
           rewrite same_page_range by assumption.
           destruct (Z.leb_spec (address + PAGE_SIZE) x), (Z.ltb_spec x TIMONEL_START),
             (Z.leb_spec address x), (Z.ltb_spec x (address + PAGE_SIZE));
             cbn; try reflexivity; unfold PAGE_SIZE in *; lia.
        -- rewrite I5. cbn [boot_page_erase spm_log]. unfold page_writes.
           rewrite omap_app. cbn. apply app_nil_r.
        -- exists (address :: l). split.
           ++ rewrite I6. cbn [boot_page_erase spm_log]. unfold page_erases.
              rewrite omap_app. cbn [omap]. now rewrite <- app_assoc.
           ++ constructor; assumption.
    + cbn [fst snd]. repeat split; auto; try lia.
      * intros x. destruct (Z.leb_spec address x), (Z.ltb_spec x TIMONEL_START);
          cbn; try reflexivity; lia.
      * exists []. now rewrite app_nil_r.
Qed.

End FlashWriter.

Ltac fields :=
  cbn [command commandLength ledToggleTimer statusRegister i2cDly
       exitDly pageBuffer flashPageAddr pageIX tplJumpLowByte tplJumpHighByte
       led mem stray set_command set_ledToggleTimer set_statusRegister
       set_i2cDly set_exitDly set_pageBuffer set_flashPageAddr set_pageIX
       set_tplJump set_led set_mem set_stray fst snd] in *.

Section FlashPageFacts.
Context {cfg : Build}.

Lemma FlashRaw_fields (a : Z) (s : state) :
  control (FlashRaw a s) = control s /\
  pageBuffer (FlashRaw a s) = pageBuffer s /\
  flashPageAddr (FlashRaw a s) = flashPageAddr s /\
  tplJumpLowByte (FlashRaw a s) = tplJumpLowByte s /\
  tplJumpHighByte (FlashRaw a s) = tplJumpHighByte s.
Proof. unfold FlashRaw, control. fields. auto. Qed.

Lemma CreateTrampoline_spec (s : state) :
  PAGE_SIZE <= TIMONEL_START <= 65536 - PAGE_SIZE ->
  length (pageBuffer s) = 64%nat ->
  length (spm_temp (mem s)) = 32%nat ->
  let s' := CreateTrampoline s in
  control s' = control s /\
  length (pageBuffer s') = 64%nat /\
  length (spm_temp (mem s')) = 32%nat /\
  page_writes (spm_log (mem s'))
  = page_writes (spm_log (mem s))
    ++ (if flashPageAddr s <? TIMONEL_START - PAGE_SIZE
        then [TIMONEL_START - PAGE_SIZE] else []) /\
  page_erases (spm_log (mem s')) = page_erases (spm_log (mem s)) /\
  (forall x, 0 <= x -> same_page (TIMONEL_START - PAGE_SIZE) x = false ->
             flash (mem s') x = flash (mem s) x).
Proof.
  intros HT Hb Ht s'. subst s'. unfold CreateTrampoline.
  pose proof start_aligned as HA.
  assert (Hal : (TIMONEL_START - PAGE_SIZE) mod PAGE_SIZE = 0).
  { unfold PAGE_SIZE in *. Z.div_mod_to_equations. lia. }
  rewrite (u16_id (TIMONEL_START - PAGE_SIZE)) by (unfold is_word, PAGE_SIZE in *; lia).
  destruct (Z.ltb_spec (flashPageAddr s) (TIMONEL_START - PAGE_SIZE)) as [Hlt|Hge].
  2:{ rewrite app_nil_r. auto 10. }
  cbv zeta. change (PAGE_SIZE - 2) with (Z.of_nat 62).
  rewrite clear_cells by (fields; lia). fields.
  set (s3 := set_pageBuffer _ _).
  assert (Hb3 : length (pageBuffer s3) = 64%nat).
  { subst s3. fields. rewrite !length_insert, length_app, length_replicate, length_drop. lia. }
  destruct (FlashRaw_fields (TIMONEL_START - PAGE_SIZE) s3) as (F1 & F2 & _).
  destruct (FlashRaw_mem (TIMONEL_START - PAGE_SIZE) s3 Hal ltac:(unfold PAGE_SIZE in *; lia) Ht)
    as (M1 & M2 & M3 & M4).
  rewrite F1, F2, M2, M3, M4. repeat split; auto.
  intros x Hx Hp. rewrite M1, Hp by assumption. reflexivity.
Qed.

Lemma FixResetVector_fields (s : state) :
  control (FixResetVector s) = control s /\
  length (pageBuffer (FixResetVector s)) = length (pageBuffer s) /\
  flashPageAddr (FixResetVector s) = flashPageAddr s /\
  mem (FixResetVector s) = mem s.
Proof. unfold FixResetVector, control. fields. rewrite !length_insert. auto. Qed.

Lemma CalculateTrampoline_fields (lo hi : Z) (s : state) :
  control (CalculateTrampoline lo hi s) = control s /\
  pageBuffer (CalculateTrampoline lo hi s) = pageBuffer s /\
  flashPageAddr (CalculateTrampoline lo hi s) = flashPageAddr s /\
  mem (CalculateTrampoline lo hi s) = mem s.
Proof. unfold CalculateTrampoline, control. fields. auto. Qed.

Lemma prepared_fields (pb : Z) (s : state) :
  control (prepared pb s) = control s /\
  length (pageBuffer (prepared pb s)) = length (pageBuffer s) /\
  flashPageAddr (prepared pb s) = flashPageAddr s /\
  mem (prepared pb s) = mem s.
Proof.
  unfold prepared.
  destruct (FixResetVector_fields
              (CalculateTrampoline (rd (pageBuffer s) 0) (rd (pageBuffer s) 1) s))
    as (A1 & A2 & A3 & A4).
  destruct (CalculateTrampoline_fields (rd (pageBuffer s) 0) (rd (pageBuffer s) 1) s)
    as (B1 & B2 & B3 & B4).
  destruct (pb =? RESET_PAGE), (pb =? u16 (TIMONEL_START - PAGE_SIZE));
    try change (control (set_pageBuffer ?b (set_pageBuffer ?b' ?x))) with (control x);
    fields; rewrite ?length_insert, ?A1, ?A2, ?A3, ?A4, ?B1, ?B2, ?B3, ?B4;
    auto.
Qed.

Lemma FlashPage_unfold (a : Z) (s : state) :
  FlashPage a s
  = let pb := page_base a in
    let s1 := prepared pb s in
    if pb >=? u16 TIMONEL_START then s1
    else if pb =? RESET_PAGE
         then set_flashPageAddr RESET_PAGE (CreateTrampoline (FlashRaw pb s1))
         else FlashRaw pb s1.
Proof. reflexivity. Qed.

End FlashPageFacts.

Section FlashPageSpec.
Context {cfg : Build}.

Lemma FlashPage_spec (a : Z) (s : state) :
  is_word a ->
  PAGE_SIZE <= TIMONEL_START <= 65536 - PAGE_SIZE ->
  length (pageBuffer s) = 64%nat ->
  length (spm_temp (mem s)) = 32%nat ->
  let s' := FlashPage a s in
  control s' = control s /\
  length (pageBuffer s') = 64%nat /\
  length (spm_temp (mem s')) = 32%nat /\
  flashPageAddr s' = (if page_base a =? RESET_PAGE then RESET_PAGE
                      else flashPageAddr s) /\
  page_writes (spm_log (mem s'))
  = page_writes (spm_log (mem s)) ++ FlashPage_targets a s /\
  page_erases (spm_log (mem s')) = page_erases (spm_log (mem s)) /\
  (forall x, 0 <= x -> same_page (page_base a) x = false ->
             same_page (TIMONEL_START - PAGE_SIZE) x = false ->
             flash (mem s') x = flash (mem s) x).
Proof.
  intros Ha HT Hb Ht s'. subst s'. rewrite FlashPage_unfold. cbv zeta.
  unfold FlashPage_targets.
  pose proof (page_base_aligned a Ha) as Hpa.
  pose proof (page_base_word a) as Hpw.
  set (pb := page_base a) in *.
  destruct (prepared_fields pb s) as (P1 & P2 & P3 & P4).
  rewrite (u16_id TIMONEL_START) by (unfold is_word, PAGE_SIZE in *; lia).
  destruct (Z.geb_spec pb TIMONEL_START) as [Hge|Hlt].
  { rewrite P1, P2, P3, P4, app_nil_r.
    destruct (Z.eqb_spec pb RESET_PAGE) as [E|E];
      [unfold RESET_PAGE, PAGE_SIZE in *; lia|]. auto 10. }
  set (s1 := prepared pb s) in *.
  assert (Hb1 : length (pageBuffer s1) = 64%nat) by lia.
  assert (Ht1 : length (spm_temp (mem s1)) = 32%nat) by now rewrite P4.
  destruct (FlashRaw_fields pb s1) as (F1 & F2 & F3 & _).
  destruct (FlashRaw_mem pb s1 Hpa ltac:(unfold is_word in *; lia) Ht1)
    as (M1 & M2 & M3 & M4).
  destruct (Z.eqb_spec pb RESET_PAGE) as [E|E].
  - destruct (CreateTrampoline_spec (FlashRaw pb s1) HT
                ltac:(rewrite F2; exact Hb1) ltac:(rewrite M2; reflexivity))
      as (C1 & C2 & C3 & C4 & C5 & C6).
    change (control (set_flashPageAddr ?v ?x)) with (control x).
    fields. rewrite C1, C2, C3, C4, C5, F1, F3, M3, M4, P1, P3, P4.
    rewrite <- app_assoc.
    repeat split; auto.
    + rewrite E.
      destruct (flashPageAddr s <? TIMONEL_START - PAGE_SIZE); reflexivity.
    + intros x Hx H1 H2. rewrite C6, M1 by assumption. rewrite H1, P4.
      reflexivity.
  - rewrite F1, F2, F3, M2, M3, M4, P1, P3, P4. repeat split; auto.
    intros x Hx H1 H2. rewrite M1, H1, P4 by assumption. reflexivity.
Qed.

(** A page address in the bootloader section: [FlashPage] changes nothing,
    not even the page buffer. *)
Lemma FlashPage_discard (a : Z) (s : state) :
  is_word a -> 0 < TIMONEL_START <= 65535 -> TIMONEL_START <= a ->
  FlashPage a s = s.
Proof.
  intros Ha HT Hge. rewrite FlashPage_unfold. cbv zeta.
  pose proof start_aligned as HA.
  pose proof (page_base_eq a Ha) as Hpb.
  assert (Hpb' : TIMONEL_START <= page_base a).
  { rewrite Hpb. unfold PAGE_SIZE in *. Z.div_mod_to_equations. lia. }
  assert (H64 : PAGE_SIZE <= TIMONEL_START).
  { unfold PAGE_SIZE in *. Z.div_mod_to_equations. lia. }
  rewrite (u16_id TIMONEL_START) by (unfold is_word; lia).
  destruct (Z.geb_spec (page_base a) TIMONEL_START) as [_|Hlt]; [|lia].
  unfold prepared.
  rewrite (u16_id (TIMONEL_START - PAGE_SIZE)) by (unfold is_word, PAGE_SIZE in *; lia).
  destruct (Z.eqb_spec (page_base a) RESET_PAGE) as [E|_];
    [unfold RESET_PAGE in E; lia|].
  destruct (Z.eqb_spec (page_base a) (TIMONEL_START - PAGE_SIZE)) as [E|_];
    [unfold PAGE_SIZE in E; lia|].
  reflexivity.
Qed.

End FlashPageSpec.

Lemma rd_byte (buf : list Z) (j : Z) :
  Forall is_byte buf -> (Z.to_nat j < length buf)%nat -> is_byte (rd buf j).
Proof.
  intros HF Hj. unfold rd.
  apply (Forall_lookup_1 _ _ (Z.to_nat j) _ HF).
  now apply list_lookup_lookup_total_lt.
Qed.

Lemma land_FF_byte (b : Z) : is_byte b -> Z.land 0xFF b = b.
Proof.
  unfold is_byte. intros Hb. rewrite Z.land_comm, land_FF.
  now apply Z.mod_small.
Qed.

Section DeleteFlashSpec.
Context {cfg : Build}.

Lemma vector_page_bytes : Forall is_byte vector_page.
Proof.
  unfold vector_page. cbn. repeat constructor; try apply u8_byte;
    unfold is_byte; lia.
Qed.

Lemma vector_page_rd (x : Z) :
  0 <= x < PAGE_SIZE ->
  rd vector_page x
  = if x =? 0 then u8 (Z.land reset_vector 0xff)
    else if x =? 1 then u8 (Z.shiftr reset_vector 8) else 0xff.
Proof.
  unfold PAGE_SIZE. intros Hx. unfold rd, vector_page.
  destruct (Z.eqb_spec x 0) as [->|H0]; [reflexivity|].
  destruct (Z.eqb_spec x 1) as [->|H1]; [reflexivity|].
  rewrite !list_lookup_total_insert_ne by lia.
  apply lookup_total_replicate_2. lia.
Qed.

Lemma DeleteFlash_spec (s : state) :
  PAGE_SIZE <= TIMONEL_START <= 65536 - PAGE_SIZE ->
  length (pageBuffer s) = 64%nat ->
  length (spm_temp (mem s)) = 32%nat ->
  let s' := DeleteFlash s in
  control s' = control s /\
  length (pageBuffer s') = 64%nat /\
  length (spm_temp (mem s')) = 32%nat /\
  flashPageAddr s' = flashPageAddr s /\
  (forall x, 0 <= x ->
     flash (mem s') x
     = if x =? 0 then u8 (Z.land reset_vector 0xff)
       else if x =? 1 then u8 (Z.shiftr reset_vector 8)
       else if x <? TIMONEL_START then 0xFF
       else flash (mem s) x) /\
  Forall (fun a => a mod PAGE_SIZE = 0)
         (drop (length (page_writes (spm_log (mem s))))
               (page_writes (spm_log (mem s')))) /\
  Forall (fun a => a mod PAGE_SIZE = 0)
         (drop (length (page_erases (spm_log (mem s))))
               (page_erases (spm_log (mem s')))).
Proof.
  intros HT Hb Ht s'. subst s'. unfold DeleteFlash. cbv zeta.
  pose proof start_aligned as HA.
  rewrite ClearPageBuffer_eq by assumption.
  set (s2 := FixResetVector _).
  assert (Hbuf : pageBuffer s2 = vector_page) by reflexivity.
  assert (Hc2 : control s2 = control s) by reflexivity.
  assert (Hm2 : mem s2 = mem s) by reflexivity.
  assert (Hf2 : flashPageAddr s2 = flashPageAddr s) by reflexivity.
  clearbody s2.
  set (s3 := set_mem (boot_page_erase 0 (mem s2)) s2).
  destruct (FlashRaw_fields 0 s3) as (F1 & F2 & F3 & _).
  destruct (FlashRaw_mem 0 s3 eq_refl ltac:(lia)
              ltac:(subst s3; fields; cbn [boot_page_erase spm_temp]; now rewrite Hm2))
    as (M1 & M2 & M3 & M4).
  set (s4 := FlashRaw 0 s3) in *.
  assert (Hb4 : length (pageBuffer s4) = 64%nat).
  { rewrite F2. subst s3. fields. rewrite Hbuf. reflexivity. }
  assert (Ht4 : length (spm_temp (mem s4)) = 32%nat) by now rewrite M2.
  assert (Hw64 : is_word PAGE_SIZE) by (unfold is_word, PAGE_SIZE; lia).
  assert (Hp64 : page_base PAGE_SIZE = PAGE_SIZE) by reflexivity.
  destruct (erase_loop_spec 1024 PAGE_SIZE (mem (FlashPage PAGE_SIZE s4)))
    as (E1 & E2 & E3 & E4 & E5 & le & E6 & E7);
    [reflexivity | unfold PAGE_SIZE; lia | unfold PAGE_SIZE in *; lia
     | unfold PAGE_SIZE in *; lia |].
  destruct (FlashPage_spec PAGE_SIZE s4 Hw64 HT Hb4 Ht4)
    as (P1 & P2 & P3 & P4 & P5 & P6 & P7).
  rewrite Hp64 in *.
  change (control (set_mem ?m ?x)) with (control x). fields.
  rewrite E4, E5, E6, P1, P2, P3, P4, P5, P6, F1, F3, M3, M4.
  subst s3. change (control (set_mem ?m ?x)) with (control x). fields.
  cbn [boot_page_erase spm_log flash] in *.
  rewrite Hc2, Hf2, Hm2.
  assert (Hpe : page_erases (spm_log (mem s) ++ [PageErase 0])
                = page_erases (spm_log (mem s)) ++ [0]).
  { unfold page_erases. now rewrite omap_app. }
  assert (Hpw : page_writes (spm_log (mem s) ++ [PageErase 0])
                = page_writes (spm_log (mem s))).
  { unfold page_writes. rewrite omap_app. apply app_nil_r. }
  rewrite Hpe, Hpw, <- !app_assoc, !drop_app_length.
  repeat split; auto.
  - (* the flash *)
    intros x Hx. rewrite E3.
    destruct (Z.leb_spec PAGE_SIZE x) as [H64|H64]; cbn [andb].
    + (* beyond page 0 *)
      destruct (Z.eqb_spec x 0); [unfold PAGE_SIZE in *; lia|].
      destruct (Z.eqb_spec x 1); [unfold PAGE_SIZE in *; lia|].
      destruct (Z.ltb_spec x TIMONEL_START) as [Hlt|Hge]; [reflexivity|].
      destruct (Z.eq_dec TIMONEL_START PAGE_SIZE) as [E|E].
      * rewrite FlashPage_discard by (unfold is_word, PAGE_SIZE in *; lia).
        rewrite M1 by lia. rewrite same_page_range by reflexivity.
        destruct (Z.leb_spec 0 x), (Z.ltb_spec x (0 + PAGE_SIZE)); cbn [andb];
          try lia; now rewrite Hm2.
      * assert (2 * PAGE_SIZE <= TIMONEL_START).
        { unfold PAGE_SIZE in *. Z.div_mod_to_equations. lia. }
        rewrite P7, M1; try lia.
        -- rewrite same_page_range by reflexivity.
           destruct (Z.leb_spec 0 x), (Z.ltb_spec x (0 + PAGE_SIZE)); cbn [andb];
             try lia; now rewrite Hm2.
        -- rewrite same_page_range by reflexivity.
           destruct (Z.leb_spec PAGE_SIZE x), (Z.ltb_spec x (PAGE_SIZE + PAGE_SIZE));
             cbn [andb]; try reflexivity; unfold PAGE_SIZE in *; lia.
        -- rewrite same_page_range
             by (unfold PAGE_SIZE in *; Z.div_mod_to_equations; lia).
           destruct (Z.leb_spec (TIMONEL_START - PAGE_SIZE) x),
             (Z.ltb_spec x (TIMONEL_START - PAGE_SIZE + PAGE_SIZE));
             cbn [andb]; try reflexivity; unfold PAGE_SIZE in *; lia.
    + (* page 0 *)
      assert (Hpage0 : flash (mem s4) x = rd vector_page x).
      { rewrite M1 by lia. rewrite same_page_range by reflexivity.
        destruct (Z.leb_spec 0 x), (Z.ltb_spec x (0 + PAGE_SIZE)); cbn [andb];
          try lia.
        rewrite Hbuf, Z.mod_small by lia.
        rewrite staged_byte_rd; try lia.
        - apply land_FF_byte, rd_byte; [apply vector_page_bytes|].
          cbn. unfold PAGE_SIZE in *. lia.
        - apply rd_byte; [apply vector_page_bytes|].
          cbn. unfold PAGE_SIZE in *. Z.div_mod_to_equations. lia.
        - apply rd_byte; [apply vector_page_bytes|].
          cbn. unfold PAGE_SIZE in *. Z.div_mod_to_equations. lia. }
      assert (Hkeep : flash (mem (FlashPage PAGE_SIZE s4)) x = flash (mem s4) x).
      { destruct (Z.eq_dec TIMONEL_START PAGE_SIZE) as [E|E].
        - now rewrite FlashPage_discard by (unfold is_word, PAGE_SIZE in *; lia).
        - assert (2 * PAGE_SIZE <= TIMONEL_START).
          { unfold PAGE_SIZE in *. Z.div_mod_to_equations. lia. }
          apply P7; try lia.
          + rewrite same_page_range by reflexivity.
            destruct (Z.leb_spec PAGE_SIZE x); cbn [andb]; try reflexivity; lia.
          + rewrite same_page_range
              by (unfold PAGE_SIZE in *; Z.div_mod_to_equations; lia).
            destruct (Z.leb_spec (TIMONEL_START - PAGE_SIZE) x); cbn [andb];
              try reflexivity; unfold PAGE_SIZE in *; lia. }
      rewrite Hkeep, Hpage0, vector_page_rd by lia.
      destruct (Z.eqb_spec x 0); [reflexivity|].
      destruct (Z.eqb_spec x 1); [reflexivity|].
      destruct (Z.ltb_spec x TIMONEL_START); [reflexivity|lia].
  - (* the page writes *)
    constructor; [reflexivity|].
    unfold FlashPage_targets. rewrite Hp64.
    destruct (PAGE_SIZE >=? TIMONEL_START); [constructor|].
    change (PAGE_SIZE =? RESET_PAGE) with false. cbv iota.
    repeat constructor.
  - (* the page erasures *)
    constructor; [reflexivity | assumption].
Qed.

End DeleteFlashSpec.

(** ** The claims on the flash writer *)

Section FlashClaims.
Context {cfg : Build}.

Lemma reset_vector_eq :
  0 < TIMONEL_START <= 8192 -> reset_vector = 0xC000 + (TIMONEL_START / 2 - 1).
Proof.
  intros HT. unfold reset_vector. pose proof start_even.
  rewrite u16_id; [lia|]. unfold is_word. Z.div_mod_to_equations. lia.
Qed.

(** C1, amended.  After [DeleteFlash] the first word of the flash is a
    relative jump to the bootloader, and every other cell below the
    bootloader is erased: the rest of page 0 and every page from
    [PAGE_SIZE] up to [TIMONEL_START], the trampoline page among them.  The
    bootloader itself is as it was. *)
Theorem DeleteFlash_leaves_vector_only (s : state) :
  PAGE_SIZE <= TIMONEL_START < 8192 ->
  length (pageBuffer s) = 64%nat ->
  length (spm_temp (mem s)) = 32%nat ->
  let m := mem (DeleteFlash s) in
  is_rjmp (flash_word m 0) = true /\
  rjmp_target 0 (flash_word m 0) = TIMONEL_START / 2 /\
  (forall x, 2 <= x < TIMONEL_START -> flash m x = 0xFF) /\
  (forall x, TIMONEL_START <= x -> flash m x = flash (mem s) x).
Proof.
  intros HT Hb Ht m.
  assert (HT' : PAGE_SIZE <= TIMONEL_START <= 65536 - PAGE_SIZE)
    by (unfold PAGE_SIZE in *; lia).
  destruct (DeleteFlash_spec s HT' Hb Ht) as (_ & _ & _ & _ & Hf & _).
  fold m in Hf.
  pose proof start_even as He.
  assert (Hw : flash_word m 0 = 0xC000 + (TIMONEL_START / 2 - 1)).
  { unfold flash_word, word_of_bytes. rewrite !Hf by lia.
    change (0 + 1) with 1. change (1 =? 0) with false.
    change (0 =? 0) with true. change (1 =? 1) with true. cbv iota.
    rewrite reset_vector_eq by (unfold PAGE_SIZE in *; lia).
    rewrite land_FF, shiftr_8. unfold u8, PAGE_SIZE in *.
    Z.div_mod_to_equations. lia. }
  repeat split.
  - unfold is_rjmp. rewrite Hw, shiftr_12. apply Z.eqb_eq.
    unfold PAGE_SIZE in *. Z.div_mod_to_equations. lia.
  - unfold rjmp_target, sext12, FLASH_WORDS. rewrite Hw, land_FFF.
    unfold PAGE_SIZE in *.
    destruct (Z.ltb_spec ((49152 + (TIMONEL_START / 2 - 1)) mod 4096) 2048);
      Z.div_mod_to_equations; lia.
  - intros x Hx. rewrite Hf by lia.
    destruct (Z.eqb_spec x 0); [lia|]. destruct (Z.eqb_spec x 1); [lia|].
    destruct (Z.ltb_spec x TIMONEL_START); [reflexivity|lia].
  - intros x Hx. unfold PAGE_SIZE in *. rewrite Hf by lia.
    destruct (Z.eqb_spec x 0); [lia|]. destruct (Z.eqb_spec x 1); [lia|].
    destruct (Z.ltb_spec x TIMONEL_START); [lia|reflexivity].
Qed.

(** C10, amended.  Every page write that a call [FlashPage a] issues goes
    to a page boundary: to the page of [a], that is [a] with its low bits
    cleared, or, when that is page 0, to the trampoline page
    [TIMONEL_START - PAGE_SIZE].  The call erases nothing. *)
Theorem FlashPage_writes_page_aligned (a : Z) (s : state) :
  is_word a ->
  PAGE_SIZE <= TIMONEL_START <= 65536 - PAGE_SIZE ->
  length (pageBuffer s) = 64%nat ->
  length (spm_temp (mem s)) = 32%nat ->
  let s' := FlashPage a s in
  page_base a = a - a mod PAGE_SIZE /\
  page_erases (spm_log (mem s')) = page_erases (spm_log (mem s)) /\
  exists ws,
    page_writes (spm_log (mem s')) = page_writes (spm_log (mem s)) ++ ws /\
    Forall (fun w => w mod PAGE_SIZE = 0 /\
                     (w = page_base a \/
                      page_base a = RESET_PAGE /\
                      w = TIMONEL_START - PAGE_SIZE)) ws.
Proof.
  intros Ha HT Hb Ht s'.
  destruct (FlashPage_spec a s Ha HT Hb Ht) as (_ & _ & _ & _ & Hw & He & _).
  fold s' in Hw, He. split; [now apply page_base_eq|]. split; [exact He|].
  exists (FlashPage_targets a s). split; [exact Hw|].
  pose proof (page_base_aligned a Ha) as Hpa.
  pose proof start_aligned as HA.
  assert (Hta : (TIMONEL_START - PAGE_SIZE) mod PAGE_SIZE = 0).
  { unfold PAGE_SIZE in *. Z.div_mod_to_equations. lia. }
  unfold FlashPage_targets.
  destruct (page_base a >=? TIMONEL_START); [constructor|].
  destruct (Z.eqb_spec (page_base a) RESET_PAGE) as [E|E].
  - destruct (flashPageAddr s <? TIMONEL_START - PAGE_SIZE).
    + apply Forall_cons. split; [split; [reflexivity | now left]|].
      apply Forall_cons. split; [split; [exact Hta | now right]|].
      constructor.
    + apply Forall_cons. split; [split; [reflexivity | now left]|].
      constructor.
  - apply Forall_cons. split; [split; [exact Hpa | now left]|]. constructor.
Qed.

End FlashClaims.

(** ** The status register *)

Lemma land_bit (x k : Z) :
  0 <= k -> Z.land x (2 ^ k) = if Z.testbit x k then 2 ^ k else 0.
Proof.
  intros Hk. apply Z.bits_inj'. intros n Hn.
  rewrite Z.land_spec, Z.pow2_bits_eqb by assumption.
  destruct (Z.eqb_spec k n) as [->|Hne].
  - destruct (Z.testbit x n); cbn [andb].
    + now rewrite Z.pow2_bits_true.
    + now rewrite Z.bits_0.
  - rewrite andb_false_r. destruct (Z.testbit x k).
    + now rewrite Z.pow2_bits_false.
    + now rewrite Z.bits_0.
Qed.

Lemma testbit_set (x k j : Z) :
  0 <= k -> Z.testbit (Z.lor x (bit k)) j = Z.testbit x j || (k =? j).
Proof.
  intros Hk. unfold bit. rewrite Z.shiftl_1_l, Z.lor_spec.
  now rewrite Z.pow2_bits_eqb.
Qed.

Lemma testbit_clear (x k j : Z) :
  0 <= k -> 0 <= j ->
  Z.testbit (Z.land x (Z.lnot (bit k))) j = Z.testbit x j && negb (k =? j).
Proof.
  intros Hk Hj. unfold bit.
  rewrite Z.shiftl_1_l, Z.land_spec, Z.lnot_spec by assumption.
  now rewrite Z.pow2_bits_eqb.
Qed.

Lemma initialized_flags (s : state) :
  initialized s = flag SR_INIT_1 s && flag SR_INIT_2 s.
Proof.
  unfold initialized, sr_mask, flag, SR_INIT_1, SR_INIT_2.
  change (bit 0 + bit 1) with (Z.lor (2 ^ 0) (2 ^ 1)).
  rewrite Z.land_lor_distr_r, !land_bit by lia.
  now destruct (Z.testbit _ 0), (Z.testbit _ 1).
Qed.

Lemma exit_ready_flags (s : state) :
  (sr_mask s (bit SR_EXIT_TML + bit SR_APP_READY)
   =? bit SR_EXIT_TML + bit SR_APP_READY)
  = flag SR_EXIT_TML s && flag SR_APP_READY s.
Proof.
  unfold sr_mask, flag, SR_EXIT_TML, SR_APP_READY.
  change (bit 4 + bit 3) with (Z.lor (2 ^ 4) (2 ^ 3)).
  change (bit 4) with (2 ^ 4).
  rewrite Z.land_lor_distr_r, !land_bit by lia.
  now destruct (Z.testbit _ 4), (Z.testbit _ 3).
Qed.

Lemma exit_only_flags (s : state) :
  (sr_mask s (bit SR_EXIT_TML + bit SR_APP_READY) =? bit SR_EXIT_TML)
  = flag SR_EXIT_TML s && negb (flag SR_APP_READY s).
Proof.
  unfold sr_mask, flag, SR_EXIT_TML, SR_APP_READY.
  change (bit 4 + bit 3) with (Z.lor (2 ^ 4) (2 ^ 3)).
  change (bit 4) with (2 ^ 4).
  rewrite Z.land_lor_distr_r, !land_bit by lia.
  now destruct (Z.testbit _ 4), (Z.testbit _ 3).
Qed.

Lemma delete_flag (s : state) :
  (sr_mask s (bit SR_DEL_FLASH) =? bit SR_DEL_FLASH) = flag SR_DEL_FLASH s.
Proof.
  unfold sr_mask, flag, SR_DEL_FLASH. change (bit 2) with (2 ^ 2).
  rewrite land_bit by lia. now destruct (Z.testbit _ 2).
Qed.

(** ** The dispatcher, case by case *)

Section Dispatch.
Context {cfg : Build}.

Lemma labels :
  GETTMNLV <> EXITTMNL /\ GETTMNLV <> DELFLASH /\ GETTMNLV <> STPGADDR /\
  GETTMNLV <> WRITPAGE /\ GETTMNLV <> INITTINY /\ EXITTMNL <> DELFLASH /\
  EXITTMNL <> STPGADDR /\ EXITTMNL <> WRITPAGE /\ EXITTMNL <> INITTINY /\
  DELFLASH <> STPGADDR /\ DELFLASH <> WRITPAGE /\ DELFLASH <> INITTINY /\
  STPGADDR <> WRITPAGE /\ STPGADDR <> INITTINY /\ WRITPAGE <> INITTINY.
Proof.
  pose proof labels_distinct as H.
  repeat match goal with
         | H : NoDup (_ :: _) |- _ => apply NoDup_cons in H; destruct H
         end.
  repeat match goal with
         | H : _ ∉ _ |- _ => rewrite !not_elem_of_cons in H
         end.
  repeat match goal with
         | H : _ /\ _ |- _ => destruct H
         end.
  repeat split; congruence.
Qed.

Ltac pick_case H :=
  unfold RequestEvent; cbv zeta; rewrite H;
  pose proof labels as L;
  repeat match type of L with _ /\ _ => destruct L as [? L] end;
  try rewrite (proj2 (Z.eqb_neq EXITTMNL GETTMNLV)) by congruence;
  try rewrite (proj2 (Z.eqb_neq DELFLASH GETTMNLV)) by congruence;
  try rewrite (proj2 (Z.eqb_neq DELFLASH EXITTMNL)) by congruence;
  try rewrite (proj2 (Z.eqb_neq STPGADDR GETTMNLV)) by congruence;
  try rewrite (proj2 (Z.eqb_neq STPGADDR EXITTMNL)) by congruence;
  try rewrite (proj2 (Z.eqb_neq STPGADDR DELFLASH)) by congruence;
  try rewrite (proj2 (Z.eqb_neq WRITPAGE GETTMNLV)) by congruence;
  try rewrite (proj2 (Z.eqb_neq WRITPAGE EXITTMNL)) by congruence;
  try rewrite (proj2 (Z.eqb_neq WRITPAGE DELFLASH)) by congruence;
  try rewrite (proj2 (Z.eqb_neq WRITPAGE STPGADDR)) by congruence;
  try rewrite (proj2 (Z.eqb_neq INITTINY GETTMNLV)) by congruence;
  try rewrite (proj2 (Z.eqb_neq INITTINY EXITTMNL)) by congruence;
  try rewrite (proj2 (Z.eqb_neq INITTINY DELFLASH)) by congruence;
  try rewrite (proj2 (Z.eqb_neq INITTINY STPGADDR)) by congruence;
  try rewrite (proj2 (Z.eqb_neq INITTINY WRITPAGE)) by congruence;
  match type of H with _ = ?op => rewrite (Z.eqb_refl op) end;
  cbv iota.

Lemma RequestEvent_GETTMNLV (s : state) :
  rd (command s) 0 = GETTMNLV ->
  RequestEvent s
  = (set_statusRegister (Z.lor (statusRegister s) (bit SR_INIT_2)) s,
     [u8 (Z.lnot GETTMNLV); 78; 66; 84; TIMONEL_VER_MJR; TIMONEL_VER_MNR;
      u8 (Z.shiftr (Z.land TIMONEL_START 0xFF00) 8);
      u8 (Z.land TIMONEL_START 0xFF)]).
Proof. intros H. pick_case H. reflexivity. Qed.

Lemma RequestEvent_EXITTMNL (s : state) :
  rd (command s) 0 = EXITTMNL ->
  RequestEvent s
  = (set_statusRegister (Z.lor (statusRegister s) (bit SR_EXIT_TML)) s,
     [u8 (Z.lnot EXITTMNL)]).
Proof. intros H. pick_case H. reflexivity. Qed.

Lemma RequestEvent_DELFLASH (s : state) :
  rd (command s) 0 = DELFLASH ->
  RequestEvent s
  = (set_statusRegister (Z.lor (statusRegister s) (bit SR_DEL_FLASH)) s,
     [u8 (Z.lnot DELFLASH)]).
Proof. intros H. pick_case H. reflexivity. Qed.

Lemma RequestEvent_STPGADDR (s : state) :
  rd (command s) 0 = STPGADDR ->
  RequestEvent s
  = (set_flashPageAddr
       (u16 (Z.shiftl (rd (command s) 1) 8 + rd (command s) 2)) s,
     [u8 (Z.lnot STPGADDR); u8 (rd (command s) 1 + rd (command s) 2)]).
Proof. intros H. pick_case H. reflexivity. Qed.

Lemma RequestEvent_INITTINY (s : state) :
  rd (command s) 0 = INITTINY ->
  RequestEvent s
  = (set_statusRegister (Z.lor (statusRegister s) (bit SR_INIT_1)) s,
     [u8 (Z.lnot INITTINY)]).
Proof. intros H. pick_case H. reflexivity. Qed.

Lemma RequestEvent_WRITPAGE (s : state) :
  rd (command s) 0 = WRITPAGE ->
  RequestEvent s
  = let acc := fold_left (write_byte (command s)) (seqZ 1 RXDATASIZE) (s, 0) in
    ((if negb (snd acc =? rd (command s) (RXDATASIZE + 1))
      then set_statusRegister
             (Z.lor (Z.land (statusRegister (fst acc))
                            (Z.lnot (bit SR_APP_READY)))
                    (bit SR_DEL_FLASH)) (fst acc)
      else fst acc),
     [u8 (Z.lnot WRITPAGE); snd acc]).
Proof.
  intros H. unfold RequestEvent. cbv zeta.
  generalize (fold_left (write_byte (command s)) (seqZ 1 RXDATASIZE) (s, 0)).
  intros acc. generalize (rd (command s) (RXDATASIZE + 1)). intros c9.
  rewrite H. pose proof labels as L.
  repeat match type of L with _ /\ _ => destruct L as [? L] end.
  rewrite (proj2 (Z.eqb_neq WRITPAGE GETTMNLV)) by congruence.
  rewrite (proj2 (Z.eqb_neq WRITPAGE EXITTMNL)) by congruence.
  rewrite (proj2 (Z.eqb_neq WRITPAGE DELFLASH)) by congruence.
  rewrite (proj2 (Z.eqb_neq WRITPAGE STPGADDR)) by congruence.
  rewrite (Z.eqb_refl WRITPAGE).
  destruct (negb (snd acc =? c9)); reflexivity.
Qed.

Lemma RequestEvent_unknown (s : state) :
  rd (command s) 0 <> GETTMNLV -> rd (command s) 0 <> EXITTMNL ->
  rd (command s) 0 <> DELFLASH -> rd (command s) 0 <> STPGADDR ->
  rd (command s) 0 <> WRITPAGE -> rd (command s) 0 <> INITTINY ->
  RequestEvent s = (s, replicate (Z.to_nat (commandLength s)) UNKNOWNC).
Proof.
  intros. unfold RequestEvent. cbv zeta.
  generalize (fold_left (write_byte (command s)) (seqZ 1 RXDATASIZE) (s, 0)).
  intros acc.
  rewrite (proj2 (Z.eqb_neq _ GETTMNLV)), (proj2 (Z.eqb_neq _ EXITTMNL)),
    (proj2 (Z.eqb_neq _ DELFLASH)), (proj2 (Z.eqb_neq _ STPGADDR)),
    (proj2 (Z.eqb_neq _ WRITPAGE)), (proj2 (Z.eqb_neq _ INITTINY))
    by assumption.
  reflexivity.
Qed.

End Dispatch.

(** ** Buffering a chunk *)

Lemma store_pageBuffer_fields (i v : Z) (s : state) :
  outside_buffer (store_pageBuffer i v s) = outside_buffer s /\
  pageIX (store_pageBuffer i v s) = pageIX s /\
  length (pageBuffer (store_pageBuffer i v s)) = length (pageBuffer s) /\
  (0 <= i < Z.of_nat (length (pageBuffer s)) ->
   stray (store_pageBuffer i v s) = stray s).
Proof.
  unfold store_pageBuffer, outside_buffer.
  destruct (Z.leb_spec 0 i), (Z.ltb_spec i (Z.of_nat (length (pageBuffer s))));
    cbn [andb]; fields; rewrite ?length_insert; repeat split; auto; lia.
Qed.

Lemma write_loop (c l : list Z) (s : state) (sum : Z) :
  let r := fold_left (write_byte c) l (s, sum) in
  outside_buffer (fst r) = outside_buffer s /\
  length (pageBuffer (fst r)) = length (pageBuffer s) /\
  u8 (pageIX (fst r)) = u8 (pageIX s + Z.of_nat (length l)) /\
  (l <> [] -> is_byte (pageIX (fst r))) /\
  u8 (snd r) = u8 (sum + fold_right Z.add 0 (map (rd c) l)) /\
  (l <> [] -> is_byte (snd r)) /\
  (0 <= pageIX s ->
   pageIX s + Z.of_nat (length l) <= Z.of_nat (length (pageBuffer s)) ->
   Z.of_nat (length (pageBuffer s)) <= 256 ->
   stray (fst r) = stray s).
Proof.
  revert s sum. induction l as [|i l IH]; intros s sum r.
  - subst r. cbn. rewrite !Z.add_0_r. split_and!; auto; tauto.
  - subst r. cbn [fold_left].
    destruct (store_pageBuffer_fields (pageIX s) (rd c i) s) as (S1 & S2 & S3 & S4).
    set (s1 := store_pageBuffer (pageIX s) (rd c i) s) in *.
    unfold write_byte at 2. cbn [fst snd]. fold s1.
    specialize (IH (set_pageIX (u8 (pageIX s1 + 1)) s1) (u8 (sum + rd c i))).
    cbv zeta in IH. destruct IH as (I1 & I2 & I3 & I4 & I5 & I6 & I7).
    set (r := fold_left _ l _) in *.
    change (outside_buffer (set_pageIX ?v ?x)) with (outside_buffer x) in I1.
    fields. rewrite I1, I2, S1, S3. split_and!; auto.
    + rewrite I3, S2. cbn [length map fold_right]. unfold u8.
      Z.div_mod_to_equations. lia.
    + intros _. destruct l as [|j l]; [|apply I4; discriminate].
      subst r. cbn [fold_left fst]. fields. apply u8_byte.
    + rewrite I5. cbn [length map fold_right]. unfold u8.
      Z.div_mod_to_equations. lia.
    + intros _. destruct l as [|j l]; [|apply I6; discriminate].
      subst r. cbn [fold_left snd]. apply u8_byte.
    + cbn [length]. intros H0 H1 H2. rewrite I7.
      * apply S4. lia.
      * apply u8_byte.
      * rewrite S2, S3. unfold u8. Z.div_mod_to_equations. lia.
      * lia.
Qed.

Section Chunk.
Context {cfg : Build}.

(** The [WRITPAGE] case in closed form. *)
Lemma WRITPAGE_spec (s : state) :
  rd (command s) 0 = WRITPAGE ->
  let sum := checksum (chunk_data s) in
  let s' := fst (RequestEvent s) in
  snd (RequestEvent s) = [u8 (Z.lnot WRITPAGE); sum] /\
  statusRegister s'
  = (if sum =? rd (command s) (RXDATASIZE + 1) then statusRegister s
     else Z.lor (Z.land (statusRegister s) (Z.lnot (bit SR_APP_READY)))
                (bit SR_DEL_FLASH)) /\
  command s' = command s /\ commandLength s' = commandLength s /\
  ledToggleTimer s' = ledToggleTimer s /\ i2cDly s' = i2cDly s /\
  exitDly s' = exitDly s /\ flashPageAddr s' = flashPageAddr s /\
  led s' = led s /\ mem s' = mem s /\
  length (pageBuffer s') = length (pageBuffer s) /\
  pageIX s' = u8 (pageIX s + RXDATASIZE) /\
  (0 <= pageIX s ->
   pageIX s + RXDATASIZE <= Z.of_nat (length (pageBuffer s)) ->
   Z.of_nat (length (pageBuffer s)) <= 256 ->
   stray s' = stray s).
Proof.
  intros H sum s'.
  pose proof (RequestEvent_WRITPAGE s H) as HR. cbv zeta in HR.
  pose proof (write_loop (command s) (seqZ 1 RXDATASIZE) s 0) as HW.
  cbv zeta in HW.
  assert (Hne : seqZ 1 RXDATASIZE <> []) by discriminate.
  assert (Hlen : Z.of_nat (length (seqZ 1 RXDATASIZE)) = RXDATASIZE)
    by reflexivity.
  subst s'.
  generalize dependent
    (fold_left (write_byte (command s)) (seqZ 1 RXDATASIZE) (s, 0)).
  intros acc HR (W1 & W2 & W3 & W4 & W5 & W6 & W7).
  rewrite HR. clear HR. rewrite Hlen in *.
  specialize (W4 Hne). specialize (W6 Hne).
  assert (Hsum : snd acc = sum).
  { rewrite <- (u8_id (snd acc)) by assumption. rewrite W5.
    subst sum. unfold checksum, chunk_data, u8. now rewrite Z.add_0_l. }
  assert (Hix : pageIX (fst acc) = u8 (pageIX s + RXDATASIZE)).
  { rewrite <- (u8_id (pageIX (fst acc))) by assumption. exact W3. }
  clearbody sum.
  unfold outside_buffer in W1.
  injection W1 as E1 E2 E3 E4 E5 E6 E7 E8 E9 E10 E11.
  cbn [fst snd]. rewrite Hsum.
  destruct (Z.eqb_spec sum (rd (command s) (RXDATASIZE + 1))) as [E|E];
    cbn [negb]; fields; rewrite ?E4; split_and!; auto.
Qed.

(** C2.  A [WritePageChunk] frame in [command]: the reply is the ack byte
    and the sum modulo 256 of the eight data bytes.  When that sum differs
    from the byte that follows them, [ApplicationReady] is cleared and
    [DeleteFlashRequested] is set, the other flags staying as they are; when
    it does not differ the status register is left alone.  This holds in
    every state, whatever the fill index. *)
Theorem WritePageChunk_checksum (s : state) :
  rd (command s) 0 = WRITPAGE ->
  let sum := checksum (chunk_data s) in
  let s' := fst (RequestEvent s) in
  snd (RequestEvent s) = [u8 (Z.lnot WRITPAGE); sum] /\
  (sum <> rd (command s) (RXDATASIZE + 1) ->
   flag SR_APP_READY s' = false /\
   flag SR_DEL_FLASH s' = true /\
   forall k, 0 <= k -> k <> SR_APP_READY -> k <> SR_DEL_FLASH ->
             flag k s' = flag k s) /\
  (sum = rd (command s) (RXDATASIZE + 1) ->
   statusRegister s' = statusRegister s).
Proof.
  intros H sum s'.
  destruct (WRITPAGE_spec s H) as (Hr & Hs & _). fold sum s' in Hr, Hs.
  split; [exact Hr|]. split.
  - intros Hne. apply Z.eqb_neq in Hne. rewrite Hne in Hs.
    unfold flag. rewrite Hs. repeat split.
    + rewrite testbit_set, testbit_clear by (unfold SR_APP_READY, SR_DEL_FLASH; lia).
      rewrite Z.eqb_refl. cbn [negb]. now rewrite andb_false_r.
    + rewrite testbit_set by (unfold SR_DEL_FLASH; lia).
      rewrite Z.eqb_refl. apply orb_true_r.
    + intros k Hk H3 H2.
      rewrite testbit_set, testbit_clear by (unfold SR_APP_READY, SR_DEL_FLASH; lia).
      rewrite (proj2 (Z.eqb_neq SR_APP_READY k)) by congruence.
      rewrite (proj2 (Z.eqb_neq SR_DEL_FLASH k)) by congruence.
      now rewrite andb_true_r, orb_false_r.
  - intros E. apply Z.eqb_eq in E. now rewrite E in Hs.
Qed.

End Chunk.

(** ** What the flash writer leaves alone, in every state *)

Section Frames.
Context {cfg : Build}.

Lemma clear_loop_frame (l : list Z) (s : state) :
  let s' := fold_left clear_cell l s in
  control s' = control s /\
  length (pageBuffer s') = length (pageBuffer s) /\
  flashPageAddr s' = flashPageAddr s /\
  tplJumpLowByte s' = tplJumpLowByte s /\
  tplJumpHighByte s' = tplJumpHighByte s /\
  mem s' = mem s.
Proof.
  apply (fold_left_inv clear_cell
           (fun s' => control s' = control s /\
                      length (pageBuffer s') = length (pageBuffer s) /\
                      flashPageAddr s' = flashPageAddr s /\
                      tplJumpLowByte s' = tplJumpLowByte s /\
                      tplJumpHighByte s' = tplJumpHighByte s /\
                      mem s' = mem s)).
  - auto 10.
  - intros x i (H1 & H2 & H3 & H4 & H5 & H6). unfold clear_cell.
    change (control (set_pageBuffer ?b ?y)) with (control y). fields.
    rewrite length_insert. auto 10.
Qed.

Lemma FlashRaw_temp (a : Z) (s : state) :
  length (spm_temp (mem (FlashRaw a s))) = 32%nat.
Proof. reflexivity. Qed.

Lemma CreateTrampoline_frame (s : state) :
  let s' := CreateTrampoline s in
  control s' = control s /\
  length (pageBuffer s') = length (pageBuffer s) /\
  (length (spm_temp (mem s)) = 32%nat ->
   length (spm_temp (mem s')) = 32%nat).
Proof.
  unfold CreateTrampoline.
  destruct (flashPageAddr s <? u16 (TIMONEL_START - PAGE_SIZE)); [|auto].
  cbv zeta.
  destruct (clear_loop_frame (seqZ 0 (PAGE_SIZE - 2))
              (set_flashPageAddr (u16 (TIMONEL_START - PAGE_SIZE)) s))
    as (C1 & C2 & _).
  cbv zeta in C1, C2. set (s2 := fold_left clear_cell _ _) in *.
  clearbody s2.
  match goal with |- context [FlashRaw ?a ?x] =>
    destruct (FlashRaw_fields a x) as (F1 & F2 & _);
    rewrite F1, F2, (FlashRaw_temp a x)
  end.
  change (control (set_pageBuffer ?b (set_pageBuffer ?b' ?y))) with (control y).
  fields. rewrite !length_insert, C1, C2. auto.
Qed.

Lemma FlashPage_frame (a : Z) (s : state) :
  let s' := FlashPage a s in
  control s' = control s /\
  length (pageBuffer s') = length (pageBuffer s) /\
  (length (spm_temp (mem s)) = 32%nat ->
   length (spm_temp (mem s')) = 32%nat) /\
  (flashPageAddr s' = flashPageAddr s \/ flashPageAddr s' = RESET_PAGE).
Proof.
  rewrite FlashPage_unfold. cbv zeta.
  destruct (prepared_fields (page_base a) s) as (P1 & P2 & P3 & P4).
  set (s1 := prepared (page_base a) s) in *. clearbody s1.
  destruct (page_base a >=? u16 TIMONEL_START).
  { rewrite P1, P2, P3, P4. auto. }
  destruct (FlashRaw_fields (page_base a) s1) as (F1 & F2 & F3 & _).
  pose proof (FlashRaw_temp (page_base a) s1) as F4.
  destruct (page_base a =? RESET_PAGE).
  - destruct (CreateTrampoline_frame (FlashRaw (page_base a) s1))
      as (C1 & C2 & C3).
    cbv zeta in *.
    change (control (set_flashPageAddr ?v ?y)) with (control y). fields.
    rewrite C1, C2, F1, F2, P1, P2. auto.
  - rewrite F1, F2, F3, F4, P1, P2, P3. auto.
Qed.

Lemma erase_loop_temp (n : nat) (address : Z) (m : nvm) :
  spm_temp (snd (erase_loop n address m)) = spm_temp m.
Proof.
  revert address m. induction n as [|n IH]; intros address m; [reflexivity|].
  cbn [erase_loop]. destruct (address <? u16 TIMONEL_START); [|reflexivity].
  now rewrite IH.
Qed.

Lemma DeleteFlash_frame (s : state) :
  let s' := DeleteFlash s in
  control s' = control s /\
  length (pageBuffer s') = length (pageBuffer s) /\
  length (spm_temp (mem s')) = 32%nat /\
  flashPageAddr s' = flashPageAddr s.
Proof.
  unfold DeleteFlash. cbv zeta.
  destruct (clear_loop_frame (seqZ 0 PAGE_SIZE) s) as (C1 & C2 & C3 & _).
  cbv zeta in *. fold (ClearPageBuffer s) in *.
  set (s1 := ClearPageBuffer s) in *. clearbody s1.
  destruct (FixResetVector_fields s1) as (X1 & X2 & X3 & X4).
  set (s2 := FixResetVector s1) in *. clearbody s2.
  set (s3 := set_mem (boot_page_erase 0 (mem s2)) s2).
  destruct (FlashRaw_fields 0 s3) as (F1 & F2 & F3 & _).
  pose proof (FlashRaw_temp 0 s3) as F4.
  set (s4 := FlashRaw 0 s3) in *.
  destruct (FlashPage_frame PAGE_SIZE s4) as (P1 & P2 & P3 & _).
  assert (P4 : flashPageAddr (FlashPage PAGE_SIZE s4) = flashPageAddr s4).
  { rewrite FlashPage_unfold. cbv zeta.
    change (page_base PAGE_SIZE) with PAGE_SIZE.
    change (PAGE_SIZE =? RESET_PAGE) with false. cbv iota.
    destruct (prepared_fields PAGE_SIZE s4) as (_ & _ & Q & _).
    destruct (PAGE_SIZE >=? u16 TIMONEL_START); [exact Q|].
    destruct (FlashRaw_fields PAGE_SIZE (prepared PAGE_SIZE s4)) as (_ & _ & R & _).
    now rewrite R. }
  cbv zeta in *. clearbody s4.
  set (s5 := FlashPage PAGE_SIZE s4) in *. clearbody s5.
  change (control (set_mem ?m ?y)) with (control y). fields.
  rewrite erase_loop_temp, P1, P2, P3, P4, F1, F2, F3 by exact F4.
  subst s3. change (control (set_mem ?m ?y)) with (control y). fields.
  rewrite X1, X2, X3, C1, C2, C3. auto.
Qed.

End Frames.

(** ** The supervisor and the bus callbacks, step by step *)

Section Steps.
Context {cfg : Build}.

Lemma store_command_frame (i v : Z) (s : state) :
  let s' := store_command i v s in
  length (command s') = length (command s) /\
  commandLength s' = commandLength s /\
  statusRegister s' = statusRegister s /\
  pageIX s' = pageIX s /\
  flashPageAddr s' = flashPageAddr s /\
  pageBuffer s' = pageBuffer s /\
  mem s' = mem s.
Proof.
  unfold store_command. destruct (_ && _); fields;
    rewrite ?length_insert; auto 10.
Qed.

Lemma ReceiveEvent_frame (rx : list Z) (s : state) :
  let s' := ReceiveEvent rx s in
  length (command s') = length (command s) /\
  statusRegister s' = statusRegister s /\
  pageIX s' = pageIX s /\
  flashPageAddr s' = flashPageAddr s /\
  pageBuffer s' = pageBuffer s /\
  mem s' = mem s.
Proof.
  unfold ReceiveEvent. cbv zeta.
  set (s0 := set_command (command s) (u8 (Z.of_nat (length rx))) s).
  apply (fold_left_inv (fun s iv => store_command (fst iv) (snd iv) s)
           (fun s' => length (command s') = length (command s) /\
                      statusRegister s' = statusRegister s /\
                      pageIX s' = pageIX s /\
                      flashPageAddr s' = flashPageAddr s /\
                      pageBuffer s' = pageBuffer s /\
                      mem s' = mem s)).
  - subst s0. fields. auto 10.
  - intros x iv (H1 & H2 & H3 & H4 & H5 & H6).
    destruct (store_command_frame (fst iv) (snd iv) x)
      as (S1 & _ & S3 & S4 & S5 & S6 & S7).
    cbv zeta in *. rewrite S1, S3, S4, S5, S6, S7. auto 10.
Qed.

(** The master writes a command of one byte: it is what [RequestEvent]
    then finds. *)
Lemma ReceiveEvent_opcode (op : Z) (s : state) :
  command s <> [] -> rd (command (ReceiveEvent [op] s)) 0 = op.
Proof.
  intros Hc. unfold ReceiveEvent. cbv zeta. fields.
  change (u8 (Z.of_nat (length [op]))) with 1.
  change (seqZ 0 1) with [0]. cbn [zip zip_with fold_left fst snd].
  unfold store_command. fields.
  destruct (command s) as [|c0 c]; [congruence|].
  cbn [length]. rewrite Nat2Z.inj_succ.
  destruct (Z.ltb_spec 0 (Z.succ (Z.of_nat (length c)))); [|lia].
  cbn [andb Z.leb]. fields. reflexivity.
Qed.

Lemma control_inv (s s' : state) :
  control s' = control s ->
  command s' = command s /\ commandLength s' = commandLength s /\
  ledToggleTimer s' = ledToggleTimer s /\
  statusRegister s' = statusRegister s /\
  i2cDly s' = i2cDly s /\ exitDly s' = exitDly s /\
  pageIX s' = pageIX s /\ led s' = led s /\ stray s' = stray s.
Proof.
  unfold control. intros H. injection H as E1 E2 E3 E4 E5 E6 E7 E8 E9.
  auto 10.
Qed.

Lemma DeleteFlash_flag (k : Z) (s : state) :
  flag k (DeleteFlash s) = flag k s /\ pageIX (DeleteFlash s) = pageIX s.
Proof.
  destruct (DeleteFlash_frame s) as (D1 & _). cbv zeta in D1.
  apply control_inv in D1. destruct D1 as (_ & _ & _ & Dsr & _ & _ & Dix & _).
  unfold flag. rewrite Dsr, Dix. split; reflexivity.
Qed.

Local Opaque DeleteFlash FlashPage.

(** [tick] in terms of the flags. *)
Lemma tick_flags (s : state) :
  tick s
  = if flag SR_EXIT_TML s && flag SR_APP_READY s then HandOff s
    else
      let s1 := if flag SR_EXIT_TML s && negb (flag SR_APP_READY s)
                then DeleteFlash s else s in
      if flag SR_DEL_FLASH s then HandOff (DeleteFlash (set_led true s1))
      else Running (set_i2cDly I2CDLYTIME
                      (if pageIX s =? PAGE_SIZE then commit s1 else s1)).
Proof.
  unfold tick. rewrite exit_ready_flags, exit_only_flags.
  destruct (flag SR_EXIT_TML s && flag SR_APP_READY s); [reflexivity|].
  cbv zeta. rewrite delete_flag.
  destruct (flag SR_EXIT_TML s && negb (flag SR_APP_READY s)).
  - destruct (DeleteFlash_flag SR_DEL_FLASH s) as [-> ->]. reflexivity.
  - reflexivity.
Qed.

Lemma commit_frame (s : state) :
  let s' := commit s in
  statusRegister s' = statusRegister s /\
  command s' = command s /\ commandLength s' = commandLength s /\
  stray s' = stray s /\
  ledToggleTimer s' = ledToggleTimer s /\ exitDly s' = exitDly s /\
  i2cDly s' = i2cDly s /\
  length (pageBuffer s') = length (pageBuffer s) /\
  (length (spm_temp (mem s)) = 32%nat ->
   length (spm_temp (mem s')) = 32%nat) /\
  pageIX s' = 0 /\
  (flashPageAddr s' = u16 (flashPageAddr s + PAGE_SIZE) \/
   flashPageAddr s' = u16 (RESET_PAGE + PAGE_SIZE)).
Proof.
  unfold commit. cbv zeta.
  destruct (FlashPage_frame (flashPageAddr (set_led (negb (led s)) s))
              (set_led (negb (led s)) s)) as (F1 & F2 & F3 & F4).
  cbv zeta in *. set (s1 := FlashPage _ _) in *. clearbody s1.
  apply control_inv in F1.
  destruct F1 as (E1 & E2 & E3 & E4 & E5 & E6 & E7 & E8 & E9).
  fields. split_and!; auto.
  destruct F4 as [-> | ->]; auto.
Qed.

Lemma tick_frame (s : state) :
  let s' := state_of (tick s) in
  statusRegister s' = statusRegister s /\
  command s' = command s /\ commandLength s' = commandLength s /\
  stray s' = stray s /\
  ledToggleTimer s' = ledToggleTimer s /\ exitDly s' = exitDly s /\
  length (pageBuffer s') = length (pageBuffer s) /\
  (length (spm_temp (mem s)) = 32%nat ->
   length (spm_temp (mem s')) = 32%nat) /\
  (pageIX s' = pageIX s /\ flashPageAddr s' = flashPageAddr s \/
   pageIX s = PAGE_SIZE /\ pageIX s' = 0 /\
   (flashPageAddr s' = u16 (flashPageAddr s + PAGE_SIZE) \/
    flashPageAddr s' = u16 (RESET_PAGE + PAGE_SIZE))).
Proof.
  rewrite tick_flags.
  destruct (flag SR_EXIT_TML s && flag SR_APP_READY s).
  { cbn [state_of]. split_and!; auto. }
  cbv zeta.
  assert (H1 : exists s1,
             (if flag SR_EXIT_TML s && negb (flag SR_APP_READY s)
              then DeleteFlash s else s) = s1 /\
             control s1 = control s /\
             length (pageBuffer s1) = length (pageBuffer s) /\
             (length (spm_temp (mem s)) = 32%nat ->
              length (spm_temp (mem s1)) = 32%nat) /\
             flashPageAddr s1 = flashPageAddr s).
  { destruct (_ && _).
    - destruct (DeleteFlash_frame s) as (D1 & D2 & D3 & D4).
      exists (DeleteFlash s). auto 10.
    - exists s. auto 10. }
  destruct H1 as (s1 & Hs1 & C1 & C2 & C3 & C4).
  rewrite Hs1. clear Hs1.
  apply control_inv in C1.
  destruct C1 as (E1 & E2 & E3 & E4 & E5 & E6 & E7 & E8 & E9).
  destruct (flag SR_DEL_FLASH s); cbn [state_of].
  - destruct (DeleteFlash_frame (set_led true s1)) as (D1 & D2 & D3 & D4).
    cbv zeta in *. set (s2 := DeleteFlash _) in *. clearbody s2.
    apply control_inv in D1.
    destruct D1 as (G1 & G2 & G3 & G4 & G5 & G6 & G7 & G8 & G9).
    fields. split_and!; try congruence. left. split; congruence.
  - destruct (Z.eqb_spec (pageIX s) PAGE_SIZE) as [E|E].
    + destruct (commit_frame s1)
        as (K1 & K2 & K3 & K4 & K5 & K6 & K7 & K8 & K9 & K10 & K11).
      cbv zeta in *. set (s2 := commit s1) in *. clearbody s2. fields.
      split_and!; try congruence; auto.
      right. rewrite <- C4. auto.
    + fields. split_and!; try congruence; auto.
Qed.

Local Opaque tick.

Lemma supervise_frame (s : state) :
  let s' := state_of (supervise s) in
  statusRegister s' = statusRegister s /\
  command s' = command s /\ commandLength s' = commandLength s /\
  stray s' = stray s /\
  length (pageBuffer s') = length (pageBuffer s) /\
  (length (spm_temp (mem s)) = 32%nat ->
   length (spm_temp (mem s')) = 32%nat) /\
  (pageIX s' = pageIX s /\ flashPageAddr s' = flashPageAddr s \/
   pageIX s = PAGE_SIZE /\ pageIX s' = 0 /\
   (flashPageAddr s' = u16 (flashPageAddr s + PAGE_SIZE) \/
    flashPageAddr s' = u16 (RESET_PAGE + PAGE_SIZE))) /\
  (initialized s = false ->
   mem s' = mem s /\ pageBuffer s' = pageBuffer s /\ i2cDly s' = i2cDly s /\
   pageIX s' = pageIX s /\ flashPageAddr s' = flashPageAddr s) /\
  (initialized s = true ->
   ledToggleTimer s' = ledToggleTimer s /\ exitDly s' = exitDly s).
Proof.
  unfold supervise. destruct (initialized s); cbn [negb]; cbv zeta.
  - destruct (tick_frame (set_i2cDly (u16 (i2cDly s - 1)) s))
      as (T1 & T2 & T3 & T4 & T5 & T6 & T7 & T8 & T9).
    cbv zeta in *. fields.
    destruct (i2cDly s <=? 0).
    + split_and!; auto; discriminate.
    + cbn [state_of]. fields. split_and!; auto; discriminate.
  - fields.
    destruct (ledToggleTimer s >=? TOGGLETIME); [destruct (exitDly s =? 0)|];
      cbn [state_of]; fields; split_and!; auto; discriminate.
Qed.

End Steps.

Section DispatchFrame.
Context {cfg : Build}.

Lemma flag_set (k j : Z) (s : state) :
  0 <= j ->
  flag k (set_statusRegister (Z.lor (statusRegister s) (bit j)) s)
  = flag k s || (j =? k).
Proof. intros Hj. unfold flag. fields. now apply testbit_set. Qed.

Ltac dispatch s :=
  destruct (Z.eq_dec (rd (command s) 0) GETTMNLV) as [E|N1];
  [rewrite (RequestEvent_GETTMNLV s E)|
   destruct (Z.eq_dec (rd (command s) 0) EXITTMNL) as [E|N2];
   [rewrite (RequestEvent_EXITTMNL s E)|
    destruct (Z.eq_dec (rd (command s) 0) DELFLASH) as [E|N3];
    [rewrite (RequestEvent_DELFLASH s E)|
     destruct (Z.eq_dec (rd (command s) 0) STPGADDR) as [E|N4];
     [rewrite (RequestEvent_STPGADDR s E)|
      destruct (Z.eq_dec (rd (command s) 0) WRITPAGE) as [E|N5];
      [pose proof (WRITPAGE_spec s E) as W; cbv zeta in W|
       destruct (Z.eq_dec (rd (command s) 0) INITTINY) as [E|N6];
       [rewrite (RequestEvent_INITTINY s E)|
        rewrite (RequestEvent_unknown s N1 N2 N3 N4 N5 N6)]]]]]].

(** The dispatcher changes the status register in one of five ways, or
    not at all. *)
Lemma RequestEvent_status (s : state) :
  let sr := statusRegister s in
  let sr' := statusRegister (fst (RequestEvent s)) in
  sr' = sr \/
  rd (command s) 0 = GETTMNLV /\ sr' = Z.lor sr (bit SR_INIT_2) \/
  rd (command s) 0 = EXITTMNL /\ sr' = Z.lor sr (bit SR_EXIT_TML) \/
  rd (command s) 0 = DELFLASH /\ sr' = Z.lor sr (bit SR_DEL_FLASH) \/
  rd (command s) 0 = INITTINY /\ sr' = Z.lor sr (bit SR_INIT_1) \/
  rd (command s) 0 = WRITPAGE /\
  sr' = Z.lor (Z.land sr (Z.lnot (bit SR_APP_READY))) (bit SR_DEL_FLASH).
Proof.
  cbv zeta. dispatch s; cbn [fst]; fields; auto 10.
  destruct W as (_ & Wsr & _). rewrite Wsr.
  destruct (_ =? _); auto 10.
Qed.

Lemma RequestEvent_keeps (s : state) :
  let s' := fst (RequestEvent s) in
  command s' = command s /\
  length (pageBuffer s') = length (pageBuffer s) /\
  mem s' = mem s /\
  (rd (command s) 0 <> WRITPAGE -> pageIX s' = pageIX s) /\
  (rd (command s) 0 = WRITPAGE -> pageIX s' = u8 (pageIX s + RXDATASIZE)) /\
  (rd (command s) 0 <> STPGADDR -> flashPageAddr s' = flashPageAddr s) /\
  (rd (command s) 0 = STPGADDR ->
   flashPageAddr s'
   = u16 (Z.shiftl (rd (command s) 1) 8 + rd (command s) 2)).
Proof.
  pose proof labels as L.
  repeat match type of L with _ /\ _ => destruct L as [? L] end.
  cbv zeta. dispatch s; cbn [fst]; fields.
  1-4, 6-7: split_and!; auto; intros; congruence.
  destruct W as (_ & _ & W1 & W2 & W3 & W4 & W5 & W6 & W7 & W8 & W9 & W10 & _).
  split_and!; auto; intros; congruence.
Qed.

Lemma RequestEvent_flags (s : state) :
  let s' := fst (RequestEvent s) in
  (forall k, k = SR_INIT_1 \/ k = SR_INIT_2 ->
             flag k s = true -> flag k s' = true) /\
  (rd (command s) 0 <> INITTINY -> flag SR_INIT_1 s' = flag SR_INIT_1 s) /\
  (rd (command s) 0 <> GETTMNLV -> flag SR_INIT_2 s' = flag SR_INIT_2 s) /\
  (sr_inv s -> sr_inv s').
Proof.
  pose proof labels as L.
  repeat match type of L with _ /\ _ => destruct L as [? L] end.
  cbv zeta. unfold sr_inv, flag.
  destruct (RequestEvent_status s) as [E|[[E ->]|[[E ->]|[[E ->]|[[E ->]|[E ->]]]]]];
    cbv zeta in *; [rewrite E; auto|..];
    rewrite ?testbit_set, ?testbit_clear by (cbv; congruence);
    (split_and!;
     [ intros k [-> | ->] Hk;
       rewrite ?testbit_set, ?testbit_clear by (cbv; congruence);
       rewrite Hk; reflexivity
     | intros Hne; try congruence;
       cbn [Z.eqb SR_INIT_1 SR_INIT_2 SR_EXIT_TML SR_DEL_FLASH SR_APP_READY Pos.eqb negb];
       now rewrite ?andb_true_r, ?orb_false_r
     | intros Hne; try congruence;
       cbn [Z.eqb SR_INIT_1 SR_INIT_2 SR_EXIT_TML SR_DEL_FLASH SR_APP_READY Pos.eqb negb];
       now rewrite ?andb_true_r, ?orb_false_r
     | cbn [Z.eqb SR_INIT_1 SR_INIT_2 SR_EXIT_TML SR_DEL_FLASH SR_APP_READY Pos.eqb negb];
       rewrite ?andb_true_r, ?andb_false_r, ?orb_false_r, ?orb_true_r;
       auto ]).
Qed.

Lemma call_frame (c : callback) (s : state) :
  let s' := call c s in
  length (command s') = length (command s) /\
  length (pageBuffer s') = length (pageBuffer s) /\
  mem s' = mem s /\
  (forall k, k = SR_INIT_1 \/ k = SR_INIT_2 ->
             flag k s = true -> flag k s' = true) /\
  (sr_inv s -> sr_inv s') /\
  (pageIX s' = pageIX s \/
   c = Request /\ rd (command s) 0 = WRITPAGE /\
   pageIX s' = u8 (pageIX s + RXDATASIZE)) /\
  (flashPageAddr s' = flashPageAddr s \/
   c = Request /\ rd (command s) 0 = STPGADDR /\
   flashPageAddr s'
   = u16 (Z.shiftl (rd (command s) 1) 8 + rd (command s) 2)) /\
  (flag SR_INIT_1 s' = flag SR_INIT_1 s \/
   c = Request /\ rd (command s) 0 = INITTINY) /\
  (flag SR_INIT_2 s' = flag SR_INIT_2 s \/
   c = Request /\ rd (command s) 0 = GETTMNLV).
Proof.
  destruct c as [rx|]; cbn [call]; cbv zeta.
  - destruct (ReceiveEvent_frame rx s) as (R1 & R2 & R3 & R4 & R5 & R6).
    cbv zeta in *. set (s' := ReceiveEvent rx s) in *. clearbody s'.
    unfold sr_inv, flag. rewrite R1, R2, R3, R4, R5, R6. split_and!; auto.
  - destruct (RequestEvent_keeps s) as (Q1 & Q2 & Q3 & Q8 & Q9 & Q10 & Q11).
    destruct (RequestEvent_flags s) as (Q4 & Q5 & Q6 & Q7).
    cbv zeta in *. set (s' := fst (RequestEvent s)) in *. clearbody s'.
    rewrite Q1, Q2, Q3. split_and!; auto.
    + destruct (Z.eq_dec (rd (command s) 0) WRITPAGE); auto.
    + destruct (Z.eq_dec (rd (command s) 0) STPGADDR); auto.
    + destruct (Z.eq_dec (rd (command s) 0) INITTINY); auto.
    + destruct (Z.eq_dec (rd (command s) 0) GETTMNLV); auto.
Qed.

End DispatchFrame.

(** ** Reachable states *)

Section Reach.
Context {cfg : Build}.

Lemma boot_wf (f : Z -> Z) : wf (boot_state f).
Proof. repeat split. Qed.

Lemma supervise_wf (s s1 : state) :
  wf s -> supervise s = Running s1 -> wf s1.
Proof.
  intros (W1 & W2 & W3) Hs.
  destruct (supervise_frame s) as (_ & S2 & _ & _ & S5 & S6 & _).
  rewrite Hs in S2, S5, S6. cbv zeta in *. cbn [state_of] in *.
  unfold wf. rewrite S2, S5. auto.
Qed.

Lemma call_wf (c : callback) (s : state) : wf s -> wf (call c s).
Proof.
  intros (W1 & W2 & W3).
  destruct (call_frame c s) as (U1 & U2 & U3 & _).
  cbv zeta in *. unfold wf. now rewrite U1, U2, U3.
Qed.

Lemma reach_inv (ok : callback -> state -> Prop) (f : Z -> Z)
    (p : phase) (s : state) :
  reach ok f p s ->
  wf s /\ sr_inv s /\ is_byte (pageIX s) /\ is_word (flashPageAddr s).
Proof.
  induction 1 as [|s s1 Hr (IW & IS & IP & IA) Hs
                  |c s Hr (IW & IS & IP & IA) Hok
                  |s Hr IH].
  - split; [apply boot_wf|]. split; [intros H; discriminate H|].
    unfold is_byte, is_word. cbn. lia.
  - split; [exact (supervise_wf s s1 IW Hs)|].
    destruct (supervise_frame s) as (S1 & _ & _ & _ & _ & _ & S7 & _).
    rewrite Hs in S1, S7. cbv zeta in S1, S7. cbn [state_of] in S1, S7.
    split_and!.
    + unfold sr_inv, flag in *. now rewrite S1.
    + destruct S7 as [[-> _] | (_ & -> & _)]; [exact IP|].
      unfold is_byte. lia.
    + destruct S7 as [[_ ->] | (_ & _ & [-> | ->])];
        [exact IA | apply u16_word | apply u16_word].
  - split; [exact (call_wf c s IW)|].
    destruct (call_frame c s) as (_ & _ & _ & _ & U5 & U6 & U7 & _).
    cbv zeta in *. split_and!.
    + exact (U5 IS).
    + destruct U6 as [-> | (_ & _ & ->)]; [exact IP | apply u8_byte].
    + destruct U7 as [-> | (_ & _ & ->)]; [exact IA | apply u16_word].
  - exact IH.
Qed.

Lemma reach_weaken (ok : callback -> state -> Prop) (f : Z -> Z)
    (p : phase) (s : state) :
  reach ok f p s -> reach (fun _ _ => True) f p s.
Proof.
  induction 1 as [|s s1 Hr IH Hs|c s Hr IH Hok|s Hr IH].
  - constructor.
  - exact (reach_supervise _ _ s s1 IH Hs).
  - exact (reach_call _ _ c s IH I).
  - exact (reach_loop _ _ s IH).
Qed.

Lemma main_pass_running (cs : list callback) (s s' : state) :
  main_pass cs s = Running s' <->
  exists s1, supervise s = Running s1 /\ s' = usi_poll cs s1.
Proof.
  unfold main_pass. destruct (supervise s) as [s1|s1]; split.
  - intros H. injection H as <-. eauto.
  - intros (s2 & H & ->). now injection H as <-.
  - discriminate.
  - intros (s2 & H & _). discriminate.
Qed.

Lemma usi_poll_reach (f : Z -> Z) (cs : list callback) (s : state) :
  reach (fun _ _ => True) f InPoll s ->
  reach (fun _ _ => True) f InPoll (usi_poll cs s).
Proof.
  revert s. induction cs as [|c cs IH]; intros s Hr; [exact Hr|].
  cbn [usi_poll fold_left]. apply IH. exact (reach_call _ _ c s Hr I).
Qed.

Lemma run_reachable (f : Z -> Z) (ps : list (list callback)) (s s' : state) :
  reachable f s -> run ps s = Running s' -> reachable f s'.
Proof.
  revert s. induction ps as [|cs ps IH]; intros s Hr Hrun; cbn [run] in Hrun.
  - now injection Hrun as <-.
  - destruct (main_pass cs s) as [s1|s1] eqn:Hp; [|discriminate].
    apply main_pass_running in Hp. destruct Hp as (s2 & Hs & ->).
    apply (IH (usi_poll cs s2)); [|exact Hrun].
    apply reach_loop, usi_poll_reach.
    exact (reach_supervise _ _ s s2 Hr Hs).
Qed.

Lemma run_state_of (f : Z -> Z) (ps : list (list callback)) (s : state) :
  reachable f s ->
  is_running (run ps s) = true ->
  reachable f (state_of (run ps s)).
Proof.
  intros Hr Hb. destruct (run ps s) as [s'|s'] eqn:E; [|discriminate].
  cbn [state_of]. now apply (run_reachable f ps s).
Qed.

End Reach.

(** ** The claims on the supervisor and the dispatcher *)

Section Claims.
Context {cfg : Build}.

Lemma polls_flags (cs : list callback) (s : state) :
  let s' := usi_poll cs s in
  (forall k, k = SR_INIT_1 \/ k = SR_INIT_2 ->
             flag k s = true -> flag k s' = true) /\
  (polls INITTINY cs s = false -> flag SR_INIT_1 s' = flag SR_INIT_1 s) /\
  (polls GETTMNLV cs s = false -> flag SR_INIT_2 s' = flag SR_INIT_2 s).
Proof.
  revert s. induction cs as [|c cs IH]; intros s; cbv zeta.
  - cbn. auto.
  - cbn [usi_poll fold_left polls].
    destruct (IH (call c s)) as (I1 & I2 & I3). cbv zeta in *.
    destruct (call_frame c s) as (_ & _ & _ & U4 & _ & _ & _ & U8 & U9).
    cbv zeta in *. fold (usi_poll cs (call c s)). split_and!.
    + intros k Hk Hf. apply I1; [exact Hk|]. now apply U4.
    + intros Hd. apply orb_false_elim in Hd. destruct Hd as [Hd1 Hd2].
      rewrite I2 by exact Hd2.
      destruct U8 as [-> | [-> E]]; [reflexivity|].
      apply Z.eqb_neq in Hd1. contradiction.
    + intros Hd. apply orb_false_elim in Hd. destruct Hd as [Hd1 Hd2].
      rewrite I3 by exact Hd2.
      destruct U9 as [-> | [-> E]]; [reflexivity|].
      apply Z.eqb_neq in Hd1. contradiction.
Qed.

Lemma dispatch_flags (ps : list (list callback)) (s : state) :
  let s' := state_of (run ps s) in
  (forall k, k = SR_INIT_1 \/ k = SR_INIT_2 ->
             flag k s = true -> flag k s' = true) /\
  (dispatches INITTINY ps s = false -> flag SR_INIT_1 s' = flag SR_INIT_1 s) /\
  (dispatches GETTMNLV ps s = false -> flag SR_INIT_2 s' = flag SR_INIT_2 s).
Proof.
  revert s. induction ps as [|cs ps IH]; intros s; cbv zeta; cbn [run].
  - cbn [state_of]. auto.
  - destruct (supervise_frame s) as (S1 & _). cbv zeta in S1.
    assert (F : forall k, flag k (state_of (supervise s)) = flag k s)
      by (intros k; unfold flag; now rewrite S1).
    cbn [dispatches]. unfold main_pass.
    destruct (supervise s) as [s1|s1]; cbn [state_of] in *.
    + destruct (IH (usi_poll cs s1)) as (I1 & I2 & I3).
      destruct (polls_flags cs s1) as (U1 & U2 & U3). cbv zeta in *.
      split_and!.
      * intros k Hk Hf. apply I1; [exact Hk|]. apply U1; [exact Hk|].
        now rewrite F.
      * intros Hd. apply orb_false_elim in Hd. destruct Hd as [Hd1 Hd2].
        now rewrite (I2 Hd2), (U2 Hd1), F.
      * intros Hd. apply orb_false_elim in Hd. destruct Hd as [Hd1 Hd2].
        now rewrite (I3 Hd2), (U3 Hd1), F.
    + split_and!; intros; rewrite ?F; auto.
Qed.

Lemma request_flag (op j : Z) (s : state) :
  command s <> [] -> 0 <= j ->
  (forall x, rd (command x) 0 = op ->
             RequestEvent x
             = (set_statusRegister (Z.lor (statusRegister x) (bit j)) x,
                [u8 (Z.lnot op)])) ->
  forall k, flag k (request op s) = flag k s || (j =? k).
Proof.
  intros Hc Hj Hop k. unfold request.
  rewrite Hop by now apply ReceiveEvent_opcode.
  cbn [fst]. rewrite flag_set by exact Hj.
  destruct (ReceiveEvent_frame [op] s) as (_ & R2 & _).
  unfold flag. now rewrite R2.
Qed.

Lemma request_command (op : Z) (s : state) :
  command s <> [] -> command (request op s) <> [].
Proof.
  intros Hc. unfold request.
  destruct (RequestEvent_keeps (ReceiveEvent [op] s)) as (K1 & _).
  destruct (ReceiveEvent_frame [op] s) as (R1 & _).
  cbv zeta in *. rewrite K1. intros E. rewrite E in R1.
  destruct (command s); [congruence | discriminate].
Qed.

Lemma request_INITTINY (s : state) (k : Z) :
  command s <> [] ->
  flag k (request INITTINY s) = flag k s || (SR_INIT_1 =? k).
Proof.
  intros Hc. apply request_flag; [exact Hc | cbv; congruence |].
  apply RequestEvent_INITTINY.
Qed.

Lemma request_GETTMNLV (s : state) (k : Z) :
  command s <> [] ->
  flag k (request GETTMNLV s) = flag k s || (SR_INIT_2 =? k).
Proof.
  intros Hc. unfold request.
  rewrite RequestEvent_GETTMNLV by now apply ReceiveEvent_opcode.
  cbn [fst]. rewrite flag_set by (cbv; congruence).
  destruct (ReceiveEvent_frame [GETTMNLV] s) as (_ & R2 & _).
  unfold flag. now rewrite R2.
Qed.

End Claims.

Section Claims2.
Context {cfg : Build}.

(** C9, amended.  [SetPageAddress] stores the 16-bit address it carries,
    whatever its low bits.  While the master only sends addresses of pages,
    [flashPageAddr] is a multiple of the page size in every state that the
    program reaches without a store outside [command] or [pageBuffer]: a
    commit keeps it one. *)
Theorem flashPageAddr_aligned (f : Z -> Z) (p : phase) (s : state) :
  reach page_addressed f p s ->
  stray s = [] ->
  flashPageAddr s mod PAGE_SIZE = 0 /\
  forall x,
    rd (command x) 0 = STPGADDR ->
    flashPageAddr (fst (RequestEvent x))
    = u16 (Z.shiftl (rd (command x) 1) 8 + rd (command x) 2).
Proof.
  intros Hr _. split.
  - induction Hr as [|s s1 Hr IH Hs|c s Hr IH Hok|s Hr IH].
    + reflexivity.
    + destruct (supervise_frame s) as (_ & _ & _ & _ & _ & _ & S7 & _).
      rewrite Hs in S7. cbv zeta in S7. cbn [state_of] in S7.
      destruct S7 as [[_ ->] | (_ & _ & [-> | ->])]; [exact IH | |reflexivity].
      unfold u16, PAGE_SIZE in *. Z.div_mod_to_equations. lia.
    + destruct (call_frame c s) as (_ & _ & _ & _ & _ & _ & U7 & _).
      cbv zeta in U7. destruct U7 as [-> | (E1 & E2 & ->)]; [exact IH|].
      exact (Hok E1 E2).
    + exact IH.
  - intros x E. now rewrite RequestEvent_STPGADDR.
Qed.

Lemma commit_spec (s : state) :
  is_word (flashPageAddr s) ->
  PAGE_SIZE <= TIMONEL_START <= 65536 - PAGE_SIZE ->
  length (pageBuffer s) = 64%nat ->
  length (spm_temp (mem s)) = 32%nat ->
  let a := flashPageAddr s in
  pageIX (commit s) = 0 /\
  page_writes (spm_log (mem (commit s)))
  = page_writes (spm_log (mem s)) ++ FlashPage_targets a s /\
  flashPageAddr (commit s)
  = (if page_base a =? RESET_PAGE then PAGE_SIZE else u16 (a + PAGE_SIZE)) /\
  length (pageBuffer (commit s)) = 64%nat /\
  length (spm_temp (mem (commit s))) = 32%nat.
Proof.
  intros Ha HT Hb Ht a. unfold commit. cbv zeta.
  destruct (FlashPage_spec (flashPageAddr (set_led (negb (led s)) s))
              (set_led (negb (led s)) s) Ha HT Hb Ht)
    as (_ & F2 & F3 & F4 & F5 & _).
  set (s1 := FlashPage _ _) in *. clearbody s1. fields.
  rewrite F2, F3, F4, F5. fold a. split_and!; auto.
  destruct (page_base a =? RESET_PAGE); reflexivity.
Qed.

(** C6, amended.  A tick of the supervisor that finds the page buffer full,
    with neither an exit nor a deletion to carry out, is one [commit]: one
    call of [FlashPage], which programs the page of [flashPageAddr] once
    when it lies below the bootloader, after which the fill index is 0.
    A page-aligned [flashPageAddr] advances by one page size (on 16 bits),
    page 0 included, and by two page sizes over two commits in a row.  From
    an address that is not aligned the commit of page 0 leaves it at
    [PAGE_SIZE]; elsewhere it advances by one page size. *)
Theorem full_page_commit (s : state) :
  wf s -> is_word (flashPageAddr s) ->
  PAGE_SIZE <= TIMONEL_START <= 65536 - PAGE_SIZE ->
  initialized s = true -> i2cDly s = 0 ->
  flag SR_EXIT_TML s = false -> flag SR_DEL_FLASH s = false ->
  pageIX s = PAGE_SIZE ->
  let a := flashPageAddr s in
  let s1 := set_i2cDly I2CDLYTIME (commit (set_i2cDly (u16 (-1)) s)) in
  supervise s = Running s1 /\
  pageIX s1 = 0 /\
  page_writes (spm_log (mem s1))
  = page_writes (spm_log (mem s)) ++ FlashPage_targets a s /\
  count_occ Z.eq_dec (FlashPage_targets a s) (page_base a)
  = (if page_base a <? TIMONEL_START then 1%nat else 0%nat) /\
  flashPageAddr s1
  = (if page_base a =? RESET_PAGE then PAGE_SIZE else u16 (a + PAGE_SIZE)) /\
  (a mod PAGE_SIZE = 0 ->
   flashPageAddr s1 = u16 (a + PAGE_SIZE) /\
   flashPageAddr (commit s1) = u16 (a + 2 * PAGE_SIZE)).
Proof.
  intros (_ & Wb & Wt) Ha HT Hi Hd He Hdel Hix a s1.
  pose proof start_aligned as HA.
  set (s0 := set_i2cDly (u16 (-1)) s) in *.
  destruct (commit_spec s0 Ha HT Wb Wt) as (C1 & C2 & C3 & C4 & C5).
  cbv zeta in *. change (flashPageAddr s0) with a in *.
  change (FlashPage_targets a s0) with (FlashPage_targets a s) in *.
  change (mem s0) with (mem s) in *.
  assert (Hs : supervise s = Running s1).
  { unfold supervise. rewrite Hi, Hd. cbn [negb Z.leb]. cbv zeta.
    change (0 - 1) with (-1). fold s0. rewrite tick_flags.
    change (flag SR_EXIT_TML s0) with (flag SR_EXIT_TML s).
    change (flag SR_DEL_FLASH s0) with (flag SR_DEL_FLASH s).
    change (pageIX s0) with (pageIX s).
    rewrite He, Hdel, Hix. reflexivity. }
  assert (Hcount : count_occ Z.eq_dec (FlashPage_targets a s) (page_base a)
                   = if page_base a <? TIMONEL_START then 1%nat else 0%nat).
  { unfold FlashPage_targets.
    destruct (Z.geb_spec (page_base a) TIMONEL_START),
      (Z.ltb_spec (page_base a) TIMONEL_START); try lia; [reflexivity|].
    destruct (Z.eqb_spec (page_base a) RESET_PAGE) as [E|E].
    - rewrite E. destruct (Z.ltb_spec (flashPageAddr s) (TIMONEL_START - PAGE_SIZE)).
      + cbn [count_occ]. destruct (Z.eq_dec RESET_PAGE RESET_PAGE); [|congruence].
        destruct (Z.eq_dec (TIMONEL_START - PAGE_SIZE) RESET_PAGE) as [E'|_];
          [|reflexivity].
        unfold is_word, RESET_PAGE, PAGE_SIZE in *. fold a in H1. lia.
      + cbn [count_occ]. now destruct (Z.eq_dec RESET_PAGE RESET_PAGE).
    - cbn [count_occ]. now destruct (Z.eq_dec (page_base a) (page_base a)). }
  subst s1. fields. split_and!; auto.
  intros Hal.
  assert (Hpb : page_base a = a).
  { rewrite page_base_eq by exact Ha. rewrite Hal. lia. }
  assert (H1 : flashPageAddr (commit s0) = u16 (a + PAGE_SIZE)).
  { rewrite C3, Hpb. destruct (Z.eqb_spec a RESET_PAGE) as [->|]; reflexivity. }
  split; [exact H1|].
  set (s2 := set_i2cDly I2CDLYTIME (commit s0)).
  destruct (commit_spec s2 ltac:(subst s2; fields; rewrite H1; apply u16_word)
              HT C4 C5) as (_ & _ & D3 & _).
  rewrite D3. change (flashPageAddr s2) with (flashPageAddr (commit s0)).
  rewrite H1.
  assert (Hal2 : u16 (a + PAGE_SIZE) mod PAGE_SIZE = 0).
  { unfold u16, PAGE_SIZE in *. Z.div_mod_to_equations. lia. }
  rewrite page_base_eq, Hal2, Z.sub_0_r by apply u16_word.
  unfold is_word in Ha.
  destruct (Z.eqb_spec (u16 (a + PAGE_SIZE)) RESET_PAGE) as [E|E].
  - unfold u16, RESET_PAGE, PAGE_SIZE in *. Z.div_mod_to_equations. lia.
  - unfold u16, PAGE_SIZE in *. Z.div_mod_to_equations. lia.
Qed.

Lemma reply_ignores_address (v : Z) (s : state) :
  snd (RequestEvent (set_flashPageAddr v s)) = snd (RequestEvent s).
Proof.
  set (s' := set_flashPageAddr v s).
  destruct (Z.eq_dec (rd (command s) 0) GETTMNLV) as [E|N1].
  { now rewrite (RequestEvent_GETTMNLV s E), (RequestEvent_GETTMNLV s' E). }
  destruct (Z.eq_dec (rd (command s) 0) EXITTMNL) as [E|N2].
  { now rewrite (RequestEvent_EXITTMNL s E), (RequestEvent_EXITTMNL s' E). }
  destruct (Z.eq_dec (rd (command s) 0) DELFLASH) as [E|N3].
  { now rewrite (RequestEvent_DELFLASH s E), (RequestEvent_DELFLASH s' E). }
  destruct (Z.eq_dec (rd (command s) 0) STPGADDR) as [E|N4].
  { now rewrite (RequestEvent_STPGADDR s E), (RequestEvent_STPGADDR s' E). }
  destruct (Z.eq_dec (rd (command s) 0) WRITPAGE) as [E|N5].
  { destruct (WRITPAGE_spec s E) as (R & _).
    destruct (WRITPAGE_spec s' E) as (R' & _).
    rewrite R, R'. reflexivity. }
  destruct (Z.eq_dec (rd (command s) 0) INITTINY) as [E|N6].
  { now rewrite (RequestEvent_INITTINY s E), (RequestEvent_INITTINY s' E). }
  now rewrite (RequestEvent_unknown s N1 N2 N3 N4 N5 N6),
    (RequestEvent_unknown s' N1 N2 N3 N4 N5 N6).
Qed.

(** C3.  A commit whose address is at or above [TIMONEL_START]: [FlashPage]
    returns the state it was given, so neither the flash nor anything else
    has changed; the caller goes on as after any commit, with the page
    address advanced and the fill index back at 0; and no reply of the
    dispatcher depends on the page address, so the master is acknowledged
    as for any other page. *)
Theorem FlashPage_bootloader_noop (a : Z) (s : state) :
  is_word a -> 0 < TIMONEL_START <= 65535 -> TIMONEL_START <= a ->
  FlashPage a s = s /\
  (flashPageAddr s = a ->
   mem (commit s) = mem s /\
   pageBuffer (commit s) = pageBuffer s /\
   flashPageAddr (commit s) = u16 (a + PAGE_SIZE) /\
   pageIX (commit s) = 0) /\
  (forall x, snd (RequestEvent (set_flashPageAddr a x)) = snd (RequestEvent x)).
Proof.
  intros Ha HT Hge. split; [|split].
  - now apply FlashPage_discard.
  - intros E. unfold commit. cbv zeta. fields.
    rewrite E, FlashPage_discard by assumption. fields. now rewrite E.
  - intros x. apply reply_ignores_address.
Qed.

Local Opaque DeleteFlash FlashPage tick commit.

Lemma set_led_fields (b : bool) (s : state) :
  pageBuffer (set_led b s) = pageBuffer s /\ mem (set_led b s) = mem s.
Proof. split; reflexivity. Qed.

(** The flash after the two runs of [DeleteFlash] of such a tick. *)
Lemma DeleteFlash_twice (s0 : state) :
  PAGE_SIZE <= TIMONEL_START <= 65536 - PAGE_SIZE ->
  length (pageBuffer s0) = 64%nat ->
  length (spm_temp (mem s0)) = 32%nat ->
  (forall x, 2 <= x < TIMONEL_START ->
     flash (mem (DeleteFlash (set_led true (DeleteFlash s0)))) x = 0xFF) /\
  (forall x, TIMONEL_START <= x ->
     flash (mem (DeleteFlash (set_led true (DeleteFlash s0)))) x
     = flash (mem s0) x).
Proof.
  intros HT Wb Wt.
  assert (H64 : 64 <= TIMONEL_START) by (unfold PAGE_SIZE in HT; lia).
  pose proof (DeleteFlash_spec s0 HT Wb Wt) as D.
  cbv zeta in D. destruct D as (_ & D2 & D3 & _ & D5 & _).
  destruct (set_led_fields true (DeleteFlash s0)) as [L1 L2].
  rewrite <- L1 in D2. rewrite <- L2 in D3.
  pose proof (DeleteFlash_spec (set_led true (DeleteFlash s0)) HT D2 D3) as E.
  cbv zeta in E. destruct E as (_ & _ & _ & _ & E5 & _).
  rewrite L2 in E5.
  split.
  - intros x Hx. rewrite E5 by lia.
    destruct (Z.eqb_spec x 0); [lia|]. destruct (Z.eqb_spec x 1); [lia|].
    destruct (Z.ltb_spec x TIMONEL_START); [reflexivity|lia].
  - intros x Hx. rewrite E5, D5 by lia.
    destruct (Z.eqb_spec x 0); [lia|]. destruct (Z.eqb_spec x 1); [lia|].
    destruct (Z.ltb_spec x TIMONEL_START); [lia|reflexivity].
Qed.

(** C8.  Take a state that the program reaches without a store outside
    [command] or [pageBuffer], initialized, with the tick timer expired
    and [ExitRequested] set.  The pass that starts in it ends in the call
    of [RunApplication]: at once and with the flash untouched when
    [ApplicationReady] is set; after [DeleteFlash] (run twice, since
    [DeleteFlashRequested] is then set as well), which leaves every cell
    from address 2 up to the bootloader erased, when it is clear. *)
Theorem exit_tick (f : Z -> Z) (cs : list callback) (s : state) :
  reachable f s ->
  stray s = [] ->
  PAGE_SIZE <= TIMONEL_START <= 65536 - PAGE_SIZE ->
  initialized s = true -> i2cDly s = 0 ->
  flag SR_EXIT_TML s = true ->
  let s0 := set_i2cDly (u16 (-1)) s in
  (flag SR_APP_READY s = true ->
   main_pass cs s = HandOff s0 /\ mem s0 = mem s) /\
  (flag SR_APP_READY s = false ->
   let s' := DeleteFlash (set_led true (DeleteFlash s0)) in
   main_pass cs s = HandOff s' /\
   (forall x, 2 <= x < TIMONEL_START -> flash (mem s') x = 0xFF) /\
   (forall x, TIMONEL_START <= x -> flash (mem s') x = flash (mem s) x)).
Proof.
  intros Hr _ HT Hi Hd He s0.
  destruct (reach_inv _ f _ s Hr) as ((_ & Wb & Wt) & Hsr & _).
  assert (Hs : supervise s = tick s0).
  { unfold supervise. rewrite Hi, Hd. reflexivity. }
  unfold main_pass. rewrite Hs, tick_flags.
  change (flag SR_EXIT_TML s0) with (flag SR_EXIT_TML s).
  change (flag SR_APP_READY s0) with (flag SR_APP_READY s).
  change (flag SR_DEL_FLASH s0) with (flag SR_DEL_FLASH s).
  rewrite He. split.
  - intros Hready. rewrite Hready. cbn [andb]. auto.
  - intros Hready. rewrite Hready, (Hsr Hready). cbn [andb negb]. cbv zeta.
    split; [reflexivity|].
    exact (DeleteFlash_twice s0 HT Wb Wt).
Qed.

End Claims2.

(** ** Receiving a frame *)


Lemma store_loop_in (l : list Z) :
  forall (k : nat) (c : list Z) (n : Z) (s : state),
  (k + length l <= length c)%nat ->
  fold_left (fun s iv => store_command (fst iv) (snd iv) s)
            (zip (seqZ (Z.of_nat k) (Z.of_nat (length l))) l)
            (set_command c n s)
  = set_command (take k c ++ l ++ drop (k + length l) c) n s.
Proof.
  induction l as [|x l IH]; intros k c n s Hk.
  - cbn [length zip_with fold_left app]. rewrite Nat.add_0_r, take_drop. reflexivity.
  - cbn [length] in *.
    rewrite seqZ_cons by lia.
    cbn [zip_with fold_left fst snd].
    replace (Z.pred (Z.of_nat (S (length l)))) with (Z.of_nat (length l)) by lia.
    replace (Z.succ (Z.of_nat k)) with (Z.of_nat (S k)) by lia.
    unfold store_command at 2. fields.
    replace ((0 <=? Z.of_nat k) && (Z.of_nat k <? Z.of_nat (length c)))
      with true by (symmetry; apply andb_true_iff; split; [apply Z.leb_le|apply Z.ltb_lt]; lia).
    rewrite Nat2Z.id.
    change (set_command (<[k:=x]> c) n (set_command c n s))
      with (set_command (<[k:=x]> c) n s).
    rewrite IH by (rewrite length_insert; lia).
    f_equal.
    rewrite (take_S_r _ _ x) by (apply list_lookup_insert_eq; lia).
    rewrite take_insert_ge by lia.
    rewrite drop_insert_lt by lia.
    rewrite <- app_assoc. cbn [app].
    replace (S k + length l)%nat with (k + S (length l))%nat by lia.
    reflexivity.
Qed.

Section Receive.
Context {cfg : Build}.

Lemma ReceiveEvent_eq (rx : list Z) (s : state) :
  (length rx <= length (command s))%nat ->
  (length (command s) <= 255)%nat ->
  ReceiveEvent rx s
  = set_command (rx ++ drop (length rx) (command s))
                (Z.of_nat (length rx)) s.
Proof.
  intros Hn Hc. unfold ReceiveEvent. cbv zeta. fields.
  unfold u8. rewrite Z.mod_small by lia.
  rewrite (store_loop_in rx 0 (command s) _ s) by lia.
  reflexivity.
Qed.

(** X1.  A frame that fits [command] replaces its first bytes and leaves
    the bytes after them as the frame before left them; [commandLength] is
    the length of the frame.  No other variable changes: receiving a
    command runs none of it.  An empty frame only sets [commandLength] to
    0. *)
Theorem ReceiveEvent_stores_frame (rx : list Z) (s : state) :
  (length rx <= length (command s))%nat ->
  (length (command s) <= 255)%nat ->
  ReceiveEvent rx s
  = set_command (rx ++ drop (length rx) (command s))
                (Z.of_nat (length rx)) s.
Proof. exact (ReceiveEvent_eq rx s). Qed.

End Receive.

(** ** Buffering chunks *)

Lemma set_pageIX_same (s : state) :
  set_pageIX (pageIX s) (set_pageBuffer (pageBuffer s) s) = s.
Proof. destruct s; reflexivity. Qed.

Lemma write_loop_buffer (c l : list Z) :
  forall (s : state) (sum : Z),
  0 <= pageIX s ->
  pageIX s + Z.of_nat (length l) <= Z.of_nat (length (pageBuffer s)) ->
  (length (pageBuffer s) <= 255)%nat ->
  fst (fold_left (write_byte c) l (s, sum))
  = set_pageIX (pageIX s + Z.of_nat (length l))
      (set_pageBuffer
         (take (Z.to_nat (pageIX s)) (pageBuffer s) ++ map (rd c) l
          ++ drop (Z.to_nat (pageIX s) + length l) (pageBuffer s)) s).
Proof.
  induction l as [|i l IH]; intros s sum H0 H1 H2.
  - cbn [fold_left fst length map app]. rewrite Z.add_0_r, Nat.add_0_r, take_drop.
    symmetry. apply set_pageIX_same.
  - cbn [length] in *. cbn [fold_left].
    unfold write_byte at 2. cbn [fst snd].
    unfold store_pageBuffer.
    replace ((0 <=? pageIX s) && (pageIX s <? Z.of_nat (length (pageBuffer s))))
      with true
      by (symmetry; apply andb_true_iff; split;
          [apply Z.leb_le|apply Z.ltb_lt]; lia).
    fields.
    rewrite (u8_id (pageIX s + 1)) by (unfold is_byte; lia).
    rewrite IH by (fields; rewrite ?length_insert; lia).
    fields.
    replace (Z.to_nat (pageIX s + 1)) with (S (Z.to_nat (pageIX s))) by lia.
    rewrite (take_S_r _ _ (rd c i)) by (apply list_lookup_insert_eq; lia).
    rewrite take_insert_ge by lia.
    rewrite drop_insert_lt by lia.
    rewrite <- app_assoc. cbn [app map].
    replace (S (Z.to_nat (pageIX s)) + length l)%nat
      with (Z.to_nat (pageIX s) + S (length l))%nat by lia.
    replace (pageIX s + 1 + Z.of_nat (length l))
      with (pageIX s + Z.of_nat (S (length l))) by lia.
    reflexivity.
Qed.

Section Chunks.
Context {cfg : Build}.

Lemma WRITPAGE_eq (s : state) :
  rd (command s) 0 = WRITPAGE ->
  0 <= pageIX s ->
  pageIX s + RXDATASIZE <= Z.of_nat (length (pageBuffer s)) ->
  (length (pageBuffer s) <= 255)%nat ->
  let p := Z.to_nat (pageIX s) in
  let s1 :=
    set_pageIX (pageIX s + RXDATASIZE)
      (set_pageBuffer
         (take p (pageBuffer s) ++ chunk_data s
          ++ drop (p + 8) (pageBuffer s)) s) in
  fst (RequestEvent s)
  = if checksum (chunk_data s) =? rd (command s) (RXDATASIZE + 1) then s1
    else set_statusRegister
           (Z.lor (Z.land (statusRegister s) (Z.lnot (bit SR_APP_READY)))
                  (bit SR_DEL_FLASH)) s1.
Proof.
  intros H H0 H1 H2 p s1.
  pose proof (RequestEvent_WRITPAGE s H) as HR. cbv zeta in HR.
  pose proof (write_loop (command s) (seqZ 1 RXDATASIZE) s 0) as HW.
  cbv zeta in HW.
  pose proof (write_loop_buffer (command s) (seqZ 1 RXDATASIZE) s 0 H0) as HB.
  assert (Hlen : Z.of_nat (length (seqZ 1 RXDATASIZE)) = RXDATASIZE)
    by reflexivity.
  assert (Hlen' : length (seqZ 1 RXDATASIZE) = 8%nat) by reflexivity.
  rewrite Hlen, Hlen' in HB. specialize (HB H1 H2).
  fold (chunk_data s) in HB. fold p in HB. fold s1 in HB.
  assert (Hne : seqZ 1 RXDATASIZE <> []) by discriminate.
  assert (Hsr : statusRegister s1 = statusRegister s) by reflexivity.
  clearbody s1.
  generalize dependent
    (fold_left (write_byte (command s)) (seqZ 1 RXDATASIZE) (s, 0)).
  intros acc HR (_ & _ & _ & _ & W5 & W6 & _) HB.
  rewrite HR. clear HR. cbn [fst].
  assert (Hsum : snd acc = checksum (chunk_data s)).
  { rewrite <- (u8_id (snd acc)) by auto. rewrite W5.
    unfold checksum, chunk_data, u8. now rewrite Z.add_0_l. }
  rewrite Hsum, HB.
  destruct (checksum (chunk_data s) =? rd (command s) (RXDATASIZE + 1));
    cbn [negb]; [reflexivity|].
  rewrite Hsr. reflexivity.
Qed.

Lemma rd_cons (x : Z) (l : list Z) (i : Z) :
  0 < i -> rd (x :: l) i = rd l (i - 1).
Proof.
  intros H. unfold rd. replace (Z.to_nat i) with (S (Z.to_nat (i - 1))) by lia.
  reflexivity.
Qed.

Lemma rd_app_l (l r : list Z) (i : Z) :
  0 <= i < Z.of_nat (length l) -> rd (l ++ r) i = rd l i.
Proof.
  intros H. unfold rd. apply lookup_total_app_l. lia.
Qed.

Lemma rd_app_r (l r : list Z) (i : Z) :
  Z.of_nat (length l) <= i -> rd (l ++ r) i = rd r (i - Z.of_nat (length l)).
Proof.
  intros H. unfold rd. rewrite lookup_total_app_r by lia. f_equal. lia.
Qed.

Lemma map_rd_seqZ (l r : list Z) :
  map (rd (l ++ r)) (seqZ 0 (Z.of_nat (length l))) = l.
Proof.
  revert r. induction l as [|x l IH] using rev_ind; intros r.
  - reflexivity.
  - rewrite length_app. cbn [length].
    rewrite Nat.add_1_r, seqZ_S, map_app. cbn [map].
    rewrite <- (app_assoc l [x] r). rewrite IH. f_equal.
    rewrite Z.add_0_l, rd_app_r by lia. rewrite Z.sub_diag. reflexivity.
Qed.

Lemma chunk_data_frame (op k : Z) (d r : list Z) (n : Z) (s : state) :
  length d = 8%nat ->
  let s1 := set_command (op :: d ++ [k] ++ r) n s in
  rd (command s1) 0 = op /\ chunk_data s1 = d /\
  rd (command s1) (RXDATASIZE + 1) = k.
Proof.
  intros Hd s1. subst s1. fields. split; [reflexivity|]. split.
  - unfold chunk_data. fields.
    rewrite <- (fmap_add_seqZ 1 0). 
    change (map (rd (op :: d ++ [k] ++ r)) (Z.add 1 <$> seqZ 0 RXDATASIZE))
      with (map (rd (op :: d ++ [k] ++ r)) (map (Z.add 1) (seqZ 0 RXDATASIZE))).
    rewrite map_map.
    transitivity (map (rd (d ++ [k] ++ r)) (seqZ 0 (Z.of_nat (length d))));
      [|apply map_rd_seqZ].
    rewrite Hd. apply map_ext_in. intros i Hi.
    apply list_elem_of_In, elem_of_seqZ in Hi.
    rewrite rd_cons by lia. f_equal. lia.
  - rewrite rd_cons by (unfold RXDATASIZE; lia).
    rewrite rd_app_r by (rewrite Hd; unfold RXDATASIZE; lia).
    rewrite Hd. reflexivity.
Qed.
End Chunks.

Lemma failed_twice (sr : Z) : failed (failed sr) = failed sr.
Proof.
  unfold failed. apply Z.bits_inj'. intros j Hj.
  repeat (rewrite ?testbit_set, ?testbit_clear
            by (unfold SR_DEL_FLASH, SR_APP_READY; lia)).
  destruct (Z.testbit sr j), (SR_APP_READY =? j), (SR_DEL_FLASH =? j); reflexivity.
Qed.

Section ChunkSteps.
Context {cfg : Build}.

Lemma chunk_step (d : list Z) (k : Z) (s : state) :
  length (command s) = 18%nat -> length (pageBuffer s) = 64%nat ->
  length d = 8%nat ->
  0 <= pageIX s -> pageIX s + RXDATASIZE <= PAGE_SIZE ->
  let s' := call Request (call (Receive (WRITPAGE :: d ++ [k])) s) in
  let p := Z.to_nat (pageIX s) in
  length (command s') = 18%nat /\
  pageBuffer s' = take p (pageBuffer s) ++ d ++ drop (p + 8) (pageBuffer s) /\
  pageIX s' = pageIX s + RXDATASIZE /\
  statusRegister s'
  = (if chunk_ok (d, k) then statusRegister s
     else failed (statusRegister s)) /\
  stray s' = stray s /\ mem s' = mem s /\
  flashPageAddr s' = flashPageAddr s /\
  ledToggleTimer s' = ledToggleTimer s /\ i2cDly s' = i2cDly s /\
  exitDly s' = exitDly s /\ led s' = led s /\
  tplJumpLowByte s' = tplJumpLowByte s /\
  tplJumpHighByte s' = tplJumpHighByte s.
Proof.
  intros Hc Hb Hd H0 H1 s' p. subst s'. cbn [call].
  rewrite ReceiveEvent_eq
    by (rewrite ?Hc; cbn [length]; rewrite ?length_app, ?Hd; cbn [length]; lia).
  cbn [app]. rewrite <- app_assoc.
  set (r := drop _ (command s)).
  set (n := Z.of_nat _).
  assert (Hr : length r = 8%nat).
  { subst r. rewrite length_drop, Hc. cbn [length].
    rewrite length_app, Hd. reflexivity. }
  destruct (chunk_data_frame WRITPAGE k d r n s Hd) as (F1 & F2 & F3).
  set (s1 := set_command (WRITPAGE :: d ++ [k] ++ r) n s) in *.
  assert (Hb1 : pageBuffer s1 = pageBuffer s) by reflexivity.
  assert (Hp1 : pageIX s1 = pageIX s) by reflexivity.
  assert (Hs1 : statusRegister s1 = statusRegister s) by reflexivity.
  assert (Hc1 : length (command s1) = 18%nat).
  { subst s1. fields. cbn [length]. rewrite !length_app, Hd, Hr. reflexivity. }
  assert (Hrest :
    stray s1 = stray s /\ mem s1 = mem s /\
    flashPageAddr s1 = flashPageAddr s /\
    ledToggleTimer s1 = ledToggleTimer s /\ i2cDly s1 = i2cDly s /\
    exitDly s1 = exitDly s /\ led s1 = led s /\
    tplJumpLowByte s1 = tplJumpLowByte s /\
    tplJumpHighByte s1 = tplJumpHighByte s) by (repeat split).
  pose proof (WRITPAGE_eq s1 F1) as HW. cbv zeta in HW.
  rewrite Hp1, Hb1, Hs1, F2, F3, Hb in HW.
  specialize (HW H0 H1 ltac:(lia)).
  clearbody s1. rewrite HW. unfold chunk_ok. cbn [fst snd]. fold p.
  destruct (checksum d =? k); fields; rewrite Hc1; tauto.
Qed.
End ChunkSteps.

Section ChunkTheorems.
Context {cfg : Build}.

(** X5.  While the page buffer has room, the [WRITPAGE] case copies the
    eight data bytes of the frame to [pageBuffer] from [pageIX] on, leaves
    the rest of the buffer alone and advances [pageIX] by eight; it does so
    whether or not the checksum matches. *)
Theorem WRITPAGE_buffers_chunk (s : state) :
  rd (command s) 0 = WRITPAGE ->
  length (pageBuffer s) = 64%nat ->
  0 <= pageIX s -> pageIX s + RXDATASIZE <= PAGE_SIZE ->
  let s' := fst (RequestEvent s) in
  let p := Z.to_nat (pageIX s) in
  pageBuffer s'
  = take p (pageBuffer s) ++ chunk_data s ++ drop (p + 8) (pageBuffer s) /\
  pageIX s' = pageIX s + RXDATASIZE /\
  stray s' = stray s /\
  (forall i, 0 <= i < RXDATASIZE ->
     rd (pageBuffer s') (pageIX s + i) = rd (command s) (1 + i)).
Proof.
  intros H Hb H0 H1 s' p.
  pose proof (WRITPAGE_eq s H H0) as HW. cbv zeta in HW.
  rewrite Hb in HW. specialize (HW H1 ltac:(lia)). fold p in HW.
  assert (Hbuf : pageBuffer s'
    = take p (pageBuffer s) ++ chunk_data s ++ drop (p + 8) (pageBuffer s)).
  { subst s'. rewrite HW. destruct (_ =? _); reflexivity. }
  split; [exact Hbuf|]. split; [|split].
  - subst s'. rewrite HW. destruct (_ =? _); reflexivity.
  - subst s'. rewrite HW. destruct (_ =? _); reflexivity.
  - intros i Hi. rewrite Hbuf.
    assert (Hp : length (take p (pageBuffer s)) = p)
      by (rewrite length_take, Hb; unfold PAGE_SIZE, RXDATASIZE in *; lia).
    rewrite rd_app_r by (rewrite Hp; lia).
    rewrite Hp.
    replace (pageIX s + i - Z.of_nat p) with i by lia.
    rewrite rd_app_l by (unfold chunk_data; rewrite length_map, length_seqZ; lia).
    unfold chunk_data, rd.
    rewrite (list_lookup_total_fmap (fun i => command s !!! Z.to_nat i))
      by (rewrite length_seqZ; unfold RXDATASIZE in *; lia).
    rewrite lookup_total_seqZ_lt by lia.
    rewrite Z2Nat.id by lia. reflexivity.
Qed.

Lemma chunks_loop (ds : list (list Z * Z)) :
  forall s : state,
  length (command s) = 18%nat -> length (pageBuffer s) = 64%nat ->
  Forall (fun d => length (fst d) = 8%nat) ds ->
  0 <= pageIX s ->
  pageIX s + RXDATASIZE * Z.of_nat (length ds) <= PAGE_SIZE ->
  let s' := usi_poll (chunk_calls ds) s in
  let p := Z.to_nat (pageIX s) in
  pageBuffer s'
  = take p (pageBuffer s) ++ concat (map fst ds)
    ++ drop (p + 8 * length ds) (pageBuffer s) /\
  pageIX s' = pageIX s + RXDATASIZE * Z.of_nat (length ds) /\
  statusRegister s'
  = (if forallb chunk_ok ds then statusRegister s
     else failed (statusRegister s)) /\
  stray s' = stray s /\ mem s' = mem s /\
  flashPageAddr s' = flashPageAddr s /\
  ledToggleTimer s' = ledToggleTimer s /\ i2cDly s' = i2cDly s /\
  exitDly s' = exitDly s /\ led s' = led s /\
  tplJumpLowByte s' = tplJumpLowByte s /\
  tplJumpHighByte s' = tplJumpHighByte s.
Proof.
  induction ds as [|[d k] ds IH]; intros s Hc Hb Hd H0 H1 s' p.
  - subst s'. cbn [chunk_calls flat_map usi_poll fold_left map concat length app].
    rewrite Nat.mul_0_r, Nat.add_0_r, take_drop, Z.mul_0_r, Z.add_0_r.
    cbn [forallb]. repeat split.
  - apply Forall_cons in Hd. destruct Hd as [Hd Hds]. cbn [fst] in Hd.
    cbn [length] in H1.
    assert (H1' : pageIX s + RXDATASIZE <= PAGE_SIZE)
      by (unfold RXDATASIZE, PAGE_SIZE in *; lia).
    pose proof (chunk_step d k s Hc Hb Hd H0 H1') as HS. cbv zeta in HS.
    fold p in HS.
    subst s'.
    change (usi_poll (chunk_calls ((d, k) :: ds)) s)
      with (usi_poll (chunk_calls ds)
              (call Request (call (Receive (WRITPAGE :: d ++ [k])) s))).
    generalize dependent
      (call Request (call (Receive (WRITPAGE :: d ++ [k])) s)).
    intros s1 (S1 & S2 & S3 & S4 & S5 & S6 & S7 & S8 & S9 & S10 & S11 & S12 & S13).
    assert (Hp : length (take p (pageBuffer s)) = p)
      by (rewrite length_take, Hb; unfold PAGE_SIZE, RXDATASIZE in *; lia).
    assert (Hb1 : length (pageBuffer s1) = 64%nat).
    { rewrite S2, !length_app, Hp, Hd, length_drop, Hb.
      unfold PAGE_SIZE, RXDATASIZE in *. lia. }
    assert (G0 : 0 <= pageIX s1) by (rewrite S3; unfold RXDATASIZE; lia).
    assert (G1 : pageIX s1 + RXDATASIZE * Z.of_nat (length ds) <= PAGE_SIZE)
      by (rewrite S3; unfold RXDATASIZE, PAGE_SIZE in *; lia).
    specialize (IH s1 S1 Hb1 Hds G0 G1).
    cbv zeta in IH.
    destruct IH as (I1 & I2 & I3 & I4 & I5 & I6 & I7 & I8 & I9 & I10 & I11 & I12).
    rewrite I1, I2, I3, I4, I5, I6, I7, I8, I9, I10, I11, I12.
    rewrite S3, S4, S5, S6, S7, S8, S9, S10, S11, S12, S13.
    split_and!; try reflexivity.
    + rewrite S2.
      replace (Z.to_nat (pageIX s + RXDATASIZE)) with (p + 8)%nat
        by (unfold RXDATASIZE; lia).
      cbn [map concat fst length].
      rewrite (app_assoc (take p (pageBuffer s)) d).
      rewrite (take_app_length' (take p (pageBuffer s) ++ d))
        by (rewrite length_app, Hp, Hd; reflexivity).
      replace (p + 8 + 8 * length ds)%nat
        with (length (take p (pageBuffer s) ++ d) + 8 * length ds)%nat
        by (rewrite length_app, Hp, Hd; reflexivity).
      rewrite drop_app_add, drop_drop.
      rewrite <- !app_assoc.
      replace (p + 8 * S (length ds))%nat with (p + 8 + 8 * length ds)%nat
        by lia.
      reflexivity.
    + cbn [length]. unfold RXDATASIZE. lia.
    + cbn [forallb]. destruct (chunk_ok (d, k)); cbn [andb]; [reflexivity|].
      destruct (forallb chunk_ok ds); [reflexivity|apply failed_twice].
Qed.
End ChunkTheorems.

(** ** What [FlashPage] leaves in the flash *)

Lemma staged_page (buf : list Z) (i : Z) :
  Forall is_byte buf -> length buf = 64%nat -> 0 <= i < PAGE_SIZE ->
  staged_byte buf i = rd buf i.
Proof.
  intros Hb Hl Hi. unfold PAGE_SIZE in Hi.
  apply staged_byte_rd; [lia| |]; apply rd_byte; auto; rewrite Hl;
    Z.div_mod_to_equations; lia.
Qed.

Lemma Forall_insert_byte (buf : list Z) (i : nat) (v : Z) :
  Forall is_byte buf -> is_byte v -> Forall is_byte (<[i:=v]> buf).
Proof. intros Hb Hv. apply Forall_insert; assumption. Qed.

Section FlashContents.
Context {cfg : Build}.

Lemma FlashPage_contents (a : Z) (s : state) :
  is_word a ->
  PAGE_SIZE <= TIMONEL_START <= 65536 - PAGE_SIZE ->
  length (pageBuffer s) = 64%nat ->
  length (spm_temp (mem s)) = 32%nat ->
  Forall is_byte (programmed (page_base a) s) ->
  page_base a <> RESET_PAGE -> page_base a < TIMONEL_START ->
  let s' := FlashPage a s in
  let buf := programmed (page_base a) s in
  pageBuffer s' = buf /\
  flashPageAddr s' = flashPageAddr s /\
  tplJumpLowByte s' = tplJumpLowByte s /\
  tplJumpHighByte s' = tplJumpHighByte s /\
  length buf = 64%nat /\
  (forall x, 0 <= x ->
     flash (mem s') x
     = if same_page (page_base a) x
       then Z.land (flash (mem s) x) (rd buf (x mod PAGE_SIZE))
       else flash (mem s) x).
Proof.
  intros Ha HT Hb Ht Hf Hnz Hlt s' buf. subst s'.
  rewrite FlashPage_unfold. cbv zeta.
  pose proof (page_base_aligned a Ha) as Hpa.
  pose proof (page_base_word a) as Hpw.
  subst buf. set (pb := page_base a) in *.
  rewrite (u16_id TIMONEL_START) by (unfold is_word, PAGE_SIZE in *; lia).
  destruct (Z.geb_spec pb TIMONEL_START) as [Hge|_]; [lia|].
  destruct (Z.eqb_spec pb RESET_PAGE) as [E|_]; [contradiction|].
  assert (Hprep : prepared pb s = set_pageBuffer (programmed pb s) s).
  { unfold prepared, programmed.
    rewrite (u16_id (TIMONEL_START - PAGE_SIZE))
      by (unfold is_word, PAGE_SIZE in *; lia).
    destruct (Z.eqb_spec pb RESET_PAGE) as [E|_]; [contradiction|].
    destruct (pb =? TIMONEL_START - PAGE_SIZE); fields;
      [reflexivity|symmetry; apply set_pageBuffer_same]. }
  rewrite Hprep.
  assert (Hl : length (programmed pb s) = 64%nat).
  { unfold programmed. destruct (_ =? _); rewrite ?length_insert; exact Hb. }
  generalize dependent (programmed pb s). intros buf Hf _ Hl.
  destruct (FlashRaw_mem pb (set_pageBuffer buf s) Hpa
              ltac:(unfold is_word in *; lia) Ht) as (M1 & _).
  cbv zeta in M1.
  unfold FlashRaw at 1 2 3 4. fields. split_and!; auto.
  intros x Hx. rewrite M1 by assumption. fields.
  destruct (same_page pb x); [|reflexivity].
  rewrite staged_page; auto. unfold PAGE_SIZE. Z.div_mod_to_equations. lia.
Qed.
End FlashContents.

Lemma trampoline_buffer (buf : list Z) (lo hi : Z) :
  length buf = 64%nat ->
  <[63%nat := hi]> (<[62%nat := lo]> (replicate 62 0xff ++ drop 62 buf))
  = trampoline_page lo hi.
Proof.
  intros Hl. pose proof (length_drop buf 62) as Hd. rewrite Hl in Hd.
  destruct (drop 62 buf) as [|x [|y [|z r]]]; try discriminate.
  reflexivity.
Qed.

Lemma trampoline_page_rd (lo hi i : Z) :
  0 <= i < PAGE_SIZE ->
  rd (trampoline_page lo hi) i
  = if i =? 62 then lo else if i =? 63 then hi else 0xff.
Proof.
  intros Hi. unfold PAGE_SIZE in Hi. unfold trampoline_page.
  destruct (Z.eqb_spec i 62) as [->|N1]; [reflexivity|].
  destruct (Z.eqb_spec i 63) as [->|N2]; [reflexivity|].
  rewrite rd_app_l by (rewrite length_replicate; lia).
  unfold rd. apply lookup_total_replicate_2. lia.
Qed.

Lemma trampoline_page_bytes (lo hi : Z) :
  is_byte lo -> is_byte hi -> Forall is_byte (trampoline_page lo hi).
Proof.
  intros Hlo Hhi. unfold trampoline_page. apply Forall_app. split.
  - apply Forall_replicate. unfold is_byte. lia.
  - apply Forall_cons; split; [assumption|].
    apply Forall_cons; split; [assumption|apply Forall_nil_2].
Qed.

Section TrampolineContents.
Context {cfg : Build}.

Lemma CreateTrampoline_contents (s : state) :
  PAGE_SIZE <= TIMONEL_START <= 65536 - PAGE_SIZE ->
  length (pageBuffer s) = 64%nat ->
  length (spm_temp (mem s)) = 32%nat ->
  is_byte (tplJumpLowByte s) -> is_byte (tplJumpHighByte s) ->
  flashPageAddr s < TIMONEL_START - PAGE_SIZE ->
  let s' := CreateTrampoline s in
  let buf := trampoline_page (tplJumpLowByte s) (tplJumpHighByte s) in
  pageBuffer s' = buf /\
  flashPageAddr s' = TIMONEL_START - PAGE_SIZE /\
  (forall x, 0 <= x ->
     flash (mem s') x
     = if same_page (TIMONEL_START - PAGE_SIZE) x
       then Z.land (flash (mem s) x) (rd buf (x mod PAGE_SIZE))
       else flash (mem s) x).
Proof.
  intros HT Hb Ht Hlo Hhi Hlt s' buf. subst s'. unfold CreateTrampoline.
  pose proof start_aligned as HA.
  assert (Hal : (TIMONEL_START - PAGE_SIZE) mod PAGE_SIZE = 0).
  { unfold PAGE_SIZE in *. Z.div_mod_to_equations. lia. }
  rewrite (u16_id (TIMONEL_START - PAGE_SIZE))
    by (unfold is_word, PAGE_SIZE in *; lia).
  destruct (Z.ltb_spec (flashPageAddr s) (TIMONEL_START - PAGE_SIZE))
    as [_|Hge]; [|lia].
  cbv zeta. change (PAGE_SIZE - 2) with (Z.of_nat 62).
  rewrite clear_cells by (fields; lia). fields.
  rewrite (trampoline_buffer (pageBuffer s)) by assumption. fold buf.
  assert (Hl : length buf = 64%nat) by reflexivity.
  assert (Hf : Forall is_byte buf) by (apply trampoline_page_bytes; assumption).
  clearbody buf.
  set (s3 := set_pageBuffer buf _).
  destruct (FlashRaw_mem (TIMONEL_START - PAGE_SIZE) s3 Hal
              ltac:(unfold PAGE_SIZE in *; lia) Ht) as (M1 & _).
  cbv zeta in M1.
  unfold FlashRaw at 1 2. fields. split; [reflexivity|]. split; [reflexivity|].
  intros x Hx. rewrite M1 by assumption. subst s3. fields.
  destruct (same_page _ x); [|reflexivity].
  rewrite staged_page; auto. unfold PAGE_SIZE. Z.div_mod_to_equations. lia.
Qed.
End TrampolineContents.

Section ResetPage.
Context {cfg : Build}.

Lemma CalculateTrampoline_byte (lo hi : Z) (s : state) :
  is_byte (tplJumpLowByte (CalculateTrampoline lo hi s)) /\
  is_byte (tplJumpHighByte (CalculateTrampoline lo hi s)).
Proof. unfold CalculateTrampoline. fields. split; apply u8_byte. Qed.

Lemma FixResetVector_buffer (s : state) :
  pageBuffer (FixResetVector s)
  = <[1%nat := u8 (Z.shiftr reset_vector 8)]>
      (<[0%nat := u8 (Z.land reset_vector 0xff)]> (pageBuffer s)) /\
  tplJumpLowByte (FixResetVector s) = tplJumpLowByte s /\
  tplJumpHighByte (FixResetVector s) = tplJumpHighByte s.
Proof. unfold FixResetVector. fields. auto. Qed.

Lemma FlashPage_reset_contents (a : Z) (s : state) :
  is_word a -> page_base a = RESET_PAGE ->
  2 * PAGE_SIZE <= TIMONEL_START <= 65536 - PAGE_SIZE ->
  length (pageBuffer s) = 64%nat ->
  length (spm_temp (mem s)) = 32%nat ->
  Forall is_byte (pageBuffer s) ->
  flashPageAddr s < TIMONEL_START - PAGE_SIZE ->
  let s0 := CalculateTrampoline (rd (pageBuffer s) 0) (rd (pageBuffer s) 1) s in
  let lo := tplJumpLowByte s0 in
  let hi := tplJumpHighByte s0 in
  let s' := FlashPage a s in
  tplJumpLowByte s' = lo /\ tplJumpHighByte s' = hi /\
  flashPageAddr s' = RESET_PAGE /\
  pageBuffer s' = trampoline_page lo hi /\
  (forall x, 0 <= x ->
     flash (mem s') x
     = if same_page RESET_PAGE x
       then Z.land (flash (mem s) x)
                   (rd (pageBuffer (FixResetVector s)) (x mod PAGE_SIZE))
       else if same_page (TIMONEL_START - PAGE_SIZE) x
            then Z.land (flash (mem s) x)
                        (rd (trampoline_page lo hi) (x mod PAGE_SIZE))
            else flash (mem s) x).
Proof.
  intros Ha Hpb HT Hb Ht Hby Hlt s0 lo hi s'. subst s'.
  rewrite FlashPage_unfold. cbv zeta. rewrite Hpb.
  rewrite (u16_id TIMONEL_START) by (unfold is_word, PAGE_SIZE in *; lia).
  destruct (Z.geb_spec RESET_PAGE TIMONEL_START) as [Hge|_];
    [unfold RESET_PAGE, PAGE_SIZE in *; lia|].
  change (RESET_PAGE =? RESET_PAGE) with true. cbv iota.
  assert (Hprep : prepared RESET_PAGE s = FixResetVector s0).
  { unfold prepared.
    rewrite (u16_id (TIMONEL_START - PAGE_SIZE))
      by (unfold is_word, PAGE_SIZE in *; lia).
    change (RESET_PAGE =? RESET_PAGE) with true. cbv iota.
    destruct (Z.eqb_spec RESET_PAGE (TIMONEL_START - PAGE_SIZE)) as [E|_];
      [unfold RESET_PAGE, PAGE_SIZE in *; lia|reflexivity]. }
  rewrite Hprep.
  destruct (CalculateTrampoline_byte (rd (pageBuffer s) 0) (rd (pageBuffer s) 1) s)
    as [Blo Bhi].
  destruct (CalculateTrampoline_fields (rd (pageBuffer s) 0) (rd (pageBuffer s) 1) s)
    as (_ & C2 & C3 & C4).
  fold s0 in Blo, Bhi, C2, C3, C4. fold lo in Blo. fold hi in Bhi.
  destruct (FixResetVector_buffer s0) as (V1 & V2 & V3).
  destruct (FixResetVector_buffer s) as (V1' & _).
  destruct (FixResetVector_fields s0) as (_ & V4 & V5 & V6).
  rewrite C2 in V1. rewrite <- V1' in V1.
  fold lo in V2. fold hi in V3. rewrite C3 in V5. rewrite C4 in V6.
  rewrite C2, Hb in V4.
  assert (Hvb : Forall is_byte (pageBuffer (FixResetVector s))).
  { rewrite V1'. repeat apply Forall_insert_byte; auto using u8_byte. }
  clearbody lo hi.
  generalize dependent (FixResetVector s0). intros s1 _ V1 V2 V3 V4 V5 V6.
  assert (Hal : RESET_PAGE mod PAGE_SIZE = 0) by reflexivity.
  destruct (FlashRaw_mem RESET_PAGE s1 Hal ltac:(unfold RESET_PAGE; lia)
              ltac:(rewrite V6; exact Ht)) as (M1 & M2 & _).
  cbv zeta in M1.
  destruct (FlashRaw_fields RESET_PAGE s1) as (_ & F2 & F3 & F4 & F5).
  generalize dependent (FlashRaw RESET_PAGE s1). intros s2 M1 M2 F2 F3 F4 F5.
  assert (HT' : PAGE_SIZE <= TIMONEL_START <= 65536 - PAGE_SIZE)
    by (unfold PAGE_SIZE in *; lia).
  destruct (CreateTrampoline_contents s2 HT'
              ltac:(rewrite F2; exact V4)
              ltac:(rewrite M2; reflexivity)
              ltac:(rewrite F4, V2; exact Blo)
              ltac:(rewrite F5, V3; exact Bhi)
              ltac:(rewrite F3, V5; exact Hlt)) as (T1 & T2 & T3).
  rewrite F4, V2, F5, V3 in T1, T3.
  assert (T4 : tplJumpLowByte (CreateTrampoline s2) = lo /\
               tplJumpHighByte (CreateTrampoline s2) = hi).
  { unfold CreateTrampoline.
    destruct (_ <? _); [|rewrite F4, F5, V2, V3; auto].
    cbv zeta. unfold FlashRaw. fields.
    destruct (clear_loop_frame (seqZ 0 (PAGE_SIZE - 2))
                (set_flashPageAddr (u16 (TIMONEL_START - PAGE_SIZE)) s2))
      as (_ & _ & _ & L4 & L5 & _).
    rewrite L4, L5. fields. rewrite F4, F5, V2, V3. auto. }
  destruct T4 as [T4 T5].
  generalize dependent (CreateTrampoline s2). intros s3 T1 T2 T3 T4 T5.
  fields. split_and!; auto.
  intros x Hx. rewrite T3 by assumption. rewrite M1 by assumption.
  rewrite V6, V1.
  destruct (same_page RESET_PAGE x) eqn:E0.
  - destruct (same_page (TIMONEL_START - PAGE_SIZE) x) eqn:E1.
    + exfalso. rewrite same_page_range in E0, E1
        by (try reflexivity; pose proof start_aligned;
            unfold PAGE_SIZE in *; Z.div_mod_to_equations; lia).
      unfold RESET_PAGE, PAGE_SIZE in *. lia.
    + rewrite staged_page; auto; [congruence|].
      unfold PAGE_SIZE. Z.div_mod_to_equations. lia.
  - reflexivity.
Qed.
End ResetPage.

Section FlashTheorems.
Context {cfg : Build}.

(** X8.  [FlashPage] on a page that is neither page 0 nor the trampoline
    page: every cell of the page ends up with the conjunction of what it
    held and the byte of the page buffer at its offset, so an erased page
    ends up with the buffer; the cells outside the page, the page buffer
    and [flashPageAddr] are unchanged.  The page is not erased first. *)
Theorem FlashPage_programs_buffer (a : Z) (s : state) :
  is_word a ->
  PAGE_SIZE <= TIMONEL_START <= 65536 - PAGE_SIZE ->
  length (pageBuffer s) = 64%nat ->
  length (spm_temp (mem s)) = 32%nat ->
  Forall is_byte (pageBuffer s) ->
  0 < page_base a < TIMONEL_START - PAGE_SIZE ->
  let s' := FlashPage a s in
  (forall i, 0 <= i < PAGE_SIZE ->
     flash (mem s') (page_base a + i)
     = Z.land (flash (mem s) (page_base a + i)) (rd (pageBuffer s) i)) /\
  (forall i, 0 <= i < PAGE_SIZE ->
     flash (mem s) (page_base a + i) = 0xFF ->
     flash (mem s') (page_base a + i) = rd (pageBuffer s) i) /\
  (forall x, 0 <= x -> ~ page_base a <= x < page_base a + PAGE_SIZE ->
     flash (mem s') x = flash (mem s) x) /\
  pageBuffer s' = pageBuffer s /\
  flashPageAddr s' = flashPageAddr s.
Proof.
  intros Ha HT Hb Ht Hby Hpb s'.
  assert (Hprog : programmed (page_base a) s = pageBuffer s).
  { unfold programmed.
    destruct (Z.eqb_spec (page_base a) (TIMONEL_START - PAGE_SIZE)); [lia|].
    reflexivity. }
  destruct (FlashPage_contents a s Ha HT Hb Ht
              ltac:(rewrite Hprog; exact Hby)
              ltac:(unfold RESET_PAGE; lia) ltac:(unfold PAGE_SIZE in *; lia))
    as (C1 & C2 & _ & _ & _ & C6).
  rewrite Hprog in C1, C6. fold s' in C1, C2, C6.
  pose proof (page_base_aligned a Ha) as Hal.
  assert (Hcell : forall i, 0 <= i < PAGE_SIZE ->
     flash (mem s') (page_base a + i)
     = Z.land (flash (mem s) (page_base a + i)) (rd (pageBuffer s) i)).
  { intros i Hi. rewrite C6 by lia.
    rewrite same_page_range by assumption.
    destruct (Z.leb_spec (page_base a) (page_base a + i)); [|lia].
    destruct (Z.ltb_spec (page_base a + i) (page_base a + PAGE_SIZE)); [|lia].
    cbn [andb]. do 2 f_equal.
    unfold PAGE_SIZE in *. Z.div_mod_to_equations. lia. }
  split_and!; auto.
  - intros i Hi He. rewrite Hcell, He by assumption.
    apply land_FF_byte. apply rd_byte; [assumption|].
    rewrite Hb. unfold PAGE_SIZE in Hi. lia.
  - intros x Hx Hout. rewrite C6 by assumption.
    rewrite same_page_range by assumption.
    destruct (Z.leb_spec (page_base a) x),
             (Z.ltb_spec x (page_base a + PAGE_SIZE));
      cbn [andb]; try reflexivity; lia.
Qed.

(** X9.  [FlashPage] on the trampoline page: the first 62 cells take the
    page buffer, the last two take [tplJumpLowByte] and [tplJumpHighByte]
    in place of what the buffer held there.  A trampoline that the page
    already holds, as [CreateTrampoline] wrote it, is still there
    afterwards. *)
Theorem FlashPage_trampoline_page (a : Z) (s : state) :
  is_word a ->
  2 * PAGE_SIZE <= TIMONEL_START <= 65536 - PAGE_SIZE ->
  length (pageBuffer s) = 64%nat ->
  length (spm_temp (mem s)) = 32%nat ->
  Forall is_byte (pageBuffer s) ->
  is_byte (tplJumpLowByte s) -> is_byte (tplJumpHighByte s) ->
  page_base a = TIMONEL_START - PAGE_SIZE ->
  let s' := FlashPage a s in
  let t := TIMONEL_START - PAGE_SIZE in
  (forall i, 0 <= i < PAGE_SIZE - 2 ->
     flash (mem s') (t + i) = Z.land (flash (mem s) (t + i)) (rd (pageBuffer s) i)) /\
  flash (mem s') (TIMONEL_START - 2)
  = Z.land (flash (mem s) (TIMONEL_START - 2)) (tplJumpLowByte s) /\
  flash (mem s') (TIMONEL_START - 1)
  = Z.land (flash (mem s) (TIMONEL_START - 1)) (tplJumpHighByte s) /\
  (flash (mem s) (TIMONEL_START - 2) = tplJumpLowByte s ->
   flash (mem s) (TIMONEL_START - 1) = tplJumpHighByte s ->
   flash_word (mem s') (TIMONEL_START - 2)
   = flash_word (mem s) (TIMONEL_START - 2)) /\
  (forall x, 0 <= x -> ~ t <= x < TIMONEL_START ->
     flash (mem s') x = flash (mem s) x).
Proof.
  intros Ha HT Hb Ht Hby Hlo Hhi Hpb s' t.
  assert (Hprog : programmed (page_base a) s
                  = <[63%nat := tplJumpHighByte s]>
                      (<[62%nat := tplJumpLowByte s]> (pageBuffer s))).
  { unfold programmed. rewrite Hpb, Z.eqb_refl. reflexivity. }
  assert (HT' : PAGE_SIZE <= TIMONEL_START <= 65536 - PAGE_SIZE)
    by (unfold PAGE_SIZE in *; lia).
  assert (Hnz : page_base a <> RESET_PAGE)
    by (unfold RESET_PAGE, PAGE_SIZE in *; lia).
  assert (Hlt : page_base a < TIMONEL_START)
    by (unfold PAGE_SIZE in *; lia).
  assert (Hf : Forall is_byte (programmed (page_base a) s))
    by (rewrite Hprog; auto using Forall_insert_byte).
  destruct (FlashPage_contents a s Ha HT' Hb Ht Hf Hnz Hlt)
    as (_ & _ & _ & _ & _ & C6).
  rewrite Hprog, Hpb in C6. fold s' t in C6.
  pose proof (page_base_aligned a Ha) as Hal. rewrite Hpb in Hal. fold t in Hal.
  assert (Hcell : forall i, 0 <= i < PAGE_SIZE ->
     flash (mem s') (t + i)
     = Z.land (flash (mem s) (t + i))
         (rd (<[63%nat := tplJumpHighByte s]>
                (<[62%nat := tplJumpLowByte s]> (pageBuffer s))) i)).
  { intros i Hi. rewrite C6 by (unfold t, PAGE_SIZE in *; lia).
    rewrite same_page_range by assumption.
    destruct (Z.leb_spec t (t + i)); [|lia].
    destruct (Z.ltb_spec (t + i) (t + PAGE_SIZE)); [|lia].
    cbn [andb]. do 2 f_equal.
    unfold PAGE_SIZE in *. Z.div_mod_to_equations. lia. }
  assert (H62 : flash (mem s') (TIMONEL_START - 2)
                = Z.land (flash (mem s) (TIMONEL_START - 2)) (tplJumpLowByte s)).
  { replace (TIMONEL_START - 2) with (t + 62) by (unfold t, PAGE_SIZE; lia).
    rewrite Hcell by (unfold PAGE_SIZE; lia). f_equal. unfold rd.
    change (Z.to_nat 62) with 62%nat.
    rewrite list_lookup_total_insert_ne by lia.
    apply list_lookup_total_insert_eq. rewrite Hb. lia. }
  assert (H63 : flash (mem s') (TIMONEL_START - 1)
                = Z.land (flash (mem s) (TIMONEL_START - 1)) (tplJumpHighByte s)).
  { replace (TIMONEL_START - 1) with (t + 63) by (unfold t, PAGE_SIZE; lia).
    rewrite Hcell by (unfold PAGE_SIZE; lia). f_equal. unfold rd.
    change (Z.to_nat 63) with 63%nat.
    apply list_lookup_total_insert_eq. rewrite length_insert, Hb. lia. }
  split_and!; auto.
  - intros i Hi. rewrite Hcell by (unfold PAGE_SIZE in *; lia). f_equal.
    unfold rd. unfold PAGE_SIZE in Hi.
    rewrite !list_lookup_total_insert_ne by lia. reflexivity.
  - intros E2 E1. unfold flash_word.
    replace (TIMONEL_START - 2 + 1) with (TIMONEL_START - 1) by lia.
    rewrite H62, H63, E2, E1, !Z.land_diag. reflexivity.
  - intros x Hx Hout. rewrite C6 by assumption.
    rewrite same_page_range by assumption.
    destruct (Z.leb_spec t x), (Z.ltb_spec x (t + PAGE_SIZE));
      cbn [andb]; try reflexivity; unfold t, PAGE_SIZE in *; lia.
Qed.

(** X10.  [FlashPage] on page 0, over a flash whose page 0 is erased or
    holds the reset vector of the bootloader, and whose trampoline page is
    erased: word 0 is a jump to the bootloader, the rest of page 0 is the
    page buffer, and the last word below the bootloader is a jump to where
    the reset vector in the page buffer pointed.  The rest of the
    trampoline page stays erased, the other pages are unchanged and
    [flashPageAddr] is back at page 0. *)
Theorem FlashPage_installs_vectors (a : Z) (s : state) :
  is_word a -> page_base a = RESET_PAGE ->
  2 * PAGE_SIZE <= TIMONEL_START < 8192 ->
  length (pageBuffer s) = 64%nat ->
  length (spm_temp (mem s)) = 32%nat ->
  Forall is_byte (pageBuffer s) ->
  flashPageAddr s < TIMONEL_START - PAGE_SIZE ->
  (forall x, 0 <= x < PAGE_SIZE ->
     flash (mem s) x = 0xFF \/ flash (mem s) x = rd vector_page x) ->
  (forall x, TIMONEL_START - PAGE_SIZE <= x < TIMONEL_START ->
     flash (mem s) x = 0xFF) ->
  let s' := FlashPage a s in
  let m' := mem s' in
  let vector := word_of_bytes (rd (pageBuffer s) 0) (rd (pageBuffer s) 1) in
  is_rjmp (flash_word m' 0) = true /\
  rjmp_target 0 (flash_word m' 0) = TIMONEL_START / 2 /\
  (forall x, 2 <= x < PAGE_SIZE -> flash m' x = rd (pageBuffer s) x) /\
  is_rjmp (flash_word m' (TIMONEL_START - 2)) = true /\
  rjmp_target (TIMONEL_START / 2 - 1) (flash_word m' (TIMONEL_START - 2))
  = rjmp_target 0 vector /\
  (forall x, TIMONEL_START - PAGE_SIZE <= x < TIMONEL_START - 2 ->
     flash m' x = 0xFF) /\
  (forall x, PAGE_SIZE <= x -> ~ TIMONEL_START - PAGE_SIZE <= x < TIMONEL_START ->
     flash m' x = flash (mem s) x) /\
  flashPageAddr s' = RESET_PAGE.
Proof.
  intros Ha Hpb HT Hb Ht Hby Hlt He0 Het s' m' vector.
  assert (HT' : 2 * PAGE_SIZE <= TIMONEL_START <= 65536 - PAGE_SIZE)
    by (unfold PAGE_SIZE in *; lia).
  destruct (FlashPage_reset_contents a s Ha Hpb HT' Hb Ht Hby Hlt)
    as (_ & _ & R3 & _ & R5).
  cbv zeta in R3, R5. fold s' in R3, R5. fold m' in R5.
  assert (HT8 : 0 < TIMONEL_START <= 8192) by (unfold PAGE_SIZE in *; lia).
  destruct (CalculateTrampoline_bytes (rd (pageBuffer s) 0) (rd (pageBuffer s) 1)
              s HT8) as [El Eh]. cbv zeta in El, Eh.
  destruct (CalculateTrampoline_byte (rd (pageBuffer s) 0) (rd (pageBuffer s) 1) s)
    as [Blo Bhi].
  set (lo := tplJumpLowByte _) in *. set (hi := tplJumpHighByte _) in *.
  clearbody lo hi.
  destruct (FixResetVector_buffer s) as (V1 & _). rewrite V1 in R5. clear V1.
  pose proof start_aligned as HA. pose proof start_even as Hev.
  assert (Hb0 : is_byte (rd (pageBuffer s) 0))
    by (apply rd_byte; [assumption|rewrite Hb; cbn; lia]).
  assert (Hb1 : is_byte (rd (pageBuffer s) 1))
    by (apply rd_byte; [assumption|rewrite Hb; cbn; lia]).
  assert (Hal : (TIMONEL_START - PAGE_SIZE) mod PAGE_SIZE = 0).
  { unfold PAGE_SIZE in *. Z.div_mod_to_equations. lia. }
  assert (P0 : forall x, 0 <= x < PAGE_SIZE ->
     flash m' x
     = rd (<[1%nat := u8 (Z.shiftr reset_vector 8)]>
             (<[0%nat := u8 (Z.land reset_vector 0xff)]> (pageBuffer s))) x).
  { intros x Hx. rewrite R5 by lia.
    rewrite (same_page_range RESET_PAGE) by reflexivity.
    destruct (Z.leb_spec RESET_PAGE x); [|unfold RESET_PAGE in *; lia].
    destruct (Z.ltb_spec x (RESET_PAGE + PAGE_SIZE));
      [|unfold RESET_PAGE in *; lia].
    cbn [andb]. rewrite Z.mod_small by assumption.
    destruct (He0 x Hx) as [E|E]; rewrite E.
    - apply land_FF_byte. apply rd_byte.
      + repeat apply Forall_insert_byte; auto using u8_byte.
      + rewrite !length_insert, Hb. unfold PAGE_SIZE in *. lia.
    - rewrite vector_page_rd by assumption.
      destruct (Z.eqb_spec x 0) as [->|N0].
      { change (rd ?l 0) with (l !!! 0%nat).
        rewrite list_lookup_total_insert_ne by lia.
        rewrite list_lookup_total_insert_eq by (rewrite Hb; lia).
        apply Z.land_diag. }
      destruct (Z.eqb_spec x 1) as [->|N1].
      { change (rd ?l 1) with (l !!! 1%nat).
        rewrite list_lookup_total_insert_eq by (rewrite length_insert, Hb; lia).
        apply Z.land_diag. }
      apply land_FF_byte. apply rd_byte.
      + repeat apply Forall_insert_byte; auto using u8_byte.
      + rewrite !length_insert, Hb. unfold PAGE_SIZE in *. lia. }
  assert (PT : forall x, TIMONEL_START - PAGE_SIZE <= x < TIMONEL_START ->
     flash m' x = rd (trampoline_page lo hi) (x mod PAGE_SIZE)).
  { intros x Hx. rewrite R5 by (unfold PAGE_SIZE in *; lia).
    rewrite (same_page_range RESET_PAGE) by reflexivity.
    destruct (Z.ltb_spec x (RESET_PAGE + PAGE_SIZE));
      [unfold RESET_PAGE, PAGE_SIZE in *; lia|].
    rewrite andb_false_r.
    rewrite same_page_range by assumption.
    destruct (Z.leb_spec (TIMONEL_START - PAGE_SIZE) x); [|lia].
    destruct (Z.ltb_spec x (TIMONEL_START - PAGE_SIZE + PAGE_SIZE)); [|lia].
    cbn [andb]. rewrite Het by assumption.
    apply land_FF_byte. apply rd_byte.
    - apply trampoline_page_bytes; assumption.
    - cbn [trampoline_page length]. unfold PAGE_SIZE.
      change (length (trampoline_page lo hi)) with 64%nat.
      Z.div_mod_to_equations. lia. }
  assert (W0 : flash_word m' 0 = 0xC000 + (TIMONEL_START / 2 - 1)).
  { unfold flash_word, word_of_bytes.
    rewrite !P0 by (unfold PAGE_SIZE; lia).
    change (rd ?l (0 + 1)) with (l !!! 1%nat).
    change (rd ?l 0) with (l !!! 0%nat).
    rewrite list_lookup_total_insert_eq by (rewrite length_insert, Hb; lia).
    rewrite list_lookup_total_insert_ne by lia.
    rewrite list_lookup_total_insert_eq by (rewrite Hb; lia).
    rewrite reset_vector_eq by assumption.
    rewrite land_FF, shiftr_8. unfold u8, PAGE_SIZE in *.
    Z.div_mod_to_equations. lia. }
  assert (WT : flash_word m' (TIMONEL_START - 2)
    = 0xC000 + ((rd (pageBuffer s) 1 * 256 + rd (pageBuffer s) 0 + 1) mod 4096
                - TIMONEL_START / 2) mod 4096).
  { unfold flash_word, word_of_bytes.
    rewrite !PT by (unfold PAGE_SIZE in *; lia).
    replace ((TIMONEL_START - 2) mod PAGE_SIZE) with 62
      by (unfold PAGE_SIZE in *; Z.div_mod_to_equations; lia).
    replace ((TIMONEL_START - 2 + 1) mod PAGE_SIZE) with 63
      by (unfold PAGE_SIZE in *; Z.div_mod_to_equations; lia).
    rewrite !trampoline_page_rd by (unfold PAGE_SIZE; lia).
    cbn [Z.eqb Pos.eqb]. rewrite El, Eh. Z.div_mod_to_equations. lia. }
  unfold is_byte in *.
  split_and!.
  - unfold is_rjmp. rewrite W0, shiftr_12. apply Z.eqb_eq.
    unfold PAGE_SIZE in *. Z.div_mod_to_equations. lia.
  - unfold rjmp_target, sext12, FLASH_WORDS. rewrite W0, land_FFF.
    unfold PAGE_SIZE in *.
    destruct (Z.ltb_spec ((49152 + (TIMONEL_START / 2 - 1)) mod 4096) 2048);
      Z.div_mod_to_equations; lia.
  - intros x Hx. rewrite P0 by lia. unfold rd. unfold PAGE_SIZE in Hx.
    rewrite !list_lookup_total_insert_ne by lia. reflexivity.
  - unfold is_rjmp. rewrite WT, shiftr_12. apply Z.eqb_eq.
    Z.div_mod_to_equations. lia.
  - unfold rjmp_target, FLASH_WORDS, sext12. rewrite !land_FFF, WT.
    subst vector. unfold word_of_bytes.
    repeat match goal with |- context [?a <? ?b] => destruct (Z.ltb_spec a b) end;
      Z.div_mod_to_equations; lia.
  - intros x Hx. rewrite PT by lia.
    rewrite trampoline_page_rd
      by (unfold PAGE_SIZE; Z.div_mod_to_equations; lia).
    destruct (Z.eqb_spec (x mod PAGE_SIZE) 62) as [E|_];
      [unfold PAGE_SIZE in *; Z.div_mod_to_equations; lia|].
    destruct (Z.eqb_spec (x mod PAGE_SIZE) 63) as [E|_];
      [unfold PAGE_SIZE in *; Z.div_mod_to_equations; lia|].
    reflexivity.
  - intros x Hx Hout. rewrite R5 by (unfold PAGE_SIZE in *; lia).
    rewrite (same_page_range RESET_PAGE) by reflexivity.
    destruct (Z.ltb_spec x (RESET_PAGE + PAGE_SIZE));
      [unfold RESET_PAGE, PAGE_SIZE in *; lia|].
    rewrite andb_false_r.
    rewrite same_page_range by assumption.
    destruct (Z.leb_spec (TIMONEL_START - PAGE_SIZE) x),
             (Z.ltb_spec x (TIMONEL_START - PAGE_SIZE + PAGE_SIZE));
      cbn [andb]; try reflexivity; lia.
  - exact R3.
Qed.
End FlashTheorems.

(** ** Replies *)

Section Replies.
Context {cfg : Build}.

(** X3.  The reply to [GETTMNLV]: the complement of the opcode, the
    letters N, B, T, the version 0.7, and the high and low bytes of
    [TIMONEL_START], from which the master gets the address back.  The
    command changes the status register by setting [SR_INIT_2], and
    nothing else. *)
Theorem GETTMNLV_reply (s : state) :
  rd (command s) 0 = GETTMNLV -> is_byte GETTMNLV ->
  0 <= TIMONEL_START < 65536 ->
  let hi := TIMONEL_START / 256 in
  let lo := TIMONEL_START mod 256 in
  snd (RequestEvent s)
  = [255 - GETTMNLV; 78; 66; 84; TIMONEL_VER_MJR; TIMONEL_VER_MNR; hi; lo] /\
  Forall is_byte (snd (RequestEvent s)) /\
  word_of_bytes lo hi = TIMONEL_START /\
  fst (RequestEvent s)
  = set_statusRegister (Z.lor (statusRegister s) (bit SR_INIT_2)) s.
Proof.
  intros H Hop HT hi lo. rewrite (RequestEvent_GETTMNLV s H). cbn [fst snd].
  assert (Hack : u8 (Z.lnot GETTMNLV) = 255 - GETTMNLV).
  { rewrite lnot_eq. unfold u8, is_byte in *. Z.div_mod_to_equations. lia. }
  assert (Hhi : u8 (Z.shiftr (Z.land TIMONEL_START 0xFF00) 8) = hi).
  { subst hi. rewrite Z.shiftr_land.
    change (Z.shiftr 0xFF00 8) with (Z.ones 8).
    rewrite Z.land_ones, shiftr_8 by lia.
    unfold u8. change (2 ^ 8) with 256. Z.div_mod_to_equations. lia. }
  assert (Hlo : u8 (Z.land TIMONEL_START 0xFF) = lo).
  { subst lo. rewrite land_FF. unfold u8. apply Z.mod_mod. lia. }
  rewrite Hack, Hhi, Hlo. split; [reflexivity|]. split; [|split; [|reflexivity]].
  - unfold is_byte in *. subst hi lo.
    repeat (apply Forall_cons; split;
            [unfold TIMONEL_VER_MJR, TIMONEL_VER_MNR;
             try lia; Z.div_mod_to_equations; lia|]).
    apply Forall_nil_2.
  - subst hi lo. unfold word_of_bytes. Z.div_mod_to_equations. lia.
Qed.

(** X4.  A [STPGADDR] frame with the high and the low byte of a 16-bit
    address, written and its reply read: [flashPageAddr] is that address,
    the reply is the complement of the opcode and the sum of the two bytes
    modulo 256, and apart from [command] and [commandLength] no other
    variable changes; the fill index and the page buffer stay. *)
Theorem SetPageAddress_round_trip (a : Z) (s : state) :
  is_word a -> length (command s) = 18%nat ->
  let frame := [STPGADDR; a / 256; a mod 256] in
  let s1 := ReceiveEvent frame s in
  RequestEvent s1
  = (set_flashPageAddr a
       (set_command (frame ++ drop 3 (command s)) 3 s),
     [u8 (Z.lnot STPGADDR); (a / 256 + a mod 256) mod 256]).
Proof.
  intros Ha Hc frame s1. subst s1.
  rewrite ReceiveEvent_eq by (rewrite Hc; subst frame; cbn [length]; lia).
  change (Z.of_nat (length frame)) with 3.
  change (length frame) with 3%nat.
  set (s1 := set_command _ 3 s).
  assert (H0 : rd (command s1) 0 = STPGADDR) by reflexivity.
  rewrite (RequestEvent_STPGADDR s1 H0).
  change (rd (command s1) 1) with (a / 256).
  change (rd (command s1) 2) with (a mod 256).
  rewrite shiftl_8. unfold u16, u8, is_word in *.
  replace ((a / 256 * 256 + a mod 256) mod 65536) with a
    by (Z.div_mod_to_equations; lia).
  reflexivity.
Qed.

(** X7.  A frame whose first byte is none of the six opcodes: the reply is
    [UNKNOWNC] as many times as the frame has bytes, and nothing changes
    but [command] and [commandLength]. *)
Theorem unknown_command (op : Z) (r : list Z) (s : state) :
  ~ In op [GETTMNLV; EXITTMNL; DELFLASH; STPGADDR; WRITPAGE; INITTINY] ->
  length (command s) = 18%nat -> (length (op :: r) <= 18)%nat ->
  let n := length (op :: r) in
  let s1 := ReceiveEvent (op :: r) s in
  s1 = set_command (op :: r ++ drop n (command s)) (Z.of_nat n) s /\
  RequestEvent s1 = (s1, replicate n UNKNOWNC).
Proof.
  intros Hop Hc Hn n s1. subst s1.
  rewrite ReceiveEvent_eq by (rewrite Hc; lia). fold n.
  split; [reflexivity|].
  set (s1 := set_command _ _ s).
  assert (H0 : rd (command s1) 0 = op) by reflexivity.
  cbn [In] in Hop.
  rewrite RequestEvent_unknown
    by (rewrite H0; intros E; apply Hop; symmetry in E; tauto).
  subst s1. fields. rewrite Nat2Z.id. reflexivity.
Qed.
End Replies.

(** ** The supervisor's two timers *)

Section CallFrames.
Context {cfg : Build}.

Ltac by_opcode s :=
  destruct (Z.eq_dec (rd (command s) 0) GETTMNLV) as [E|N1];
  [rewrite (RequestEvent_GETTMNLV s E)|
   destruct (Z.eq_dec (rd (command s) 0) EXITTMNL) as [E|N2];
   [rewrite (RequestEvent_EXITTMNL s E)|
    destruct (Z.eq_dec (rd (command s) 0) DELFLASH) as [E|N3];
    [rewrite (RequestEvent_DELFLASH s E)|
     destruct (Z.eq_dec (rd (command s) 0) STPGADDR) as [E|N4];
     [rewrite (RequestEvent_STPGADDR s E)|
      destruct (Z.eq_dec (rd (command s) 0) WRITPAGE) as [E|N5];
      [pose proof (WRITPAGE_spec s E) as W; cbv zeta in W|
       destruct (Z.eq_dec (rd (command s) 0) INITTINY) as [E|N6];
       [rewrite (RequestEvent_INITTINY s E)|
        rewrite (RequestEvent_unknown s N1 N2 N3 N4 N5 N6)]]]]]].

Lemma RequestEvent_timers (s : state) :
  let s' := fst (RequestEvent s) in
  ledToggleTimer s' = ledToggleTimer s /\ i2cDly s' = i2cDly s /\
  exitDly s' = exitDly s /\ led s' = led s /\
  (rd (command s) 0 <> WRITPAGE ->
   stray s' = stray s /\ pageBuffer s' = pageBuffer s).
Proof.
  intros s'. subst s'. by_opcode s; fields; tauto.
Qed.

Lemma store_command_timers (i v : Z) (s : state) :
  let s' := store_command i v s in
  ledToggleTimer s' = ledToggleTimer s /\ i2cDly s' = i2cDly s /\
  exitDly s' = exitDly s /\ led s' = led s.
Proof. unfold store_command. destruct (_ && _); fields; auto. Qed.

Lemma ReceiveEvent_timers (rx : list Z) (s : state) :
  let s' := ReceiveEvent rx s in
  ledToggleTimer s' = ledToggleTimer s /\ i2cDly s' = i2cDly s /\
  exitDly s' = exitDly s /\ led s' = led s.
Proof.
  unfold ReceiveEvent. cbv zeta.
  apply (fold_left_inv _
           (fun x => ledToggleTimer x = ledToggleTimer s /\ i2cDly x = i2cDly s /\
                     exitDly x = exitDly s /\ led x = led s)).
  - fields. auto.
  - intros x b (H1 & H2 & H3 & H4).
    destruct (store_command_timers (fst b) (snd b) x) as (S1 & S2 & S3 & S4).
    rewrite S1, S2, S3, S4. auto.
Qed.

Lemma call_timers (c : callback) (s : state) :
  let s' := call c s in
  ledToggleTimer s' = ledToggleTimer s /\ i2cDly s' = i2cDly s /\
  exitDly s' = exitDly s /\ led s' = led s.
Proof.
  destruct c as [rx|]; cbn [call].
  - apply ReceiveEvent_timers.
  - pose proof (RequestEvent_timers s) as H. cbv zeta in H. tauto.
Qed.

Lemma usi_poll_timers (cs : list callback) (s : state) :
  let s' := usi_poll cs s in
  ledToggleTimer s' = ledToggleTimer s /\ i2cDly s' = i2cDly s /\
  exitDly s' = exitDly s /\ led s' = led s /\ mem s' = mem s.
Proof.
  unfold usi_poll. cbv zeta.
  apply (fold_left_inv _
           (fun x => ledToggleTimer x = ledToggleTimer s /\ i2cDly x = i2cDly s /\
                     exitDly x = exitDly s /\ led x = led s /\ mem x = mem s)).
  - auto.
  - intros x c (H1 & H2 & H3 & H4 & H5).
    destruct (call_timers c x) as (S1 & S2 & S3 & S4).
    destruct (call_frame c x) as (_ & _ & S5 & _).
    rewrite S1, S2, S3, S4, S5. auto.
Qed.
End CallFrames.

Section PreInit.
Context {cfg : Build}.

Lemma supervise_preinit (s : state) :
  initialized s = false ->
  is_word (ledToggleTimer s) -> is_byte (exitDly s) ->
  let o := supervise s in
  is_running o = (1 <? passes_left s) /\
  (is_running o = true ->
   passes_left (state_of o) = passes_left s - 1 /\
   is_word (ledToggleTimer (state_of o)) /\ is_byte (exitDly (state_of o))).
Proof.
  intros Hi Ht He o. subst o. unfold supervise. rewrite Hi. cbn [negb].
  cbv zeta. unfold passes_left, is_word, is_byte, TOGGLETIME in *.
  destruct (Z.geb_spec (ledToggleTimer s) 65535) as [Hge|Hlt].
  - fields.
    destruct (Z.eqb_spec (exitDly s) 0) as [E|E]; cbn [is_running state_of];
      fields.
    + split; [|discriminate]. symmetry. apply Z.ltb_ge. lia.
    + split; [symmetry; apply Z.ltb_lt; lia|]. intros _.
      unfold u8. rewrite Z.mod_small by lia. lia.
  - cbn [is_running state_of]. fields.
    split; [symmetry; apply Z.ltb_lt; lia|]. intros _.
    unfold u16. rewrite Z.mod_small by lia. lia.
Qed.

Lemma usi_poll_passes (cs : list callback) (s : state) :
  passes_left (usi_poll cs s) = passes_left s /\
  ledToggleTimer (usi_poll cs s) = ledToggleTimer s /\
  exitDly (usi_poll cs s) = exitDly s /\
  mem (usi_poll cs s) = mem s.
Proof.
  destruct (usi_poll_timers cs s) as (H1 & _ & H3 & _ & H5).
  unfold passes_left. rewrite H1, H3. auto.
Qed.

Lemma preinit_run (k : Z) (op : Z) (ps : list (list callback)) :
  (k = SR_INIT_1 /\ op = INITTINY \/ k = SR_INIT_2 /\ op = GETTMNLV) ->
  forall s : state,
  flag k s = false -> dispatches op ps s = false ->
  is_word (ledToggleTimer s) -> is_byte (exitDly s) ->
  is_running (run ps s) = (Z.of_nat (length ps) <? passes_left s) /\
  mem (state_of (run ps s)) = mem s /\
  initialized (state_of (run ps s)) = false.
Proof.
  intros Hk.
  assert (Hun : forall x, flag k x = false -> initialized x = false).
  { intros x Hx. rewrite initialized_flags.
    destruct Hk as [[-> _]|[-> _]]; rewrite Hx; [reflexivity|].
    apply andb_false_r. }
  induction ps as [|cs ps IH]; intros s Hf Hd Ht He.
  - cbn [run is_running state_of length].
    split; [|auto].
    symmetry. apply Z.ltb_lt.
    unfold passes_left, is_word, is_byte, TOGGLETIME in *. lia.
  - pose proof (Hun s Hf) as Hi.
    destruct (supervise_preinit s Hi Ht He) as (R1 & R2). cbv zeta in R1, R2.
    destruct (supervise_frame s) as (F1 & _ & _ & _ & _ & _ & _ & F8 & _).
    cbv zeta in F1, F8. specialize (F8 Hi). destruct F8 as (F8 & _).
    cbn [run dispatches length] in *. unfold main_pass.
    destruct (supervise s) as [s1|s1] eqn:Es; cbn [is_running state_of] in *.
    + specialize (R2 eq_refl). destruct R2 as (R2 & R3 & R4).
      apply orb_false_iff in Hd. destruct Hd as [Hp Hd].
      destruct (polls_flags cs s1) as (_ & P2 & P3). cbv zeta in P2, P3.
      destruct (usi_poll_passes cs s1) as (U1 & U2 & U3 & U4).
      assert (Hf1 : flag k (usi_poll cs s1) = false).
      { destruct Hk as [[-> ->]|[-> ->]].
        - rewrite (P2 Hp). unfold flag. rewrite F1. exact Hf.
        - rewrite (P3 Hp). unfold flag. rewrite F1. exact Hf. }
      destruct (IH (usi_poll cs s1) Hf1 Hd
                   ltac:(rewrite U2; exact R3) ltac:(rewrite U3; exact R4))
        as (I1 & I2 & I3).
      rewrite I1, I2, I3, U1, U4, R2, F8. split; [|auto].
      destruct (Z.ltb_spec (Z.of_nat (length ps)) (passes_left s - 1)),
               (Z.ltb_spec (Z.of_nat (S (length ps))) (passes_left s));
        try reflexivity; lia.
    + rewrite F8. split; [|split; [reflexivity|]].
      * symmetry in R1. apply Z.ltb_ge in R1. symmetry. apply Z.ltb_ge. lia.
      * apply Hun. unfold flag. rewrite F1. exact Hf.
Qed.
End PreInit.

Section PostInit.
Context {cfg : Build}.

(** X11.  Take a run in which no store falls outside [command] or
    [pageBuffer].  As long as one of the two handshake commands has not
    been dispatched, whatever else the master sends, the loop hands over to
    the application in the pass numbered [passes_left], not before and not
    after, the flash is as it was, and the bootloader is not initialized.
    From reset that is pass [(CYCLESTOEXIT + 1) * (TOGGLETIME + 1)]. *)
Theorem preinit_timeout (ps : list (list callback)) (s : state) :
  is_word (ledToggleTimer s) -> is_byte (exitDly s) ->
  stray (state_of (run ps s)) = [] ->
  flag SR_INIT_1 s = false /\ dispatches INITTINY ps s = false \/
  flag SR_INIT_2 s = false /\ dispatches GETTMNLV ps s = false ->
  is_running (run ps s) = (Z.of_nat (length ps) <? passes_left s) /\
  mem (state_of (run ps s)) = mem s /\
  initialized (state_of (run ps s)) = false /\
  forall f, passes_left (boot_state f) = (CYCLESTOEXIT + 1) * (TOGGLETIME + 1).
Proof.
  intros Ht He _ [[Hf Hd]|[Hf Hd]].
  - destruct (preinit_run SR_INIT_1 INITTINY ps ltac:(auto) s Hf Hd Ht He)
      as (H1 & H2 & H3).
    split_and!; auto.
  - destruct (preinit_run SR_INIT_2 GETTMNLV ps ltac:(auto) s Hf Hd Ht He)
      as (H1 & H2 & H3).
    split_and!; auto.
Qed.

(** One idle pass of an initialized bootloader with nothing pending. *)
Lemma idle_pass (s : state) :
  initialized s = true -> 0 <= i2cDly s <= I2CDLYTIME ->
  flag SR_EXIT_TML s = false -> flag SR_DEL_FLASH s = false ->
  pageIX s <> PAGE_SIZE ->
  main_pass [] s
  = Running (set_i2cDly ((i2cDly s - 1) mod (I2CDLYTIME + 1)) s).
Proof.
  intros Hi Hd He Hdel Hp. unfold main_pass, supervise. rewrite Hi.
  cbn [negb]. cbv zeta. unfold I2CDLYTIME in *.
  destruct (Z.leb_spec (i2cDly s) 0) as [H0|H0].
  - rewrite tick_flags. unfold flag. fields. unfold flag in He, Hdel.
    rewrite He, Hdel. cbn [andb]. cbv zeta.
    destruct (Z.eqb_spec (pageIX s) PAGE_SIZE) as [E|_]; [contradiction|].
    cbn [usi_poll fold_left]. fields.
    replace (i2cDly s) with 0 by lia. reflexivity.
  - cbn [usi_poll fold_left]. unfold u16.
    rewrite !Z.mod_small by lia. reflexivity.
Qed.

(** X12.  Once initialized the bootloader has no timeout: with no exit or
    deletion requested, no full page and a silent bus, any number of
    passes leaves it in the loop, with every variable as it was but
    [i2cDly], which goes round modulo [I2CDLYTIME + 1]. *)
Theorem initialized_idle_forever (n : nat) (s : state) :
  initialized s = true -> 0 <= i2cDly s <= I2CDLYTIME ->
  flag SR_EXIT_TML s = false -> flag SR_DEL_FLASH s = false ->
  pageIX s <> PAGE_SIZE ->
  run (replicate n []) s
  = Running (set_i2cDly ((i2cDly s - Z.of_nat n) mod (I2CDLYTIME + 1)) s).
Proof.
  revert s. induction n as [|n IH]; intros s Hi Hd He Hdel Hp.
  - cbn [replicate run]. rewrite Z.sub_0_r.
    unfold I2CDLYTIME in *. rewrite Z.mod_small by lia.
    destruct s; reflexivity.
  - cbn [replicate run]. rewrite idle_pass by assumption.
    rewrite IH; fields; auto.
    + f_equal.
      change (set_i2cDly ?a (set_i2cDly ?b s)) with (set_i2cDly a s).
      f_equal. rewrite Zminus_mod_idemp_l. f_equal. lia.
    + unfold I2CDLYTIME. Z.div_mod_to_equations. lia.
Qed.
End PostInit.

(** ** Stores outside the arrays, and the fill index *)

Lemma grows_refl (s s' : state) : stray s' = stray s -> grows s s'.
Proof. intros H. exists []. rewrite app_nil_r. exact H. Qed.

Lemma grows_trans (s1 s2 s3 : state) : grows s1 s2 -> grows s2 s3 -> grows s1 s3.
Proof.
  intros [l1 H1] [l2 H2]. exists (l1 ++ l2). rewrite H2, H1, app_assoc.
  reflexivity.
Qed.

Lemma grows_nil (s s' : state) : grows s s' -> stray s' = [] -> stray s = [].
Proof.
  intros [l H] E. rewrite E in H. symmetry in H.
  apply app_eq_nil in H. tauto.
Qed.

Lemma store_command_grows (i v : Z) (s : state) : grows s (store_command i v s).
Proof.
  unfold store_command. destruct (_ && _).
  - apply grows_refl. reflexivity.
  - eexists. reflexivity.
Qed.

Lemma store_pageBuffer_grows (i v : Z) (s : state) :
  grows s (store_pageBuffer i v s).
Proof.
  unfold store_pageBuffer. destruct (_ && _).
  - apply grows_refl. reflexivity.
  - eexists. reflexivity.
Qed.

Lemma write_loop_grows (c l : list Z) :
  forall (s : state) (sum : Z), grows s (fst (fold_left (write_byte c) l (s, sum))).
Proof.
  induction l as [|i l IH]; intros s sum.
  - apply grows_refl. reflexivity.
  - cbn [fold_left]. unfold write_byte at 2. cbn [fst snd].
    eapply grows_trans; [|apply IH].
    eapply grows_trans; [apply (store_pageBuffer_grows (pageIX s) (rd c i))|].
    apply grows_refl. reflexivity.
Qed.

Section Growth.
Context {cfg : Build}.

Lemma ReceiveEvent_grows (rx : list Z) (s : state) : grows s (ReceiveEvent rx s).
Proof.
  unfold ReceiveEvent. cbv zeta.
  apply (fold_left_inv _ (grows s)).
  - apply grows_refl. reflexivity.
  - intros x b H. eapply grows_trans; [exact H|apply store_command_grows].
Qed.

Lemma RequestEvent_grows (s : state) : grows s (fst (RequestEvent s)).
Proof.
  destruct (Z.eq_dec (rd (command s) 0) WRITPAGE) as [E|N].
  - rewrite (RequestEvent_WRITPAGE s E). cbv zeta. cbn [fst].
    pose proof (write_loop_grows (command s) (seqZ 1 RXDATASIZE) s 0) as H.
    generalize dependent (fold_left (write_byte (command s)) (seqZ 1 RXDATASIZE) (s, 0)).
    intros acc H. destruct (negb _); [|exact H].
    eapply grows_trans; [exact H|]. apply grows_refl. reflexivity.
  - apply grows_refl.
    destruct (RequestEvent_timers s) as (_ & _ & _ & _ & H). cbv zeta in H.
    destruct (H N) as [H1 _]. exact H1.
Qed.

Lemma call_grows (c : callback) (s : state) : grows s (call c s).
Proof.
  destruct c as [rx|]; [apply ReceiveEvent_grows|apply RequestEvent_grows].
Qed.

Lemma usi_poll_grows (cs : list callback) (s : state) : grows s (usi_poll cs s).
Proof.
  unfold usi_poll. apply (fold_left_inv _ (grows s)).
  - apply grows_refl. reflexivity.
  - intros x c H. eapply grows_trans; [exact H|apply call_grows].
Qed.

Lemma supervise_grows (s : state) : grows s (state_of (supervise s)).
Proof.
  apply grows_refl. destruct (supervise_frame s) as (_ & _ & _ & H & _).
  exact H.
Qed.

Lemma run_grows (ps : list (list callback)) :
  forall s, grows s (state_of (run ps s)).
Proof.
  induction ps as [|cs ps IH]; intros s.
  - apply grows_refl. reflexivity.
  - cbn [run]. unfold main_pass.
    pose proof (supervise_grows s) as H1.
    destruct (supervise s) as [s1|s1]; cbn [state_of] in *; [|exact H1].
    eapply grows_trans; [exact H1|].
    eapply grows_trans; [apply usi_poll_grows|apply IH].
Qed.

(** A chunk sent to a full page buffer is stored past its end. *)
Lemma WRITPAGE_overflows (s : state) :
  rd (command s) 0 = WRITPAGE ->
  Z.of_nat (length (pageBuffer s)) <= pageIX s ->
  stray (fst (RequestEvent s)) <> [].
Proof.
  intros E Hp. rewrite (RequestEvent_WRITPAGE s E). cbv zeta. cbn [fst].
  change (seqZ 1 RXDATASIZE) with (1 :: seqZ 2 7). cbn [fold_left].
  assert (H1 : stray (fst (write_byte (command s) (s, 0) 1)) <> []).
  { unfold write_byte. cbn [fst snd]. unfold store_pageBuffer.
    replace ((0 <=? pageIX s) && (pageIX s <? Z.of_nat (length (pageBuffer s))))
      with false
      by (symmetry; apply andb_false_iff; right; apply Z.ltb_ge; lia).
    fields. destruct (stray s); discriminate. }
  destruct (write_byte (command s) (s, 0) 1) as [s1 sum] eqn:Ew.
  cbn [fst] in H1.
  pose proof (write_loop_grows (command s) (seqZ 2 7) s1 sum) as [l H].
  generalize dependent (fold_left (write_byte (command s)) (seqZ 2 7) (s1, sum)).
  intros acc H.
  assert (Hs : stray (fst acc) <> []).
  { rewrite H. destruct (stray s1); [contradiction|discriminate]. }
  destruct (negb _); fields; exact Hs.
Qed.
End Growth.

Section Index.
Context {cfg : Build}.

Lemma call_pageIX (c : callback) (s : state) :
  is_byte (pageIX s) -> pageIX s mod RXDATASIZE = 0 ->
  length (pageBuffer s) = 64%nat ->
  stray (call c s) = [] ->
  stray s = [] /\
  pageIX (call c s)
  = (if is_chunk c s then pageIX s + RXDATASIZE else pageIX s) /\
  (is_chunk c s = true -> pageIX s + RXDATASIZE <= PAGE_SIZE).
Proof.
  intros Hb Hm Hl Hs.
  pose proof (grows_nil _ _ (call_grows c s) Hs) as Hs0.
  split; [exact Hs0|].
  destruct (call_frame c s) as (_ & _ & _ & _ & _ & U6 & _). cbv zeta in U6.
  destruct c as [rx|]; cbn [is_chunk].
  - destruct U6 as [-> | (E & _)]; [|discriminate]. split; [reflexivity|].
    discriminate.
  - destruct (Z.eqb_spec (rd (command s) 0) WRITPAGE) as [E|N].
    + assert (Hroom : pageIX s + RXDATASIZE <= PAGE_SIZE).
      { destruct (Z.lt_ge_cases (pageIX s) (Z.of_nat (length (pageBuffer s))))
          as [Hlt|Hge].
        - rewrite Hl in Hlt. unfold is_byte, RXDATASIZE, PAGE_SIZE in *.
          Z.div_mod_to_equations. lia.
        - exfalso. apply (WRITPAGE_overflows s E); [lia|exact Hs]. }
      split; [|intros _; exact Hroom].
      destruct (RequestEvent_keeps s) as (_ & _ & _ & _ & K5 & _).
      cbv zeta in K5. cbn [call]. rewrite (K5 E). apply u8_id.
      unfold is_byte, RXDATASIZE, PAGE_SIZE in *. lia.
    + split; [|discriminate].
      destruct U6 as [-> | (_ & E & _)]; [reflexivity|contradiction].
Qed.

Lemma pageIX_inv (ok : callback -> state -> Prop) (f : Z -> Z)
    (p : phase) (s : state) :
  reach ok f p s -> stray s = [] ->
  pageIX s mod RXDATASIZE = 0 /\ 0 <= pageIX s <= PAGE_SIZE.
Proof.
  intros Hr. induction Hr as [|s s1 Hr IH Hs|c s Hr IH Hok|s Hr IH]; intros E.
  - split; [reflexivity|]. cbn. unfold PAGE_SIZE. lia.
  - destruct (supervise_frame s) as (_ & _ & _ & S4 & _ & _ & S7 & _).
    rewrite Hs in S4, S7. cbv zeta in S4, S7. cbn [state_of] in S4, S7.
    rewrite S4 in E. destruct (IH E) as [I1 I2].
    destruct S7 as [[-> _] | (_ & -> & _)]; [auto|].
    split; [reflexivity|unfold PAGE_SIZE; lia].
  - destruct (reach_inv ok f InPoll s Hr) as ((_ & Hb & _) & _ & Hp & _).
    pose proof (grows_nil _ _ (call_grows c s) E) as E0.
    destruct (IH E0) as [I1 I2].
    destruct (call_pageIX c s Hp I1 Hb E) as (_ & C2 & C3).
    rewrite C2. destruct (is_chunk c s); [|auto].
    specialize (C3 eq_refl). unfold RXDATASIZE, PAGE_SIZE in *.
    split; [Z.div_mod_to_equations|]; lia.
  - auto.
Qed.

End Index.

(** ** The handshake and the exit countdown *)

Section Handshake.
Context {cfg : Build}.

Lemma polls_sets (cs : list callback) :
  forall s : state,
  (polls INITTINY cs s = true -> flag SR_INIT_1 (usi_poll cs s) = true) /\
  (polls GETTMNLV cs s = true -> flag SR_INIT_2 (usi_poll cs s) = true).
Proof.
  induction cs as [|c cs IH]; intros s.
  - cbn [polls]. split; discriminate.
  - cbn [polls usi_poll fold_left]. fold (usi_poll cs (call c s)).
    destruct (IH (call c s)) as [I1 I2].
    destruct (polls_flags cs (call c s)) as (M & _). cbv zeta in M.
    split; intros H; apply orb_true_iff in H; destruct H as [H|H]; auto.
    + destruct c as [rx|]; [discriminate|]. apply Z.eqb_eq in H.
      apply M; [auto|]. cbn [call]. rewrite (RequestEvent_INITTINY s H).
      cbn [fst]. rewrite flag_set by (cbv; congruence).
      apply orb_true_r.
    + destruct c as [rx|]; [discriminate|]. apply Z.eqb_eq in H.
      apply M; [auto|]. cbn [call]. rewrite (RequestEvent_GETTMNLV s H).
      cbn [fst]. rewrite flag_set by (cbv; congruence).
      apply orb_true_r.
Qed.

Lemma dispatch_sets (ps : list (list callback)) :
  forall s : state,
  (dispatches INITTINY ps s = true ->
   flag SR_INIT_1 (state_of (run ps s)) = true) /\
  (dispatches GETTMNLV ps s = true ->
   flag SR_INIT_2 (state_of (run ps s)) = true).
Proof.
  induction ps as [|cs ps IH]; intros s.
  - cbn [dispatches]. split; discriminate.
  - cbn [dispatches run]. unfold main_pass.
    destruct (supervise s) as [s1|s1]; [|split; discriminate].
    destruct (IH (usi_poll cs s1)) as [I1 I2].
    destruct (polls_sets cs s1) as [P1 P2].
    destruct (dispatch_flags ps (usi_poll cs s1)) as (M & _). cbv zeta in M.
    split; intros H; apply orb_true_iff in H; destruct H as [H|H]; auto.
Qed.

Lemma handshake_flags (ps : list (list callback)) (s : state) :
  let s' := state_of (run ps s) in
  flag SR_INIT_1 s'
  = (if dispatches INITTINY ps s then true else flag SR_INIT_1 s) /\
  flag SR_INIT_2 s'
  = (if dispatches GETTMNLV ps s then true else flag SR_INIT_2 s).
Proof.
  cbv zeta.
  destruct (dispatch_flags ps s) as (_ & D2 & D3). cbv zeta in D2, D3.
  destruct (dispatch_sets ps s) as [S1 S2].
  destruct (dispatches INITTINY ps s), (dispatches GETTMNLV ps s); auto.
Qed.

(** C5, amended.  Take a run of passes from [s] in which no store falls
    outside [command] or [pageBuffer], and let [s'] be the state it ends
    in, be it still in the loop or at the call of [RunApplication].  The
    supervisor treats [s'] as initialized exactly when [InitStep1] and
    [InitStep2] are both set.  [InitStep1] is set in [s'] exactly when it
    was set in [s] or the run dispatched [InitDevice], [InitStep2] exactly
    when it was set or the run dispatched [GetVersion]: a flag once set is
    never cleared, and one flag alone never initializes the device.  While
    [s'] is not initialized the exit countdown runs on: the loop is left
    for the application in the pass numbered [passes_left], not before and
    not after, with the flash as it was, and a further pass never runs the
    supervisor's tick.  Once it is initialized a pass never runs the exit
    countdown, but counts the tick timer down.  The two commands, in
    either order, initialize the device. *)
Theorem init_handshake (ps : list (list callback)) (s : state) :
  command s <> [] ->
  is_word (ledToggleTimer s) -> is_byte (exitDly s) ->
  stray (state_of (run ps s)) = [] ->
  let o := run ps s in
  let s' := state_of o in
  initialized s' = flag SR_INIT_1 s' && flag SR_INIT_2 s' /\
  flag SR_INIT_1 s'
  = (if dispatches INITTINY ps s then true else flag SR_INIT_1 s) /\
  flag SR_INIT_2 s'
  = (if dispatches GETTMNLV ps s then true else flag SR_INIT_2 s) /\
  (initialized s' = false ->
   is_running o = (Z.of_nat (length ps) <? passes_left s) /\
   mem s' = mem s /\
   let s1 := state_of (supervise s') in
   mem s1 = mem s' /\ pageBuffer s1 = pageBuffer s' /\
   pageIX s1 = pageIX s' /\ flashPageAddr s1 = flashPageAddr s' /\
   i2cDly s1 = i2cDly s') /\
  (initialized s' = true ->
   let s1 := state_of (supervise s') in
   exitDly s1 = exitDly s' /\ ledToggleTimer s1 = ledToggleTimer s' /\
   (0 < i2cDly s' < 65536 ->
    supervise s' = Running (set_i2cDly (i2cDly s' - 1) s'))) /\
  initialized (request GETTMNLV (request INITTINY s)) = true /\
  initialized (request INITTINY (request GETTMNLV s)) = true.
Proof.
  intros Hc Ht He _ o s'. subst o.
  destruct (handshake_flags ps s) as (F1 & F2). fold s' in F1, F2.
  destruct (supervise_frame s') as (_ & _ & _ & _ & _ & _ & _ & S8 & S9).
  cbv zeta in S8, S9.
  split; [apply initialized_flags|]. split; [exact F1|]. split; [exact F2|].
  split_and!.
  - intros Hi.
    assert (Hk : flag SR_INIT_1 s = false /\ dispatches INITTINY ps s = false \/
                 flag SR_INIT_2 s = false /\ dispatches GETTMNLV ps s = false).
    { rewrite initialized_flags in Hi. apply andb_false_iff in Hi.
      destruct Hi as [Hi|Hi]; [left; rewrite Hi in F1|right; rewrite Hi in F2].
      - destruct (dispatches INITTINY ps s); [discriminate|auto].
      - destruct (dispatches GETTMNLV ps s); [discriminate|auto]. }
    assert (Hrun : is_running (run ps s)
                   = (Z.of_nat (length ps) <? passes_left s) /\
                   mem (state_of (run ps s)) = mem s).
    { destruct Hk as [[Hf Hd]|[Hf Hd]].
      - destruct (preinit_run SR_INIT_1 INITTINY ps ltac:(auto) s Hf Hd Ht He)
          as (H1 & H2 & _). auto.
      - destruct (preinit_run SR_INIT_2 GETTMNLV ps ltac:(auto) s Hf Hd Ht He)
          as (H1 & H2 & _). auto. }
    destruct Hrun as [R1 R2]. fold s' in R2.
    destruct (S8 Hi) as (A1 & A2 & A3 & A4 & A5). auto 10.
  - intros Hi. destruct (S9 Hi) as (A1 & A2).
    split; [exact A2|]. split; [exact A1|].
    intros Hd. unfold supervise. rewrite Hi. cbn [negb]. cbv zeta.
    destruct (Z.leb_spec (i2cDly s') 0); [lia|].
    unfold u16. rewrite Z.mod_small by lia. reflexivity.
  - rewrite initialized_flags.
    rewrite !request_GETTMNLV, !request_INITTINY
      by auto using request_command.
    cbn [Z.eqb SR_INIT_1 SR_INIT_2]. now rewrite !orb_true_r.
  - rewrite initialized_flags.
    rewrite !request_INITTINY, !request_GETTMNLV
      by auto using request_command.
    cbn [Z.eqb SR_INIT_1 SR_INIT_2]. now rewrite !orb_true_r.
Qed.
End Handshake.

(** Passes without a callback. *)
Section Idle.
Context {cfg : Build}.

Lemma idle_dispatches (op : Z) (n : nat) :
  forall s : state, dispatches op (replicate n []) s = false.
Proof.
  induction n as [|n IH]; intros s.
  - reflexivity.
  - cbn [replicate dispatches]. destruct (supervise s) as [s1|s1]; [|reflexivity].
    cbn [polls orb]. apply IH.
Qed.

Lemma idle_stray (n : nat) :
  forall s : state, stray (state_of (run (replicate n []) s)) = stray s.
Proof.
  induction n as [|n IH]; intros s.
  - reflexivity.
  - cbn [replicate run]. unfold main_pass.
    destruct (supervise_frame s) as (_ & _ & _ & S4 & _). cbv zeta in S4.
    destruct (supervise s) as [s1|s1]; cbn [state_of] in *; [|exact S4].
    cbn [usi_poll fold_left]. rewrite IH. exact S4.
Qed.
End Idle.

(** ** The bootloader section *)

Section Protection.
Context {cfg : Build}.

Lemma FlashPage_protects (a : Z) (s : state) :
  is_word a ->
  PAGE_SIZE <= TIMONEL_START <= 65536 - PAGE_SIZE ->
  length (pageBuffer s) = 64%nat ->
  length (spm_temp (mem s)) = 32%nat ->
  forall x, TIMONEL_START <= x ->
  flash (mem (FlashPage a s)) x = flash (mem s) x.
Proof.
  intros Ha HT Hb Ht x Hx.
  pose proof start_aligned as HA.
  pose proof (page_base_eq a Ha) as Hpe.
  pose proof (page_base_aligned a Ha) as Hpa.
  destruct (Z.le_gt_cases TIMONEL_START (page_base a)) as [Hge|Hlt].
  - rewrite FlashPage_discard; auto.
    + unfold PAGE_SIZE in *. lia.
    + rewrite Hpe in Hge. unfold PAGE_SIZE in *. Z.div_mod_to_equations. lia.
  - destruct (FlashPage_spec a s Ha HT Hb Ht) as (_ & _ & _ & _ & _ & _ & F).
    cbv zeta in F. apply F.
    + unfold PAGE_SIZE in *. lia.
    + rewrite same_page_range by assumption.
      apply andb_false_iff. right. apply Z.ltb_ge.
      unfold PAGE_SIZE in *. Z.div_mod_to_equations. lia.
    + rewrite same_page_range
        by (unfold PAGE_SIZE in *; Z.div_mod_to_equations; lia).
      apply andb_false_iff. right. apply Z.ltb_ge. lia.
Qed.

Lemma DeleteFlash_protects (s : state) :
  PAGE_SIZE <= TIMONEL_START <= 65536 - PAGE_SIZE ->
  length (pageBuffer s) = 64%nat ->
  length (spm_temp (mem s)) = 32%nat ->
  forall x, TIMONEL_START <= x ->
  flash (mem (DeleteFlash s)) x = flash (mem s) x.
Proof.
  intros HT Hb Ht x Hx.
  destruct (DeleteFlash_spec s HT Hb Ht) as (_ & _ & _ & _ & F & _).
  cbv zeta in F. rewrite F by (unfold PAGE_SIZE in *; lia).
  destruct (Z.eqb_spec x 0); [unfold PAGE_SIZE in *; lia|].
  destruct (Z.eqb_spec x 1); [unfold PAGE_SIZE in *; lia|].
  destruct (Z.ltb_spec x TIMONEL_START); [lia|reflexivity].
Qed.

Lemma commit_protects (s : state) :
  is_word (flashPageAddr s) ->
  PAGE_SIZE <= TIMONEL_START <= 65536 - PAGE_SIZE ->
  length (pageBuffer s) = 64%nat ->
  length (spm_temp (mem s)) = 32%nat ->
  forall x, TIMONEL_START <= x ->
  flash (mem (commit s)) x = flash (mem s) x.
Proof.
  intros Ha HT Hb Ht x Hx. unfold commit. cbv zeta.
  pose proof (FlashPage_protects (flashPageAddr s) (set_led (negb (led s)) s)
                Ha HT Hb Ht x Hx) as H.
  fields. exact H.
Qed.

Lemma tick_protects (s : state) :
  is_word (flashPageAddr s) ->
  PAGE_SIZE <= TIMONEL_START <= 65536 - PAGE_SIZE ->
  length (pageBuffer s) = 64%nat ->
  length (spm_temp (mem s)) = 32%nat ->
  forall x, TIMONEL_START <= x ->
  flash (mem (state_of (tick s))) x = flash (mem s) x.
Proof.
  intros Ha HT Hb Ht x Hx. rewrite tick_flags.
  destruct (flag SR_EXIT_TML s && flag SR_APP_READY s); [reflexivity|].
  cbv zeta.
  assert (H1 : exists s1,
             (if flag SR_EXIT_TML s && negb (flag SR_APP_READY s)
              then DeleteFlash s else s) = s1 /\
             length (pageBuffer s1) = 64%nat /\
             length (spm_temp (mem s1)) = 32%nat /\
             flashPageAddr s1 = flashPageAddr s /\
             led s1 = led s /\
             flash (mem s1) x = flash (mem s) x).
  { destruct (_ && _).
    - destruct (DeleteFlash_spec s HT Hb Ht) as (D1 & D2 & D3 & D4 & _).
      apply control_inv in D1. destruct D1 as (_ & _ & _ & _ & _ & _ & _ & D8 & _).
      exists (DeleteFlash s). split_and!; auto.
      apply DeleteFlash_protects; assumption.
    - exists s. auto 10. }
  destruct H1 as (s1 & Hs1 & C1 & C2 & C3 & C4 & C5).
  rewrite Hs1. clear Hs1.
  destruct (flag SR_DEL_FLASH s); cbn [state_of].
  - pose proof (DeleteFlash_protects (set_led true s1) HT C1 C2 x Hx) as H.
    rewrite H. exact C5.
  - destruct (pageIX s =? PAGE_SIZE).
    + pose proof (commit_protects s1 ltac:(rewrite C3; exact Ha) HT C1 C2 x Hx)
        as H.
      change (mem (set_i2cDly ?v ?y)) with (mem y). rewrite H. exact C5.
    + exact C5.
Qed.

Lemma supervise_protects (s : state) :
  wf s -> is_word (flashPageAddr s) ->
  PAGE_SIZE <= TIMONEL_START <= 65536 - PAGE_SIZE ->
  forall x, TIMONEL_START <= x ->
  flash (mem (state_of (supervise s))) x = flash (mem s) x.
Proof.
  intros (_ & Hb & Ht) Ha HT x Hx.
  destruct (supervise_frame s) as (_ & _ & _ & _ & _ & _ & _ & F8 & _).
  cbv zeta in F8.
  destruct (initialized s) eqn:Hi.
  - unfold supervise. rewrite Hi. cbn [negb]. cbv zeta.
    destruct (i2cDly s <=? 0); [|reflexivity].
    apply (tick_protects (set_i2cDly (u16 (i2cDly s - 1)) s)); assumption.
  - destruct (F8 eq_refl) as (F & _). rewrite F. reflexivity.
Qed.
End Protection.

(** ** What holds along every run *)

Lemma sticky_refl (s s' : state) :
  statusRegister s' = statusRegister s -> sticky s s'.
Proof. intros H. unfold sticky, flag. rewrite H. auto. Qed.

Lemma sticky_trans (s1 s2 s3 : state) :
  sticky s1 s2 -> sticky s2 s3 -> sticky s1 s3.
Proof.
  intros (A1 & A2 & A3 & A4) (B1 & B2 & B3 & B4). unfold sticky.
  split_and!; auto. intros k Hk. rewrite B4, A4; auto.
Qed.

Section Invariants.
Context {cfg : Build}.

Lemma RequestEvent_sticky (s : state) : sticky s (fst (RequestEvent s)).
Proof.
  pose proof (RequestEvent_status s) as H. cbv zeta in H.
  unfold sticky, flag.
  assert (Hset : forall j, 0 <= j <= SR_EXIT_TML -> j <> SR_APP_READY ->
    statusRegister (fst (RequestEvent s)) = Z.lor (statusRegister s) (bit j) ->
    (Z.testbit (statusRegister s) SR_APP_READY = false ->
     Z.testbit (statusRegister (fst (RequestEvent s))) SR_APP_READY = false) /\
    (Z.testbit (statusRegister s) SR_DEL_FLASH = true ->
     Z.testbit (statusRegister (fst (RequestEvent s))) SR_DEL_FLASH = true) /\
    (Z.testbit (statusRegister s) SR_EXIT_TML = true ->
     Z.testbit (statusRegister (fst (RequestEvent s))) SR_EXIT_TML = true) /\
    (forall k, SR_EXIT_TML < k ->
     Z.testbit (statusRegister (fst (RequestEvent s))) k
     = Z.testbit (statusRegister s) k)).
  { intros j Hj Hne E. rewrite E. unfold SR_EXIT_TML in *.
    split_and!.
    - intros H0. rewrite testbit_set, H0 by lia. cbn [orb].
      apply Z.eqb_neq. exact Hne.
    - intros H0. rewrite testbit_set, H0 by lia. reflexivity.
    - intros H0. rewrite testbit_set, H0 by lia. reflexivity.
    - intros k Hk. rewrite testbit_set by lia.
      destruct (Z.eqb_spec j k); [lia|]. apply orb_false_r. }
  destruct H as [H|[[_ H]|[[_ H]|[[_ H]|[[_ H]|[_ H]]]]]].
  - rewrite H. auto.
  - apply (Hset SR_INIT_2); [cbv; intuition discriminate|discriminate|exact H].
  - apply (Hset SR_EXIT_TML); [cbv; intuition discriminate|discriminate|exact H].
  - apply (Hset SR_DEL_FLASH); [cbv; intuition discriminate|discriminate|exact H].
  - apply (Hset SR_INIT_1); [cbv; intuition discriminate|discriminate|exact H].
  - rewrite H. unfold SR_APP_READY, SR_DEL_FLASH, SR_EXIT_TML.
    split_and!; intros;
      repeat (rewrite ?testbit_set, ?testbit_clear by lia);
      try match goal with H0 : Z.testbit _ _ = _ |- _ => rewrite H0 end;
      try reflexivity.
    destruct (Z.eqb_spec 3 k); [lia|]. destruct (Z.eqb_spec 2 k); [lia|].
    cbn [negb]. rewrite andb_true_r, orb_false_r. reflexivity.
Qed.

Lemma call_sticky (c : callback) (s : state) : sticky s (call c s).
Proof.
  destruct c as [rx|]; cbn [call].
  - apply sticky_refl.
    destruct (ReceiveEvent_frame rx s) as (_ & H & _). exact H.
  - apply RequestEvent_sticky.
Qed.

Lemma usi_poll_sticky (cs : list callback) (s : state) :
  sticky s (usi_poll cs s).
Proof.
  unfold usi_poll. apply (fold_left_inv _ (sticky s)).
  - apply sticky_refl. reflexivity.
  - intros x c H. eapply sticky_trans; [exact H|apply call_sticky].
Qed.

Lemma supervise_sticky (s : state) : sticky s (state_of (supervise s)).
Proof.
  apply sticky_refl. destruct (supervise_frame s) as (H & _). exact H.
Qed.

(** X15.  Along any run in which no store falls outside [command] or
    [pageBuffer], hand-off included: [SR_APP_READY] once cleared stays
    cleared, [SR_DEL_FLASH] and [SR_EXIT_TML] once set stay set, and the
    three bits above [SR_EXIT_TML] never change.  No command takes back an
    exit, a deletion or a failed checksum. *)
Theorem flags_sticky (ps : list (list callback)) (s : state) :
  stray (state_of (run ps s)) = [] ->
  let s' := state_of (run ps s) in
  (flag SR_APP_READY s = false -> flag SR_APP_READY s' = false) /\
  (flag SR_DEL_FLASH s = true -> flag SR_DEL_FLASH s' = true) /\
  (flag SR_EXIT_TML s = true -> flag SR_EXIT_TML s' = true) /\
  (forall k, SR_EXIT_TML < k -> flag k s' = flag k s).
Proof.
  intros _. cbv zeta. change (sticky s (state_of (run ps s))).
  revert s. induction ps as [|cs ps IH]; intros s.
  - apply sticky_refl. reflexivity.
  - cbn [run]. unfold main_pass.
    pose proof (supervise_sticky s) as H1.
    destruct (supervise s) as [s1|s1]; cbn [state_of] in *.
    + eapply sticky_trans; [exact H1|].
      eapply sticky_trans; [apply usi_poll_sticky|apply IH].
    + exact H1.
Qed.
End Invariants.

Section Safety.
Context {cfg : Build}.

(** X16.  In every state of a run in which no store fell outside its
    array, whatever the master sent, the cells from [TIMONEL_START] up
    hold what they held at reset; they still do when the supervisor hands
    over to the application. *)
Theorem bootloader_never_overwritten (ok : callback -> state -> Prop)
    (f : Z -> Z) (p : phase) (s : state) :
  reach ok f p s ->
  PAGE_SIZE <= TIMONEL_START <= 65536 - PAGE_SIZE ->
  stray s = [] ->
  forall x, TIMONEL_START <= x ->
  flash (mem s) x = f x /\
  flash (mem (state_of (supervise s))) x = f x.
Proof.
  intros Hr HT _ x Hx.
  assert (Hs : flash (mem s) x = f x).
  { induction Hr as [|s s1 Hr IH Hs|c s Hr IH Hok|s Hr IH].
    - reflexivity.
    - destruct (reach_inv ok f AtLoop s Hr) as (Hw & _ & _ & Ha).
      pose proof (supervise_protects s Hw Ha HT x Hx) as H.
      rewrite Hs in H. cbn [state_of] in H. rewrite H. exact IH.
    - destruct (call_frame c s) as (_ & _ & Hm & _). cbv zeta in Hm.
      rewrite Hm. exact IH.
    - exact IH. }
  split; [exact Hs|].
  destruct (reach_inv ok f p s Hr) as (Hw & _ & _ & Ha).
  rewrite (supervise_protects s Hw Ha HT x Hx). exact Hs.
Qed.

Lemma call_in_bounds (c : callback) (s : state) :
  wf s -> is_byte (pageIX s) -> in_bounds c s -> stray (call c s) = stray s.
Proof.
  intros (Hc & Hb & _) Hp (Hfit & Hrx). destruct c as [rx|]; cbn [call].
  - specialize (Hrx rx eq_refl).
    rewrite ReceiveEvent_eq by lia. reflexivity.
  - destruct (Z.eq_dec (rd (command s) 0) WRITPAGE) as [E|N].
    + destruct (WRITPAGE_spec s E) as (_ & _ & _ & _ & _ & _ & _ & _ & _ & _ & _ & _ & W).
      cbv zeta in W. apply W.
      * unfold is_byte in Hp. lia.
      * rewrite Hb. apply Hfit; auto.
      * rewrite Hb. lia.
    + destruct (RequestEvent_timers s) as (_ & _ & _ & _ & H).
      cbv zeta in H. destruct (H N) as [H1 _]. exact H1.
Qed.

(** X17.  While every frame fits [command] and every chunk fits the page
    buffer, no store of the program falls outside its array. *)
Theorem no_stray_store (f : Z -> Z) (p : phase) (s : state) :
  reach in_bounds f p s -> stray s = [].
Proof.
  intros Hr. induction Hr as [|s s1 Hr IH Hs|c s Hr IH Hok|s Hr IH].
  - reflexivity.
  - destruct (supervise_frame s) as (_ & _ & _ & H & _). cbv zeta in H.
    rewrite Hs in H. cbn [state_of] in H. rewrite H. exact IH.
  - destruct (reach_inv in_bounds f InPoll s Hr) as (Hw & _ & Hp & _).
    rewrite (call_in_bounds c s Hw Hp Hok). exact IH.
  - exact IH.
Qed.

(** X13.  The tick of an initialized bootloader with [SR_DEL_FLASH] set and
    no exit requested: the pass ends in [RunApplication], the callbacks of
    the pass are not served, and the flash below the bootloader is erased
    but for the jump to the bootloader in word 0.  A full page buffer is
    not written first: [pageIX] and [flashPageAddr] are as they were. *)
Theorem delete_tick (cs : list callback) (s : state) :
  wf s ->
  PAGE_SIZE <= TIMONEL_START < 8192 ->
  initialized s = true -> i2cDly s = 0 ->
  flag SR_DEL_FLASH s = true -> flag SR_EXIT_TML s = false ->
  let s' := DeleteFlash (set_led true (set_i2cDly (u16 (-1)) s)) in
  main_pass cs s = HandOff s' /\
  is_rjmp (flash_word (mem s') 0) = true /\
  rjmp_target 0 (flash_word (mem s') 0) = TIMONEL_START / 2 /\
  (forall x, 2 <= x < TIMONEL_START -> flash (mem s') x = 0xFF) /\
  (forall x, TIMONEL_START <= x -> flash (mem s') x = flash (mem s) x) /\
  pageIX s' = pageIX s /\ flashPageAddr s' = flashPageAddr s.
Proof.
  intros (Hc & Hb & Ht) HT Hi Hd Hdel Hex s'.
  assert (HT' : PAGE_SIZE <= TIMONEL_START <= 65536 - PAGE_SIZE)
    by (unfold PAGE_SIZE in *; lia).
  set (s0 := set_led true (set_i2cDly (u16 (-1)) s)) in *.
  destruct (DeleteFlash_spec s0 HT' Hb Ht) as (D1 & _ & _ & D4 & Hf & _).
  fold s' in D1, D4, Hf.
  apply control_inv in D1. destruct D1 as (_ & _ & _ & _ & _ & _ & D7 & _).
  assert (Hrun : main_pass cs s = HandOff s').
  { unfold main_pass, supervise. rewrite Hi, Hd. cbn [negb Z.leb Z.compare].
    cbv zeta. rewrite tick_flags.
    unfold flag in *. fields. rewrite Hdel, Hex. cbn [andb]. cbv zeta.
    reflexivity. }
  clearbody s'.
  pose proof start_even as He.
  assert (Hw : flash_word (mem s') 0 = 0xC000 + (TIMONEL_START / 2 - 1)).
  { unfold flash_word, word_of_bytes. rewrite !Hf by lia.
    change (0 + 1) with 1. change (1 =? 0) with false.
    change (0 =? 0) with true. change (1 =? 1) with true. cbv iota.
    rewrite reset_vector_eq by (unfold PAGE_SIZE in *; lia).
    rewrite land_FF, shiftr_8. unfold u8, PAGE_SIZE in *.
    Z.div_mod_to_equations. lia. }
  split; [exact Hrun|]. split_and!.
  - unfold is_rjmp. rewrite Hw, shiftr_12. apply Z.eqb_eq.
    unfold PAGE_SIZE in *. Z.div_mod_to_equations. lia.
  - unfold rjmp_target, sext12, FLASH_WORDS. rewrite Hw, land_FFF.
    unfold PAGE_SIZE in *.
    destruct (Z.ltb_spec ((49152 + (TIMONEL_START / 2 - 1)) mod 4096) 2048);
      Z.div_mod_to_equations; lia.
  - intros x Hx. rewrite Hf by lia.
    destruct (Z.eqb_spec x 0); [lia|]. destruct (Z.eqb_spec x 1); [lia|].
    destruct (Z.ltb_spec x TIMONEL_START); [reflexivity|lia].
  - intros x Hx. unfold PAGE_SIZE in *. rewrite Hf by lia.
    destruct (Z.eqb_spec x 0); [lia|]. destruct (Z.eqb_spec x 1); [lia|].
    destruct (Z.ltb_spec x TIMONEL_START); [lia|reflexivity].
  - exact D7.
  - exact D4.
Qed.
End Safety.

(** ** A page, from the bus to the flash *)

Section Upload.
Context {cfg : Build}.

(** X6.  Chunks sent one after the other, each frame written and its reply
    read, line up in the page buffer in the order sent.  The status
    register stays as it was when every checksum is right, and carries
    the mark of a failure once one was wrong, whatever comes after it.
    Flash and page address are not touched. *)
Theorem chunks_fill_buffer (ds : list (list Z * Z)) (s : state) :
  length (command s) = 18%nat -> length (pageBuffer s) = 64%nat ->
  Forall (fun d => length (fst d) = 8%nat) ds ->
  0 <= pageIX s ->
  pageIX s + RXDATASIZE * Z.of_nat (length ds) <= PAGE_SIZE ->
  let s' := usi_poll (chunk_calls ds) s in
  let p := Z.to_nat (pageIX s) in
  pageBuffer s'
  = take p (pageBuffer s) ++ concat (map fst ds)
    ++ drop (p + 8 * length ds) (pageBuffer s) /\
  pageIX s' = pageIX s + RXDATASIZE * Z.of_nat (length ds) /\
  statusRegister s'
  = (if forallb chunk_ok ds then statusRegister s
     else failed (statusRegister s)) /\
  stray s' = stray s /\ mem s' = mem s /\
  flashPageAddr s' = flashPageAddr s.
Proof.
  intros Hc Hb Hd H0 H1 s' p.
  destruct (chunks_loop ds s Hc Hb Hd H0 H1)
    as (C1 & C2 & C3 & C4 & C5 & C6 & _).
  cbv zeta in *. auto 10.
Qed.

Lemma run_app (l1 l2 : list (list callback)) (s : state) :
  run (l1 ++ l2) s
  = match run l1 s with
    | Running s1 => run l2 s1
    | HandOff s1 => HandOff s1
    end.
Proof.
  revert s. induction l1 as [|cs l1 IH]; intros s.
  - reflexivity.
  - cbn [app run]. destruct (main_pass cs s); [apply IH|reflexivity].
Qed.

(** Before the next tick an initialized bootloader only counts down. *)
Lemma countdown (n : nat) :
  forall s : state,
  initialized s = true -> Z.of_nat n <= i2cDly s <= 65535 ->
  run (replicate n []) s = Running (set_i2cDly (i2cDly s - Z.of_nat n) s).
Proof.
  induction n as [|n IH]; intros s Hi Hd.
  - cbn [replicate run]. rewrite Z.sub_0_r. destruct s; reflexivity.
  - cbn [replicate run]. unfold main_pass, supervise. rewrite Hi.
    cbn [negb]. cbv zeta.
    destruct (Z.leb_spec (i2cDly s) 0) as [H0|H0]; [lia|].
    cbn [usi_poll fold_left].
    rewrite IH by (fields; auto; unfold u16; rewrite Z.mod_small by lia; lia).
    fields. unfold u16. rewrite Z.mod_small by lia.
    change (set_i2cDly ?a (set_i2cDly ?b s)) with (set_i2cDly a s).
    do 2 f_equal. lia.
Qed.

Lemma usi_poll_wf (cs : list callback) (s : state) :
  wf s -> wf (usi_poll cs s).
Proof.
  intros H. unfold usi_poll. apply (fold_left_inv _ wf); [exact H|].
  intros x c Hx. apply call_wf. exact Hx.
Qed.

Lemma initialized_status (s s' : state) :
  statusRegister s' = statusRegister s -> initialized s' = initialized s.
Proof. intros H. unfold initialized, sr_mask. rewrite H. reflexivity. Qed.

(** A tick with a full page buffer and nothing else pending. *)
Lemma commit_tick (s : state) :
  initialized s = true -> i2cDly s = 0 ->
  flag SR_EXIT_TML s = false -> flag SR_DEL_FLASH s = false ->
  pageIX s = PAGE_SIZE ->
  supervise s
  = Running (set_i2cDly I2CDLYTIME (commit (set_i2cDly (u16 (-1)) s))).
Proof.
  intros Hi Hd He Hdel Hp. unfold supervise. rewrite Hi, Hd.
  cbn [negb Z.leb Z.compare]. cbv zeta. rewrite tick_flags.
  unfold flag in *. fields. rewrite He, Hdel, Hp. cbn [andb]. cbv zeta.
  rewrite Z.eqb_refl. reflexivity.
Qed.

(** X14.  An initialized bootloader with an empty page buffer and the
    address of an erased page below the trampoline page; the master sends
    eight chunks with right checksums in one pass and then keeps silent.
    After the pass of the next tick the page holds the 64 bytes in the
    order sent, no other cell has changed, [flashPageAddr] is at the next
    page, the page buffer counts as empty and the status register is as it
    was. *)
Theorem upload_page (ds : list (list Z * Z)) (s : state) :
  wf s ->
  PAGE_SIZE <= TIMONEL_START <= 65536 - PAGE_SIZE ->
  initialized s = true ->
  flag SR_EXIT_TML s = false -> flag SR_DEL_FLASH s = false ->
  0 < i2cDly s <= I2CDLYTIME ->
  pageIX s = 0 ->
  let a := flashPageAddr s in
  a mod PAGE_SIZE = 0 -> 0 < a < TIMONEL_START - PAGE_SIZE ->
  length ds = 8%nat ->
  Forall (fun d => length (fst d) = 8%nat /\ Forall is_byte (fst d)) ds ->
  forallb chunk_ok ds = true ->
  (forall i, 0 <= i < PAGE_SIZE -> flash (mem s) (a + i) = 0xFF) ->
  let o := run (chunk_calls ds :: replicate (Z.to_nat (i2cDly s)) []) s in
  is_running o = true /\
  (forall i, 0 <= i < PAGE_SIZE ->
     flash (mem (state_of o)) (a + i) = rd (concat (map fst ds)) i) /\
  (forall x, 0 <= x -> ~ a <= x < a + PAGE_SIZE ->
     flash (mem (state_of o)) x = flash (mem s) x) /\
  flashPageAddr (state_of o) = a + PAGE_SIZE /\
  pageIX (state_of o) = 0 /\
  statusRegister (state_of o) = statusRegister s.
Proof.
  intros Hw HT Hi He Hdel Hd Hp a Hal Ha Hn Hds Hok Her o. subst o.
  destruct Hw as (Hc & Hb & Ht). unfold I2CDLYTIME in Hd.
  assert (Hlen : Forall (fun d => length (fst d) = 8%nat) ds)
    by (eapply Forall_impl; [exact Hds|]; intros d [H _]; exact H).
  assert (Hby : Forall is_byte (concat (map fst ds))).
  { apply Forall_concat. apply Forall_fmap.
    eapply Forall_impl; [exact Hds|]. intros d [_ H]. exact H. }
  (* first pass *)
  cbn [run]. unfold main_pass.
  assert (Hs0 : supervise s = Running (set_i2cDly (i2cDly s - 1) s)).
  { unfold supervise. rewrite Hi. cbn [negb]. cbv zeta.
    destruct (Z.leb_spec (i2cDly s) 0); [lia|].
    unfold u16. rewrite Z.mod_small by lia. reflexivity. }
  rewrite Hs0.
  set (s0 := set_i2cDly (i2cDly s - 1) s).
  destruct (chunks_loop ds s0 Hc Hb Hlen
              ltac:(change (pageIX s0) with (pageIX s); lia)
              ltac:(change (pageIX s0) with (pageIX s); rewrite Hp, Hn;
                    unfold RXDATASIZE, PAGE_SIZE; lia))
    as (C1 & C2 & C3 & C4 & C5 & C6 & C7 & C8 & C9 & C10 & _).
  change (pageIX s0) with (pageIX s) in C1, C2.
  change (pageBuffer s0) with (pageBuffer s) in C1.
  change (statusRegister s0) with (statusRegister s) in C3.
  change (mem s0) with (mem s) in C5.
  change (flashPageAddr s0) with a in C6.
  change (i2cDly s0) with (i2cDly s - 1) in C8.
  rewrite Hp, Hn in C1, C2. rewrite Hok in C3.
  change (Z.to_nat 0) with 0%nat in C1.
  change (8 * 8)%nat with 64%nat in C1.
  rewrite drop_ge, app_nil_r in C1 by lia.
  change (pageBuffer (usi_poll (chunk_calls ds) s0) = concat (map fst ds))
    in C1.
  change (0 + RXDATASIZE * Z.of_nat 8) with PAGE_SIZE in C2.
  pose proof (usi_poll_wf (chunk_calls ds) s0 (conj Hc (conj Hb Ht))) as Hw1.
  assert (Hi1 : initialized (usi_poll (chunk_calls ds) s0) = true)
    by (rewrite (initialized_status s); assumption).
  assert (He1 : flag SR_EXIT_TML (usi_poll (chunk_calls ds) s0) = false)
    by (unfold flag in *; rewrite C3; exact He).
  assert (Hd1 : flag SR_DEL_FLASH (usi_poll (chunk_calls ds) s0) = false)
    by (unfold flag in *; rewrite C3; exact Hdel).
  generalize dependent (usi_poll (chunk_calls ds) s0).
  intros s1 C1 C2 C3 _ C5 C6 _ C8 _ _ Hw1 Hi1 He1 Hd1. clear s0 Hs0.
  (* the passes up to the tick *)
  replace (Z.to_nat (i2cDly s))
    with (Z.to_nat (i2cDly s - 1) + 1)%nat by lia.
  rewrite replicate_add, run_app.
  rewrite countdown by (rewrite ?C8; auto; lia).
  rewrite C8, Z2Nat.id, Z.sub_diag by lia.
  cbn [replicate run]. unfold main_pass.
  set (s2 := set_i2cDly 0 s1).
  rewrite (commit_tick s2) by (subst s2; fields; auto).
  cbn [usi_poll fold_left is_running state_of].
  change (set_i2cDly (u16 (-1)) s2) with (set_i2cDly (u16 (-1)) s1).
  clear s2. set (s3 := set_i2cDly (u16 (-1)) s1).
  (* the page write *)
  unfold commit. cbv zeta.
  set (s4 := set_led (negb (led s3)) s3).
  change (flashPageAddr s4) with (flashPageAddr s1). rewrite C6.
  destruct Hw1 as (Hc1 & Hb1 & Ht1).
  assert (Haw : is_word a) by (unfold is_word, PAGE_SIZE in *; lia).
  pose proof (page_base_eq a Haw) as Hpb. rewrite Hal, Z.sub_0_r in Hpb.
  assert (Hprog : programmed (page_base a) s4 = concat (map fst ds)).
  { unfold programmed. rewrite Hpb.
    destruct (Z.eqb_spec a (TIMONEL_START - PAGE_SIZE)); [lia|]. exact C1. }
  destruct (FlashPage_contents a s4 Haw HT Hb1 Ht1
              ltac:(rewrite Hprog; exact Hby)
              ltac:(rewrite Hpb; unfold RESET_PAGE; lia)
              ltac:(rewrite Hpb; unfold PAGE_SIZE in *; lia))
    as (_ & P2 & _ & _ & _ & P6).
  cbv zeta in P2, P6. rewrite Hprog, Hpb in P6.
  change (flashPageAddr s4) with (flashPageAddr s1) in P2. rewrite C6 in P2.
  change (mem s4) with (mem s1) in P6. rewrite C5 in P6.
  destruct (FlashPage_frame a s4) as (F1 & _). cbv zeta in F1.
  apply control_inv in F1. destruct F1 as (_ & _ & _ & F4 & _).
  change (statusRegister s4) with (statusRegister s1) in F4. rewrite C3 in F4.
  generalize dependent (FlashPage a s4). intros s5 P2 P6 F4.
  fields. rewrite P2.
  split; [reflexivity|]. split_and!; auto.
  - intros i Hi5. rewrite P6 by lia.
    rewrite same_page_range by assumption.
    destruct (Z.leb_spec a (a + i)); [|lia].
    destruct (Z.ltb_spec (a + i) (a + PAGE_SIZE)); [|lia].
    cbn [andb]. rewrite Her by assumption.
    replace ((a + i) mod PAGE_SIZE) with i
      by (unfold PAGE_SIZE in *; Z.div_mod_to_equations; lia).
    apply land_FF_byte. apply rd_byte; [assumption|].
    rewrite <- C1, Hb1. unfold PAGE_SIZE in *. lia.
  - intros x Hx Hout. rewrite P6 by assumption.
    rewrite same_page_range by assumption.
    destruct (Z.leb_spec a x), (Z.ltb_spec x (a + PAGE_SIZE));
      cbn [andb]; try reflexivity; lia.
  - unfold u16. apply Z.mod_small. unfold PAGE_SIZE in *. lia.
Qed.
End Upload.

(** ** The claims at work on a build *)

#[local] Existing Instance attiny85.

(** C1 as the specification words it fails: the trampoline of an installed
    application is a relative jump before [DeleteFlash] and an erased word
    after it. *)
Lemma DeleteFlash_erases_trampoline :
  trampoline_valid (mem (boot_state installed)) = true /\
  trampoline_valid (mem (DeleteFlash (boot_state installed))) = false /\
  flash_word (mem (DeleteFlash (boot_state installed))) (TIMONEL_START - 2)
  = 0xFFFF.
Proof. vm_compute. auto. Qed.

Lemma DeleteFlash_leaves_vector_only_witness :
  PAGE_SIZE <= TIMONEL_START < 8192 /\
  length (pageBuffer (boot_state installed)) = 64%nat /\
  length (spm_temp (mem (boot_state installed))) = 32%nat /\
  rjmp_target 0 (flash_word (mem (DeleteFlash (boot_state installed))) 0)
  = TIMONEL_START / 2.
Proof.
  assert (HT : PAGE_SIZE <= TIMONEL_START < 8192) by (vm_compute; split; congruence).
  split; [exact HT|]. split; [reflexivity|]. split; [reflexivity|].
  pose proof (DeleteFlash_leaves_vector_only (boot_state installed) HT
                eq_refl eq_refl) as H.
  cbv zeta in H. destruct H as (_ & H & _). exact H.
Defined.

Lemma WritePageChunk_checksum_witness :
  rd (command (ReceiveEvent bad_frame (boot_state erased))) 0 = WRITPAGE /\
  (checksum (chunk_data (ReceiveEvent bad_frame (boot_state erased)))
   <> rd (command (ReceiveEvent bad_frame (boot_state erased))) (RXDATASIZE + 1) ->
   flag SR_APP_READY
     (fst (RequestEvent (ReceiveEvent bad_frame (boot_state erased)))) = false).
Proof.
  assert (Hop : rd (command (ReceiveEvent bad_frame (boot_state erased))) 0
                = WRITPAGE) by (vm_compute; reflexivity).
  split; [exact Hop|]. intros Hne.
  pose proof (WritePageChunk_checksum
                (ReceiveEvent bad_frame (boot_state erased)) Hop) as H.
  cbv zeta in H. destruct H as (_ & H & _).
  destruct (H Hne) as (H1 & _). exact H1.
Defined.

Lemma FlashPage_bootloader_noop_witness :
  is_word 0x1A40 /\ 0 < TIMONEL_START <= 65535 /\ TIMONEL_START <= 0x1A40 /\
  FlashPage 0x1A40 (boot_state installed) = boot_state installed.
Proof.
  assert (Ha : is_word 0x1A40) by (vm_compute; split; congruence).
  assert (HT : 0 < TIMONEL_START <= 65535) by (vm_compute; split; congruence).
  assert (Hge : TIMONEL_START <= 0x1A40) by (vm_compute; congruence).
  split; [exact Ha|]. split; [exact HT|]. split; [exact Hge|].
  destruct (FlashPage_bootloader_noop 0x1A40 (boot_state installed) Ha HT Hge)
    as (H & _).
  exact H.
Defined.

Lemma trampoline_round_trip_witness :
  is_byte 0x0E /\ is_byte 0xC0 /\ 0 < TIMONEL_START <= 8192 /\
  rjmp_target (TIMONEL_START / 2 - 1)
    (word_of_bytes
       (tplJumpLowByte (CalculateTrampoline 0x0E 0xC0 (boot_state erased)))
       (tplJumpHighByte (CalculateTrampoline 0x0E 0xC0 (boot_state erased))))
  = rjmp_target 0 (word_of_bytes 0x0E 0xC0).
Proof.
  assert (Hl : is_byte 0x0E) by (vm_compute; split; congruence).
  assert (Hh : is_byte 0xC0) by (vm_compute; split; congruence).
  assert (HT : 0 < TIMONEL_START <= 8192) by (vm_compute; split; congruence).
  split; [exact Hl|]. split; [exact Hh|]. split; [exact HT|].
  pose proof (trampoline_round_trip 0x0E 0xC0 (boot_state erased) Hl Hh HT)
    as H.
  cbv zeta in H. destruct H as (_ & _ & _ & H). exact H.
Defined.

Lemma init_handshake_witness :
  command (boot_state erased) <> [] /\
  is_word (ledToggleTimer (boot_state erased)) /\
  is_byte (exitDly (boot_state erased)) /\
  stray (state_of (run handshake (boot_state erased))) = [] /\
  initialized (state_of (run handshake (boot_state erased)))
  = flag SR_INIT_1 (state_of (run handshake (boot_state erased)))
    && flag SR_INIT_2 (state_of (run handshake (boot_state erased))).
Proof.
  assert (Hc : command (boot_state erased) <> []) by discriminate.
  assert (Ht : is_word (ledToggleTimer (boot_state erased)))
    by (vm_compute; split; congruence).
  assert (He : is_byte (exitDly (boot_state erased)))
    by (vm_compute; split; congruence).
  assert (Hs : stray (state_of (run handshake (boot_state erased))) = [])
    by (vm_compute; reflexivity).
  split; [exact Hc|]. split; [exact Ht|]. split; [exact He|].
  split; [exact Hs|].
  pose proof (init_handshake handshake (boot_state erased) Hc Ht He Hs) as H.
  cbv zeta in H. destruct H as (H & _). exact H.
Defined.

(** C5 as the specification words it fails: the master sends [InitDevice],
    reads the reply and falls silent.  [InitStep1] is set and [InitStep2]
    is not, no store has left its array, and pass 5308416 of the loop, the
    last of the exit countdown, calls [RunApplication]: the device does
    not stay in the first phase. *)
Lemma lone_flag_hands_off :
  stray (state_of (run lone_init_run (boot_state erased))) = [] /\
  flag SR_INIT_1 (state_of (run lone_init_run (boot_state erased))) = true /\
  flag SR_INIT_2 (state_of (run lone_init_run (boot_state erased))) = false /\
  Z.of_nat (length lone_init_run) = 5308416 /\
  is_running (run lone_init_run (boot_state erased)) = false.
Proof.
  unfold lone_init_run. rewrite run_app.
  set (s2 := state_of (run [[Receive [0x81]]; [Request]] (boot_state erased))).
  assert (E2 : run [[Receive [0x81]]; [Request]] (boot_state erased)
               = Running s2) by (vm_compute; reflexivity).
  rewrite E2.
  assert (H1 : stray s2 = []) by (vm_compute; reflexivity).
  assert (H2 : flag SR_INIT_1 s2 = true) by (vm_compute; reflexivity).
  assert (H3 : flag SR_INIT_2 s2 = false) by (vm_compute; reflexivity).
  assert (H4 : is_word (ledToggleTimer s2)) by (vm_compute; split; congruence).
  assert (H5 : is_byte (exitDly s2)) by (vm_compute; split; congruence).
  assert (H6 : passes_left s2 = 5308414) by (vm_compute; reflexivity).
  clearbody s2.
  set (n := Z.to_nat 5308414).
  assert (Hn : Z.of_nat n = 5308414) by (subst n; apply Z2Nat.id; lia).
  clearbody n.
  destruct (preinit_run SR_INIT_2 GETTMNLV (replicate n []) ltac:(auto) s2 H3
              (idle_dispatches GETTMNLV n s2) H4 H5) as (R1 & _ & R3).
  destruct (dispatch_flags (replicate n []) s2) as (D1 & _ & D3).
  cbv zeta in D1, D3.
  split_and!.
  - rewrite idle_stray. exact H1.
  - apply D1; auto.
  - rewrite (D3 (idle_dispatches GETTMNLV n s2)). exact H3.
  - rewrite length_app, length_replicate. cbn [length]. lia.
  - rewrite R1, length_replicate, Hn, H6. reflexivity.
Qed.

(** C6 as the specification words it fails: after the handshake, a page
    address of 5 and eight chunks, the tick that commits the page takes
    [flashPageAddr] from 5 to 64, an advance of 59. *)
Lemma commit_from_5_advances_59 :
  reachable erased (state_of (run page_at_5_run (boot_state erased))) /\
  pageIX (state_of (run page_at_5_run (boot_state erased))) = PAGE_SIZE /\
  flashPageAddr (state_of (run page_at_5_run (boot_state erased))) = 5 /\
  is_running (supervise (state_of (run page_at_5_run (boot_state erased))))
  = true /\
  pageIX (state_of (supervise
                      (state_of (run page_at_5_run (boot_state erased)))))
  = 0 /\
  flashPageAddr (state_of (supervise
                   (state_of (run page_at_5_run (boot_state erased)))))
  = 5 + 59.
Proof.
  split.
  - apply run_state_of; [constructor | vm_compute; reflexivity].
  - vm_compute. auto 10.
Qed.

Lemma full_page_commit_witness :
  wf (state_of (run page_at_5_run (boot_state erased))) /\
  is_word (flashPageAddr (state_of (run page_at_5_run (boot_state erased)))) /\
  PAGE_SIZE <= TIMONEL_START <= 65536 - PAGE_SIZE /\
  initialized (state_of (run page_at_5_run (boot_state erased))) = true /\
  i2cDly (state_of (run page_at_5_run (boot_state erased))) = 0 /\
  flag SR_EXIT_TML (state_of (run page_at_5_run (boot_state erased))) = false /\
  flag SR_DEL_FLASH (state_of (run page_at_5_run (boot_state erased))) = false /\
  pageIX (state_of (run page_at_5_run (boot_state erased))) = PAGE_SIZE /\
  pageIX (set_i2cDly I2CDLYTIME
            (commit (set_i2cDly (u16 (-1))
                       (state_of (run page_at_5_run (boot_state erased))))))
  = 0.
Proof.
  assert (H1 : wf (state_of (run page_at_5_run (boot_state erased))))
    by (unfold wf; split; [|split]; vm_compute; reflexivity).
  assert (H2 : is_word (flashPageAddr
                          (state_of (run page_at_5_run (boot_state erased)))))
    by (vm_compute; split; congruence).
  assert (H3 : PAGE_SIZE <= TIMONEL_START <= 65536 - PAGE_SIZE)
    by (vm_compute; split; congruence).
  assert (H4 : initialized (state_of (run page_at_5_run (boot_state erased)))
               = true) by (vm_compute; reflexivity).
  assert (H5 : i2cDly (state_of (run page_at_5_run (boot_state erased))) = 0)
    by (vm_compute; reflexivity).
  assert (H6 : flag SR_EXIT_TML
                 (state_of (run page_at_5_run (boot_state erased))) = false)
    by (vm_compute; reflexivity).
  assert (H7 : flag SR_DEL_FLASH
                 (state_of (run page_at_5_run (boot_state erased))) = false)
    by (vm_compute; reflexivity).
  assert (H8 : pageIX (state_of (run page_at_5_run (boot_state erased)))
               = PAGE_SIZE) by (vm_compute; reflexivity).
  split; [exact H1|]. split; [exact H2|]. split; [exact H3|].
  split; [exact H4|]. split; [exact H5|]. split; [exact H6|].
  split; [exact H7|]. split; [exact H8|].
  pose proof (full_page_commit _ H1 H2 H3 H4 H5 H6 H7 H8) as H.
  cbv zeta in H. destruct H as (_ & H & _). exact H.
Defined.

Lemma first_poll_reach (ok : callback -> state -> Prop) :
  reach ok erased InPoll first_poll.
Proof.
  apply (reach_supervise _ _ (boot_state erased)); [constructor|].
  reflexivity.
Qed.


Lemma exit_tick_witness :
  reachable installed
    (state_of (run exit_after_bad_chunk_run (boot_state installed))) /\
  stray (state_of (run exit_after_bad_chunk_run (boot_state installed)))
  = [] /\
  PAGE_SIZE <= TIMONEL_START <= 65536 - PAGE_SIZE /\
  initialized (state_of (run exit_after_bad_chunk_run (boot_state installed)))
  = true /\
  i2cDly (state_of (run exit_after_bad_chunk_run (boot_state installed))) = 0 /\
  flag SR_EXIT_TML
    (state_of (run exit_after_bad_chunk_run (boot_state installed))) = true /\
  flag SR_APP_READY
    (state_of (run exit_after_bad_chunk_run (boot_state installed))) = false /\
  main_pass []
    (state_of (run exit_after_bad_chunk_run (boot_state installed)))
  = HandOff
      (DeleteFlash
         (set_led true
            (DeleteFlash
               (set_i2cDly (u16 (-1))
                  (state_of (run exit_after_bad_chunk_run
                               (boot_state installed))))))).
Proof.
  assert (H1 : reachable installed
                 (state_of (run exit_after_bad_chunk_run (boot_state installed))))
    by (apply run_state_of; [constructor | vm_compute; reflexivity]).
  assert (H0 : stray
                 (state_of (run exit_after_bad_chunk_run (boot_state installed)))
               = []) by (vm_compute; reflexivity).
  assert (H2 : PAGE_SIZE <= TIMONEL_START <= 65536 - PAGE_SIZE)
    by (vm_compute; split; congruence).
  assert (H3 : initialized
                 (state_of (run exit_after_bad_chunk_run (boot_state installed)))
               = true) by (vm_compute; reflexivity).
  assert (H4 : i2cDly
                 (state_of (run exit_after_bad_chunk_run (boot_state installed)))
               = 0) by (vm_compute; reflexivity).
  assert (H5 : flag SR_EXIT_TML
                 (state_of (run exit_after_bad_chunk_run (boot_state installed)))
               = true) by (vm_compute; reflexivity).
  assert (H6 : flag SR_APP_READY
                 (state_of (run exit_after_bad_chunk_run (boot_state installed)))
               = false) by (vm_compute; reflexivity).
  split; [exact H1|]. split; [exact H0|]. split; [exact H2|].
  split; [exact H3|]. split; [exact H4|]. split; [exact H5|].
  split; [exact H6|].
  pose proof (exit_tick installed [] _ H1 H0 H2 H3 H4 H5) as H.
  cbv zeta in H. destruct H as (_ & H). destruct (H H6) as (H7 & _).
  exact H7.
Defined.

(** C9 as the specification words it fails: [SetPageAddress] with the
    address 1 leaves [flashPageAddr] at 1. *)
Lemma flashPageAddr_not_aligned :
  ~ (forall s, reachable erased s -> flashPageAddr s mod PAGE_SIZE = 0).
Proof.
  intros H.
  assert (R : reachable erased
                (state_of (run odd_address_run (boot_state erased))))
    by (apply run_state_of; [constructor | vm_compute; reflexivity]).
  apply H in R. vm_compute in R. discriminate R.
Qed.

Lemma flashPageAddr_aligned_witness :
  reach page_addressed erased InPoll page_1_addressed /\
  stray page_1_addressed = [] /\
  flashPageAddr page_1_addressed mod PAGE_SIZE = 0.
Proof.
  assert (Hs : stray page_1_addressed = []) by (vm_compute; reflexivity).
  assert (Hr : reach page_addressed erased InPoll page_1_addressed).
  { apply reach_call.
    - apply reach_call; [apply first_poll_reach|].
      intros H. discriminate H.
    - intros _ _. vm_compute. reflexivity. }
  split; [exact Hr|]. split; [exact Hs|].
  destruct (flashPageAddr_aligned erased InPoll page_1_addressed Hr Hs)
    as (H & _).
  exact H.
Defined.

(** C10 as the specification words it fails: [FlashPage 0] programs page 0
    and then the trampoline page at [0x19C0], which is not its argument
    with the low bits cleared. *)
Lemma FlashPage_0_writes_trampoline :
  page_base 0 = 0 /\
  page_writes (spm_log (mem (FlashPage 0 (boot_state erased))))
  = [0; 0x19C0] /\
  ~ Forall (fun w => w = page_base 0)
      (page_writes (spm_log (mem (FlashPage 0 (boot_state erased))))).
Proof.
  split; [reflexivity|]. split; [vm_compute; reflexivity|].
  intros H. vm_compute in H.
  apply Forall_cons in H. destruct H as [_ H].
  apply Forall_cons in H. destruct H as [H _]. discriminate H.
Qed.

Lemma FlashPage_writes_page_aligned_witness :
  is_word 70 /\
  PAGE_SIZE <= TIMONEL_START <= 65536 - PAGE_SIZE /\
  length (pageBuffer (boot_state erased)) = 64%nat /\
  length (spm_temp (mem (boot_state erased))) = 32%nat /\
  page_base 70 = 70 - 70 mod PAGE_SIZE.
Proof.
  assert (H1 : is_word 70) by (vm_compute; split; congruence).
  assert (H2 : PAGE_SIZE <= TIMONEL_START <= 65536 - PAGE_SIZE)
    by (vm_compute; split; congruence).
  split; [exact H1|]. split; [exact H2|]. split; [reflexivity|].
  split; [reflexivity|].
  pose proof (FlashPage_writes_page_aligned 70 (boot_state erased) H1 H2
                eq_refl eq_refl) as H.
  cbv zeta in H. destruct H as (H & _). exact H.
Defined.

(** ** The further properties at work on the build *)

Lemma ReceiveEvent_stores_frame_witness :
  (length [0x81] <= length (command (boot_state erased)))%nat /\
  (length (command (boot_state erased)) <= 255)%nat /\
  command (ReceiveEvent [0x81] (boot_state erased)) = 0x81 :: replicate 17 0.
Proof.
  assert (H1 : (length [0x81] <= length (command (boot_state erased)))%nat)
    by (vm_compute; lia).
  assert (H2 : (length (command (boot_state erased)) <= 255)%nat)
    by (vm_compute; lia).
  split; [exact H1|]. split; [exact H2|].
  rewrite (ReceiveEvent_stores_frame [0x81] (boot_state erased) H1 H2).
  reflexivity.
Defined.

Lemma WRITPAGE_buffers_chunk_witness :
  rd (command (ReceiveEvent chunk_frame (boot_state erased))) 0 = WRITPAGE /\
  length (pageBuffer (ReceiveEvent chunk_frame (boot_state erased))) = 64%nat /\
  0 <= pageIX (ReceiveEvent chunk_frame (boot_state erased)) /\
  pageIX (ReceiveEvent chunk_frame (boot_state erased)) + RXDATASIZE
  <= PAGE_SIZE /\
  pageIX (fst (RequestEvent (ReceiveEvent chunk_frame (boot_state erased))))
  = pageIX (ReceiveEvent chunk_frame (boot_state erased)) + RXDATASIZE.
Proof.
  assert (H1 : rd (command (ReceiveEvent chunk_frame (boot_state erased))) 0
               = WRITPAGE) by (vm_compute; reflexivity).
  assert (H2 : length (pageBuffer (ReceiveEvent chunk_frame (boot_state erased)))
               = 64%nat) by (vm_compute; reflexivity).
  assert (H3 : 0 <= pageIX (ReceiveEvent chunk_frame (boot_state erased)))
    by (vm_compute; congruence).
  assert (H4 : pageIX (ReceiveEvent chunk_frame (boot_state erased))
               + RXDATASIZE <= PAGE_SIZE) by (vm_compute; congruence).
  split; [exact H1|]. split; [exact H2|]. split; [exact H3|].
  split; [exact H4|].
  pose proof (WRITPAGE_buffers_chunk _ H1 H2 H3 H4) as H.
  cbv zeta in H. destruct H as (_ & H & _). exact H.
Defined.

Lemma bytes_of_boot_buffer : Forall is_byte (pageBuffer (boot_state erased)).
Proof. apply Forall_replicate. vm_compute. split; congruence. Qed.

Lemma FlashPage_programs_buffer_witness :
  is_word 0x40 /\
  PAGE_SIZE <= TIMONEL_START <= 65536 - PAGE_SIZE /\
  length (pageBuffer (boot_state erased)) = 64%nat /\
  length (spm_temp (mem (boot_state erased))) = 32%nat /\
  Forall is_byte (pageBuffer (boot_state erased)) /\
  0 < page_base 0x40 < TIMONEL_START - PAGE_SIZE /\
  pageBuffer (FlashPage 0x40 (boot_state erased))
  = pageBuffer (boot_state erased).
Proof.
  assert (H1 : is_word 0x40) by (vm_compute; split; congruence).
  assert (H2 : PAGE_SIZE <= TIMONEL_START <= 65536 - PAGE_SIZE)
    by (vm_compute; split; congruence).
  assert (H3 : 0 < page_base 0x40 < TIMONEL_START - PAGE_SIZE)
    by (vm_compute; split; congruence).
  split; [exact H1|]. split; [exact H2|]. split; [reflexivity|].
  split; [reflexivity|]. split; [exact bytes_of_boot_buffer|].
  split; [exact H3|].
  pose proof (FlashPage_programs_buffer 0x40 (boot_state erased) H1 H2
                eq_refl eq_refl bytes_of_boot_buffer H3) as H.
  cbv zeta in H. destruct H as (_ & _ & _ & H & _). exact H.
Defined.

Lemma FlashPage_trampoline_page_witness :
  is_word 0x19C0 /\
  2 * PAGE_SIZE <= TIMONEL_START <= 65536 - PAGE_SIZE /\
  is_byte (tplJumpLowByte (boot_state erased)) /\
  is_byte (tplJumpHighByte (boot_state erased)) /\
  page_base 0x19C0 = TIMONEL_START - PAGE_SIZE /\
  flash (mem (FlashPage 0x19C0 (boot_state erased))) (TIMONEL_START - 2)
  = Z.land (flash (mem (boot_state erased)) (TIMONEL_START - 2))
           (tplJumpLowByte (boot_state erased)).
Proof.
  assert (H1 : is_word 0x19C0) by (vm_compute; split; congruence).
  assert (H2 : 2 * PAGE_SIZE <= TIMONEL_START <= 65536 - PAGE_SIZE)
    by (vm_compute; split; congruence).
  assert (H3 : is_byte (tplJumpLowByte (boot_state erased)))
    by (vm_compute; split; congruence).
  assert (H4 : is_byte (tplJumpHighByte (boot_state erased)))
    by (vm_compute; split; congruence).
  assert (H5 : page_base 0x19C0 = TIMONEL_START - PAGE_SIZE)
    by (vm_compute; reflexivity).
  split; [exact H1|]. split; [exact H2|]. split; [exact H3|].
  split; [exact H4|]. split; [exact H5|].
  pose proof (FlashPage_trampoline_page 0x19C0 (boot_state erased) H1 H2
                eq_refl eq_refl bytes_of_boot_buffer H3 H4 H5) as H.
  cbv zeta in H. destruct H as (_ & H & _). exact H.
Defined.

Lemma FlashPage_installs_vectors_witness :
  is_word 0 /\ page_base 0 = RESET_PAGE /\
  2 * PAGE_SIZE <= TIMONEL_START < 8192 /\
  flashPageAddr (boot_state erased) < TIMONEL_START - PAGE_SIZE /\
  rjmp_target 0 (flash_word (mem (FlashPage 0 (boot_state erased))) 0)
  = TIMONEL_START / 2.
Proof.
  assert (H1 : is_word 0) by (vm_compute; split; congruence).
  assert (H2 : page_base 0 = RESET_PAGE) by (vm_compute; reflexivity).
  assert (H3 : 2 * PAGE_SIZE <= TIMONEL_START < 8192)
    by (vm_compute; split; congruence).
  assert (H4 : flashPageAddr (boot_state erased) < TIMONEL_START - PAGE_SIZE)
    by (vm_compute; reflexivity).
  split; [exact H1|]. split; [exact H2|]. split; [exact H3|].
  split; [exact H4|].
  pose proof (FlashPage_installs_vectors 0 (boot_state erased) H1 H2 H3
                eq_refl eq_refl bytes_of_boot_buffer H4
                (fun x _ => or_introl eq_refl) (fun x _ => eq_refl)) as H.
  cbv zeta in H. destruct H as (_ & H & _). exact H.
Defined.

Lemma GETTMNLV_reply_witness :
  rd (command (ReceiveEvent [0x82] (boot_state erased))) 0 = GETTMNLV /\
  is_byte GETTMNLV /\ 0 <= TIMONEL_START < 65536 /\
  snd (RequestEvent (ReceiveEvent [0x82] (boot_state erased)))
  = [0x7D; 78; 66; 84; 0; 7; 0x1A; 0x00].
Proof.
  assert (H1 : rd (command (ReceiveEvent [0x82] (boot_state erased))) 0
               = GETTMNLV) by (vm_compute; reflexivity).
  assert (H2 : is_byte GETTMNLV) by (vm_compute; split; congruence).
  assert (H3 : 0 <= TIMONEL_START < 65536) by (vm_compute; split; congruence).
  split; [exact H1|]. split; [exact H2|]. split; [exact H3|].
  pose proof (GETTMNLV_reply _ H1 H2 H3) as H.
  cbv zeta in H. destruct H as (H & _). exact H.
Defined.

Lemma SetPageAddress_round_trip_witness :
  is_word 0x0140 /\ length (command (boot_state erased)) = 18%nat /\
  flashPageAddr
    (fst (RequestEvent (ReceiveEvent [STPGADDR; 0x01; 0x40] (boot_state erased))))
  = 0x0140.
Proof.
  assert (H1 : is_word 0x0140) by (vm_compute; split; congruence).
  split; [exact H1|]. split; [reflexivity|].
  pose proof (SetPageAddress_round_trip 0x0140 (boot_state erased) H1 eq_refl)
    as H.
  cbv zeta in H.
  change (0x0140 / 256) with 0x01 in H. change (0x0140 mod 256) with 0x40 in H.
  rewrite H. reflexivity.
Defined.

Lemma unknown_command_witness :
  ~ In 0x55 [GETTMNLV; EXITTMNL; DELFLASH; STPGADDR; WRITPAGE; INITTINY] /\
  length (command (boot_state erased)) = 18%nat /\
  (length [0x55; 1; 2] <= 18)%nat /\
  snd (RequestEvent (ReceiveEvent [0x55; 1; 2] (boot_state erased)))
  = [UNKNOWNC; UNKNOWNC; UNKNOWNC].
Proof.
  assert (H1 : ~ In 0x55
                 [GETTMNLV; EXITTMNL; DELFLASH; STPGADDR; WRITPAGE; INITTINY])
    by (vm_compute; intuition discriminate).
  assert (H3 : (length [0x55; 1; 2] <= 18)%nat) by (vm_compute; lia).
  split; [exact H1|]. split; [reflexivity|]. split; [exact H3|].
  pose proof (unknown_command 0x55 [1; 2] (boot_state erased) H1 eq_refl H3)
    as H.
  cbv zeta in H. destruct H as (_ & H). rewrite H. reflexivity.
Defined.

Lemma preinit_timeout_witness :
  is_word (ledToggleTimer (boot_state erased)) /\
  is_byte (exitDly (boot_state erased)) /\
  stray (state_of (run [[]; [Receive [0x82]]; [Request]] (boot_state erased)))
  = [] /\
  (flag SR_INIT_1 (boot_state erased) = false /\
   dispatches INITTINY [[]; [Receive [0x82]]; [Request]] (boot_state erased)
   = false) /\
  is_running (run [[]; [Receive [0x82]]; [Request]] (boot_state erased))
  = true.
Proof.
  assert (H1 : is_word (ledToggleTimer (boot_state erased)))
    by (vm_compute; split; congruence).
  assert (H2 : is_byte (exitDly (boot_state erased)))
    by (vm_compute; split; congruence).
  assert (H3 : flag SR_INIT_1 (boot_state erased) = false /\
               dispatches INITTINY [[]; [Receive [0x82]]; [Request]]
                 (boot_state erased) = false)
    by (split; vm_compute; reflexivity).
  assert (H0 : stray (state_of (run [[]; [Receive [0x82]]; [Request]]
                                  (boot_state erased))) = [])
    by (vm_compute; reflexivity).
  split; [exact H1|]. split; [exact H2|]. split; [exact H0|].
  split; [exact H3|].
  destruct (preinit_timeout [[]; [Receive [0x82]]; [Request]]
              (boot_state erased) H1 H2 H0 (or_introl H3)) as (H & _).
  rewrite H. reflexivity.
Defined.

Lemma flags_sticky_witness :
  stray (state_of (run [[Receive chunk_frame]; [Request]]
                     (state_of (run (handshake
                                     ++ [[Receive bad_frame]; [Request]])
                                  (boot_state installed))))) = [] /\
  flag SR_APP_READY
    (state_of (run (handshake ++ [[Receive bad_frame]; [Request]])
                 (boot_state installed))) = false /\
  flag SR_APP_READY
    (state_of (run [[Receive chunk_frame]; [Request]]
                 (state_of (run (handshake
                                 ++ [[Receive bad_frame]; [Request]])
                              (boot_state installed))))) = false.
Proof.
  set (s := state_of (run (handshake ++ [[Receive bad_frame]; [Request]])
                        (boot_state installed))).
  assert (H0 : stray (state_of (run [[Receive chunk_frame]; [Request]] s))
               = []) by (vm_compute; reflexivity).
  assert (H1 : flag SR_APP_READY s = false) by (vm_compute; reflexivity).
  split; [exact H0|]. split; [exact H1|].
  destruct (flags_sticky [[Receive chunk_frame]; [Request]] s H0) as (H & _).
  exact (H H1).
Defined.

Lemma initialized_idle_forever_witness :
  initialized handshaken = true /\
  0 <= i2cDly handshaken <= I2CDLYTIME /\
  flag SR_EXIT_TML handshaken = false /\
  flag SR_DEL_FLASH handshaken = false /\
  pageIX handshaken <> PAGE_SIZE /\
  run (replicate 100 []) handshaken
  = Running (set_i2cDly 32667 handshaken).
Proof.
  assert (H1 : initialized handshaken = true) by (vm_compute; reflexivity).
  assert (H2 : 0 <= i2cDly handshaken <= I2CDLYTIME)
    by (vm_compute; split; congruence).
  assert (H3 : flag SR_EXIT_TML handshaken = false) by (vm_compute; reflexivity).
  assert (H4 : flag SR_DEL_FLASH handshaken = false) by (vm_compute; reflexivity).
  assert (H5 : pageIX handshaken <> PAGE_SIZE) by (vm_compute; congruence).
  split; [exact H1|]. split; [exact H2|]. split; [exact H3|].
  split; [exact H4|]. split; [exact H5|].
  exact (initialized_idle_forever 100 handshaken H1 H2 H3 H4 H5).
Defined.

Lemma bootloader_never_overwritten_witness :
  reach chunk_fits erased InPoll one_chunk /\
  PAGE_SIZE <= TIMONEL_START <= 65536 - PAGE_SIZE /\
  stray one_chunk = [] /\
  flash (mem one_chunk) TIMONEL_START = erased TIMONEL_START.
Proof.
  assert (H1 : reach chunk_fits erased InPoll one_chunk).
  { apply reach_call.
    - apply reach_call; [apply first_poll_reach|].
      intros H. discriminate H.
    - intros _ _. vm_compute. congruence. }
  assert (H2 : PAGE_SIZE <= TIMONEL_START <= 65536 - PAGE_SIZE)
    by (vm_compute; split; congruence).
  assert (H3 : stray one_chunk = []) by (vm_compute; reflexivity).
  assert (H4 : TIMONEL_START <= TIMONEL_START) by (vm_compute; congruence).
  split; [exact H1|]. split; [exact H2|]. split; [exact H3|].
  destruct (bootloader_never_overwritten chunk_fits erased InPoll one_chunk
              H1 H2 H3 TIMONEL_START H4) as (H & _).
  exact H.
Defined.

Lemma no_stray_store_witness :
  reach in_bounds erased InPoll one_chunk /\ stray one_chunk = [].
Proof.
  assert (H1 : reach in_bounds erased InPoll one_chunk).
  { apply reach_call.
    - apply reach_call; [apply first_poll_reach|].
      split.
      + intros H. discriminate H.
      + intros rx H. injection H as <-. vm_compute. lia.
    - split.
      + intros _ _. vm_compute. congruence.
      + intros rx H. discriminate H. }
  split; [exact H1|].
  exact (no_stray_store erased InPoll one_chunk H1).
Defined.

Lemma delete_tick_witness :
  wf delete_requested /\
  PAGE_SIZE <= TIMONEL_START < 8192 /\
  initialized delete_requested = true /\ i2cDly delete_requested = 0 /\
  flag SR_DEL_FLASH delete_requested = true /\
  flag SR_EXIT_TML delete_requested = false /\
  main_pass [] delete_requested
  = HandOff (DeleteFlash
               (set_led true (set_i2cDly (u16 (-1)) delete_requested))).
Proof.
  assert (H1 : wf delete_requested)
    by (unfold wf; split; [|split]; vm_compute; reflexivity).
  assert (H2 : PAGE_SIZE <= TIMONEL_START < 8192)
    by (vm_compute; split; congruence).
  assert (H3 : initialized delete_requested = true)
    by (vm_compute; reflexivity).
  assert (H4 : i2cDly delete_requested = 0) by (vm_compute; reflexivity).
  assert (H5 : flag SR_DEL_FLASH delete_requested = true)
    by (vm_compute; reflexivity).
  assert (H6 : flag SR_EXIT_TML delete_requested = false)
    by (vm_compute; reflexivity).
  split; [exact H1|]. split; [exact H2|]. split; [exact H3|].
  split; [exact H4|]. split; [exact H5|]. split; [exact H6|].
  pose proof (delete_tick [] delete_requested H1 H2 H3 H4 H5 H6) as H.
  cbv zeta in H. destruct H as (H & _). exact H.
Defined.

Lemma good_chunks_sized :
  Forall (fun d : list Z * Z =>
            length (fst d) = 8%nat /\ Forall is_byte (fst d)) good_chunks.
Proof.
  apply Forall_replicate. split; [reflexivity|]. cbn [fst].
  repeat (apply Forall_cons; split; [vm_compute; split; congruence|]).
  apply Forall_nil_2.
Qed.

Lemma chunks_fill_buffer_witness :
  length (command (boot_state erased)) = 18%nat /\
  length (pageBuffer (boot_state erased)) = 64%nat /\
  Forall (fun d : list Z * Z => length (fst d) = 8%nat) good_chunks /\
  0 <= pageIX (boot_state erased) /\
  pageIX (boot_state erased) + RXDATASIZE * Z.of_nat (length good_chunks)
  <= PAGE_SIZE /\
  pageIX (usi_poll (chunk_calls good_chunks) (boot_state erased)) = PAGE_SIZE.
Proof.
  assert (H3 : Forall (fun d : list Z * Z => length (fst d) = 8%nat)
                      good_chunks)
    by (apply Forall_replicate; reflexivity).
  assert (H4 : 0 <= pageIX (boot_state erased)) by (vm_compute; congruence).
  assert (H5 : pageIX (boot_state erased)
               + RXDATASIZE * Z.of_nat (length good_chunks) <= PAGE_SIZE)
    by (vm_compute; congruence).
  split; [reflexivity|]. split; [reflexivity|]. split; [exact H3|].
  split; [exact H4|]. split; [exact H5|].
  pose proof (chunks_fill_buffer good_chunks (boot_state erased)
                eq_refl eq_refl H3 H4 H5) as H.
  cbv zeta in H. destruct H as (_ & H & _). exact H.
Defined.

Lemma upload_page_witness :
  wf addressed_64 /\
  PAGE_SIZE <= TIMONEL_START <= 65536 - PAGE_SIZE /\
  initialized addressed_64 = true /\
  flag SR_EXIT_TML addressed_64 = false /\
  flag SR_DEL_FLASH addressed_64 = false /\
  0 < i2cDly addressed_64 <= I2CDLYTIME /\
  pageIX addressed_64 = 0 /\
  flashPageAddr addressed_64 mod PAGE_SIZE = 0 /\
  0 < flashPageAddr addressed_64 < TIMONEL_START - PAGE_SIZE /\
  length good_chunks = 8%nat /\
  forallb chunk_ok good_chunks = true /\
  (forall i, 0 <= i < PAGE_SIZE ->
     flash (mem addressed_64) (flashPageAddr addressed_64 + i) = 0xFF) /\
  flashPageAddr
    (state_of
       (run (chunk_calls good_chunks
             :: replicate (Z.to_nat (i2cDly addressed_64)) [])
            addressed_64))
  = flashPageAddr addressed_64 + PAGE_SIZE.
Proof.
  assert (H1 : wf addressed_64)
    by (unfold wf; split; [|split]; vm_compute; reflexivity).
  assert (H2 : PAGE_SIZE <= TIMONEL_START <= 65536 - PAGE_SIZE)
    by (vm_compute; split; congruence).
  assert (H3 : initialized addressed_64 = true) by (vm_compute; reflexivity).
  assert (H4 : flag SR_EXIT_TML addressed_64 = false)
    by (vm_compute; reflexivity).
  assert (H5 : flag SR_DEL_FLASH addressed_64 = false)
    by (vm_compute; reflexivity).
  assert (H6 : 0 < i2cDly addressed_64 <= I2CDLYTIME)
    by (vm_compute; split; congruence).
  assert (H7 : pageIX addressed_64 = 0) by (vm_compute; reflexivity).
  assert (H8 : flashPageAddr addressed_64 mod PAGE_SIZE = 0)
    by (vm_compute; reflexivity).
  assert (H9 : 0 < flashPageAddr addressed_64 < TIMONEL_START - PAGE_SIZE)
    by (vm_compute; split; congruence).
  assert (H10 : length good_chunks = 8%nat) by reflexivity.
  assert (H11 : forallb chunk_ok good_chunks = true)
    by (vm_compute; reflexivity).
  assert (H12 : forall i, 0 <= i < PAGE_SIZE ->
            flash (mem addressed_64) (flashPageAddr addressed_64 + i) = 0xFF)
    by (intros i _; vm_compute; reflexivity).
  split; [exact H1|]. split; [exact H2|]. split; [exact H3|].
  split; [exact H4|]. split; [exact H5|]. split; [exact H6|].
  split; [exact H7|]. split; [exact H8|]. split; [exact H9|].
  split; [exact H10|]. split; [exact H11|]. split; [exact H12|].
  pose proof (upload_page good_chunks addressed_64 H1 H2 H3 H4 H5 H6 H7)
    as H.
  cbv zeta in H.
  destruct (H H8 H9 H10 good_chunks_sized H11 H12) as (_ & _ & _ & R & _).
  exact R.
Defined.
